(** * Foodgram backend: shopping cart export, membership toggles and
      recipe validation

    A shallow embedding of [backend/api/views.py],
    [backend/api/serializers.py], [backend/recipes/models.py] and
    [backend/users/views.py].

    Python values whose dynamic type the code depends on are kept dynamic
    ([pyobj]); exceptions are an explicit [result] type; database tables
    are lists of rows inside a [Store] threaded through the views; the
    insertion-ordered [dict] built by [download_cart] is an association
    list; [decimal.Decimal] is a coefficient with a power-of-ten exponent.
    What the Django / REST framework machinery does around the
    repository's functions (field dispatch, [validate_<field>] hooks,
    [get_object_or_404], the exception handler) is written out next to the
    function that relies on it.  What the code leaves to the database is
    a parameter: the order of the rows of a query without an ordering
    ([row_order]) and the backend that writes a decimal column
    ([backend]). *)

From Stdlib Require Import ZArith List String Ascii Bool Lia QArith.
From Stdlib Require Import Permutation.
From Stdlib Require Import Numbers.DecimalString.
Import ListNotations.

Set Warnings "-register-all".

Local Open Scope string_scope.
Local Open Scope list_scope.
Local Open Scope Z_scope.

(* ================================================================== *)
(** ** Python exceptions and results *)

(** The body of a [serializers.ValidationError]: a message, a
    field-keyed mapping, or a list (one entry per item of a list field). *)
Inductive detail : Type :=
| Msg (text : string)
| Fields (errors : list (string * detail))
| Items (errors : list detail).

Inductive exn : Type :=
| Http404
| IntegrityError (constraint_name : string)
| ValidationError (d : detail)
| TypeError (msg : string)
| AttributeError (msg : string)
| ImproperlyConfigured (msg : string)
| InvalidOperation
| ValueError (msg : string)
| binascii_Error
| DataError (msg : string).

Inductive result (A : Type) : Type :=
| Ok (a : A)
| Raise (e : exn).
Arguments Ok {A} a.
Arguments Raise {A} e.

Definition bind {A B : Type} (r : result A) (k : A -> result B) : result B :=
  match r with
  | Ok a => k a
  | Raise e => Raise e
  end.

Notation "x <- c ;; k" := (bind c (fun x => k))
  (at level 61, c at next level, right associativity).

(* ================================================================== *)
(** ** decimal.Decimal *)

(** A finite [Decimal]: [coef * 10 ^ expo].  The sign is the sign of
    [coef] (negative zero is not represented). *)
Record PyDecimal : Type := mkDecimal { coef : Z; expo : Z }.

(** [Decimal.__add__]: both operands are brought to the smaller exponent
    and the coefficients are added.  The default context keeps 28
    significant digits, so the sum is exact as long as it has at most 28
    digits; rounding beyond that is not modelled. *)
Definition Decimal_add (a b : PyDecimal) : PyDecimal :=
  let e := Z.min (expo a) (expo b) in
  mkDecimal (coef a * 10 ^ (expo a - e) + coef b * 10 ^ (expo b - e)) e.

(** The value as a rational number. *)
Definition Decimal_value (a : PyDecimal) : Q :=
  if 0 <=? expo a then inject_Z (coef a * 10 ^ expo a)
  else Qmake (coef a) (Z.to_pos (10 ^ (- expo a))).

(** [len(value.as_tuple().digits)]: the number of decimal digits of a
    non-negative coefficient, 1 for zero. *)
Fixpoint num_digits_fuel (fuel : nat) (n : Z) : nat :=
  match fuel with
  | O => 1%nat
  | S fuel' => if n <? 10 then 1%nat else S (num_digits_fuel fuel' (n / 10))
  end.

Definition num_digits (n : Z) : nat :=
  num_digits_fuel (Z.to_nat (Z.log2_up (Z.abs n + 1))) (Z.abs n).

(** [str(n)] for an integer. *)
Definition str_nat (n : Z) : string :=
  NilZero.string_of_uint (N.to_uint (Z.to_N n)).

Definition str_int (n : Z) : string :=
  if n <? 0 then ("-" ++ str_nat (- n))%string else str_nat n.

Fixpoint zeros (n : nat) : string :=
  match n with
  | O => ""
  | S n' => String "0" (zeros n')
  end.

(** [Decimal.__str__]: plain notation when the exponent is not positive
    and there are fewer than six leading zeros after the point,
    scientific notation otherwise. *)
Definition Decimal_str (a : PyDecimal) : string :=
  let sign := if coef a <? 0 then "-" else "" in
  let int_ := str_nat (Z.abs (coef a)) in
  let len := Z.of_nat (String.length int_) in
  let leftdigits := expo a + len in
  let dotplace := if (expo a <=? 0) && (-6 <? leftdigits) then leftdigits else 1 in
  let intpart :=
    if dotplace <=? 0 then "0"
    else if len <=? dotplace
         then (int_ ++ zeros (Z.to_nat (dotplace - len)))%string
    else substring 0 (Z.to_nat dotplace) int_ in
  let fracpart :=
    if dotplace <=? 0
    then ("." ++ zeros (Z.to_nat (- dotplace)) ++ int_)%string
    else if len <=? dotplace then ""
    else ("." ++ substring (Z.to_nat dotplace) (Z.to_nat (len - dotplace)) int_)%string in
  let plus := if 0 <=? leftdigits - dotplace then "+" else "" in
  let exp :=
    if leftdigits =? dotplace then ""
    else ("E" ++ plus ++ str_int (leftdigits - dotplace))%string in
  (sign ++ intpart ++ fracpart ++ exp)%string.

(** [Decimal.quantize] to [places] fractional digits under a context of
    precision [prec] and rounding [ROUND_HALF_EVEN]: the operation is
    invalid when the quantized coefficient has more than [prec] digits. *)
Definition round_half_even (n d : Z) : Z :=
  let q := n / d in
  let r := n mod d in
  if 2 * r <? d then q
  else if d <? 2 * r then q + 1
  else if Z.even q then q else q + 1.

Definition Decimal_quantize (places : Z) (prec : nat) (a : PyDecimal)
  : result PyDecimal :=
  let e := - places in
  let c := if e <=? expo a then coef a * 10 ^ (expo a - e)
           else round_half_even (coef a) (10 ^ (e - expo a)) in
  if (num_digits c <=? prec)%nat then Ok (mkDecimal c e)
  else Raise InvalidOperation.

(* ================================================================== *)
(** ** Dynamic Python values *)

(** A [float] is given by the rational number it stands for (the finite
    ones only), a file by its content and its name. *)
Inductive pyobj : Type :=
| PyNone
| PyInt (z : Z)
| PyFloat (q : Q)
| PyDec (d : PyDecimal)
| PyStr (s : string)
| PyFile (content name : string)
| PyInstance (model : string) (pk : Z)
| PyList (items : list pyobj)
| PyDict (items : list (string * pyobj)).

(** The number that an [int], a [float] or a [Decimal] stands for. *)
Definition number_value (o : pyobj) : option Q :=
  match o with
  | PyInt z => Some (inject_Z z)
  | PyFloat q => Some q
  | PyDec d => Some (Decimal_value d)
  | _ => None
  end.

(** [==] on the values the code compares (ingredient ids and tags are
    model instances, equal when class and primary key agree).  Numbers
    of different types are equal when they stand for the same number.
    Lists are compared element by element, dicts item by item in order. *)
Fixpoint py_eqb (a b : pyobj) : bool :=
  match a, b with
  | PyNone, PyNone => true
  | PyInt x, PyInt y => x =? y
  | PyStr s, PyStr t => String.eqb s t
  | PyInstance m p, PyInstance m' p' => String.eqb m m' && (p =? p')
  | PyList xs, PyList ys =>
      (fix go (xs ys : list pyobj) : bool :=
         match xs, ys with
         | [], [] => true
         | x :: xs', y :: ys' => py_eqb x y && go xs' ys'
         | _, _ => false
         end) xs ys
  | PyDict xs, PyDict ys =>
      (fix go (xs ys : list (string * pyobj)) : bool :=
         match xs, ys with
         | [], [] => true
         | (k, x) :: xs', (k', y) :: ys' =>
             String.eqb k k' && py_eqb x y && go xs' ys'
         | _, _ => false
         end) xs ys
  | PyFile c n, PyFile c' n' => String.eqb c c' && String.eqb n n'
  | _, _ =>
      match number_value a, number_value b with
      | Some x, Some y => Qeq_bool x y
      | _, _ => false
      end
  end.

(** [x in l] for a list [l]. *)
Definition py_in (x : pyobj) (l : list pyobj) : bool :=
  existsb (py_eqb x) l.

Definition type_name (o : pyobj) : string :=
  match o with
  | PyNone => "NoneType"
  | PyInt _ => "int"
  | PyFloat _ => "float"
  | PyDec _ => "decimal.Decimal"
  | PyStr _ => "str"
  | PyFile _ _ => "ContentFile"
  | PyInstance m _ => m
  | PyList _ => "list"
  | PyDict _ => "dict"
  end.

(* ================================================================== *)
(** ** Insertion-ordered dictionaries *)

Section Dict.
Context {V : Type}.

Fixpoint dict_get (d : list (string * V)) (k : string) : option V :=
  match d with
  | [] => None
  | (k', v) :: d' => if String.eqb k k' then Some v else dict_get d' k
  end.

(** [d[k] = v]: an existing key keeps its position, a new key goes to
    the end. *)
Fixpoint dict_set (d : list (string * V)) (k : string) (v : V)
  : list (string * V) :=
  match d with
  | [] => [(k, v)]
  | (k', v') :: d' =>
      if String.eqb k k' then (k, v) :: d' else (k', v') :: dict_set d' k v
  end.

Definition dict_contains (d : list (string * V)) (k : string) : bool :=
  match dict_get d k with Some _ => true | None => false end.
End Dict.

(** [o.get(key)]: defined on dicts only; a missing key gives [None]. *)
Definition py_get (o : pyobj) (key : string) : result pyobj :=
  match o with
  | PyDict items =>
      match dict_get items key with
      | Some v => Ok v
      | None => Ok PyNone
      end
  | _ => Raise (AttributeError
                  ("'" ++ type_name o ++ "' object has no attribute 'get'")%string)
  end.

(** [len(o)]. *)
Definition py_len (o : pyobj) : result Z :=
  match o with
  | PyList items => Ok (Z.of_nat (List.length items))
  | PyDict items => Ok (Z.of_nat (List.length items))
  | PyStr s => Ok (Z.of_nat (String.length s))
  | _ => Raise (TypeError
                  ("object of type '" ++ type_name o ++ "' has no len()")%string)
  end.

(** [for x in o]: the items of a list, the keys of a dict, the
    characters of a string. *)
Definition py_iter (o : pyobj) : result (list pyobj) :=
  match o with
  | PyList items => Ok items
  | PyDict items => Ok (map (fun kv => PyStr (fst kv)) items)
  | PyStr s => Ok (map (fun c => PyStr (String c "")) (list_ascii_of_string s))
  | _ => Raise (TypeError
                  ("'" ++ type_name o ++ "' object is not iterable")%string)
  end.

(** [not o]: truthiness. *)
Definition py_not (o : pyobj) : bool :=
  match o with
  | PyNone => true
  | PyInt z => z =? 0
  | PyFloat q => Qeq_bool q 0
  | PyDec d => coef d =? 0
  | PyStr s => String.eqb s ""
  | PyFile _ _ => false
  | PyInstance _ _ => false
  | PyList items => match items with [] => true | _ => false end
  | PyDict items => match items with [] => true | _ => false end
  end.

(** The float literal [0.01]: the binary64 number nearest to one
    hundredth, [5764607523034235 / 2^59]. *)
Definition float_0_01 : Q := Qmake 5764607523034235 (2 ^ 59).

Definition Qlt_bool (x y : Q) : bool :=
  Qnum x * QDen y <? Qnum y * QDen x.

(** [o < q] for a numeric literal [q]: an [int], a [float] and a
    [Decimal] are compared by the numbers they stand for, nothing else
    is ordered with a number. *)
Definition py_lt (o : pyobj) (q : Q) (literal : string) : result bool :=
  match number_value o with
  | Some x => Ok (Qlt_bool x q)
  | None => Raise (TypeError
                  ("'<' not supported between instances of '" ++ type_name o
                   ++ "' and '" ++ literal ++ "'")%string)
  end.

(* ================================================================== *)
(** ** recipes/models.py *)

Module Models.

Record Tag : Type := mkTag
  { tag_id : Z; tag_name : string; tag_color : string; tag_slug : string }.

Record Ingredient : Type := mkIngredient
  { ingredient_id : Z; ingredient_name : string; ingredient_unit : string }.

(** [Recipe]: the many-to-many relations live in their own tables. *)
Record Recipe : Type := mkRecipe
  { id : Z; author : Z; name : string; image : string; text : string;
    time : Z; pub_date : Z }.

Record IngredientAmount : Type := mkIngredientAmount
  { ia_recipe : Z; ia_ingredient : Z; amount : PyDecimal }.

(** [Favorite] and [Cart] have the same columns. *)
Record Membership : Type := mkMembership { user : Z; recipe : Z }.

Inductive MembershipModel : Type := Favorite | Cart.

(** [IngredientAmount.amount = DecimalField(max_digits=6, decimal_places=2)]. *)
Definition amount_max_digits : Z := 6.
Definition amount_decimal_places : Z := 2.

(** [Recipe.time]: [validators=[MinValueValidator(1)]]. *)
Definition time_MinValueValidator : Z := 1.

(** The name of the unique constraint of each membership model. *)
Definition unique_constraint (model : MembershipModel) : string :=
  match model with
  | Favorite => "unique_favorite"
  | Cart => "unique_cart"
  end.

(** Attribute lookup on a [Recipe] instance, as a model serializer
    does it for a name of [Meta.fields]: the model has no attribute
    beyond its fields, relations and reverse relations. *)
Definition Recipe_getattr (r : Recipe) (field : string) : option pyobj :=
  if String.eqb field "id" then Some (PyInt (id r))
  else if String.eqb field "author" then Some (PyInstance "User" (author r))
  else if String.eqb field "name" then Some (PyStr (name r))
  else if String.eqb field "image" then Some (PyStr (image r))
  else if String.eqb field "text" then Some (PyStr (text r))
  else if String.eqb field "time" then Some (PyInt (time r))
  else if String.eqb field "pub_date" then Some (PyInt (pub_date r))
  else None.

(** [django.core.validators.DecimalValidator(max_digits, decimal_places)],
    the validator a [DecimalField] carries. *)
Definition DecimalValidator (max_digits decimal_places : Z)
           (value : PyDecimal) : result unit :=
  let len := Z.of_nat (num_digits (coef value)) in
  let exponent := expo value in
  let digits :=
    if 0 <=? exponent then (if coef value =? 0 then len else len + exponent)
    else if len <? Z.abs exponent then Z.abs exponent
    else len in
  let decimals := if 0 <=? exponent then 0 else Z.abs exponent in
  let whole_digits := digits - decimals in
  if max_digits <? digits then
    Raise (ValidationError (Msg "max_digits"))
  else if decimal_places <? decimals then
    Raise (ValidationError (Msg "max_decimal_places"))
  else if max_digits - decimal_places <? whole_digits then
    Raise (ValidationError (Msg "max_whole_digits"))
  else Ok tt.

(** The database backends: [postgresql] has an
    [adapt_decimalfield_value] of its own, the others ([sqlite3],
    [mysql], [oracle]) keep the one of [BaseDatabaseOperations]. *)
Inductive backend : Type := BaseDatabaseOperations | postgresql.

(** What [DecimalField.get_db_prep_save] hands to the database
    ([connection.ops.adapt_decimalfield_value]).  The base operations
    format the number ([utils.format_number]): the value quantized to
    [decimal_places] under a context of precision [max_digits], which
    raises [InvalidOperation] when the result has more digits.
    [postgresql] returns the value as it is. *)
Definition adapt_decimalfield_value (b : backend)
           (max_digits decimal_places : Z) (value : PyDecimal)
  : result PyDecimal :=
  match b with
  | BaseDatabaseOperations =>
      Decimal_quantize decimal_places (Z.to_nat max_digits) value
  | postgresql => Ok value
  end.

(** Rounding of [n / d] to the nearest integer, ties away from zero. *)
Definition round_half_away (n d : Z) : Z :=
  Z.sgn n * ((2 * Z.abs n + d) / (2 * d)).

(** A column [numeric(precision, scale)] of PostgreSQL: the value is
    rounded to [scale] fractional digits, ties away from zero, and the
    insert fails when the rounded value needs more than [precision]
    digits. *)
Definition numeric (precision scale : Z) (value : PyDecimal)
  : result PyDecimal :=
  let e := - scale in
  let c := if e <=? expo value then coef value * 10 ^ (expo value - e)
           else round_half_away (coef value) (10 ^ (e - expo value)) in
  if Z.abs c <? 10 ^ precision then Ok (mkDecimal c e)
  else Raise (DataError "numeric field overflow").

(** What the column keeps of what it is handed: with the base
    operations the number arrives formatted and is kept as it is; the
    column of PostgreSQL does the rounding itself. *)
Definition column_value (b : backend) (max_digits decimal_places : Z)
           (value : PyDecimal) : result PyDecimal :=
  match b with
  | BaseDatabaseOperations => Ok value
  | postgresql => numeric max_digits decimal_places value
  end.

(** [DecimalField.to_python] on an [int], which is what the serializer
    gives for an amount: [decimal.Decimal(value)], exact. *)
Definition to_python_int (value : Z) : PyDecimal := mkDecimal value 0.

(** The tables. *)
Record Store : Type := mkStore
  { Tag_objects : list Tag;
    Ingredient_objects : list Ingredient;
    Recipe_objects : list Recipe;
    IngredientAmount_objects : list IngredientAmount;
    Favorite_objects : list Membership;
    Cart_objects : list Membership }.

Definition objects (model : MembershipModel) (s : Store) : list Membership :=
  match model with
  | Favorite => Favorite_objects s
  | Cart => Cart_objects s
  end.

Definition set_objects (model : MembershipModel) (rows : list Membership)
           (s : Store) : Store :=
  match model with
  | Favorite =>
      mkStore (Tag_objects s) (Ingredient_objects s) (Recipe_objects s)
              (IngredientAmount_objects s) rows (Cart_objects s)
  | Cart =>
      mkStore (Tag_objects s) (Ingredient_objects s) (Recipe_objects s)
              (IngredientAmount_objects s) (Favorite_objects s) rows
  end.

(** [filter(user=user, recipe__id=pk)] on a membership table. *)
Definition matches (u pk : Z) (m : Membership) : bool :=
  (user m =? u) && (recipe m =? pk).

(** [model.objects.create(user=user, recipe=recipe)]: the unique
    constraint on (user, recipe) makes the insert fail with
    [IntegrityError] when the pair is already there. *)
Definition objects_create (model : MembershipModel) (u : Z) (r : Recipe)
           (s : Store) : result Membership * Store :=
  if existsb (matches u (id r)) (objects model s) then
    (Raise (IntegrityError (unique_constraint model)), s)
  else
    let row := mkMembership u (id r) in
    (Ok row, set_objects model (objects model s ++ [row]) s).

(** [model.objects.filter(user=user, recipe__id=pk).delete()]. *)
Definition filter_delete (model : MembershipModel) (u pk : Z) (s : Store)
  : Store :=
  set_objects model
    (filter (fun m => negb (matches u pk m)) (objects model s)) s.

(** *** Writing amounts *)

(** [IngredientAmount.objects.bulk_create(objs)], the way the code
    writes amounts.  The values of all the objects are prepared first
    ([get_db_prep_save], in Python); the rows are then inserted one
    after the other, each checked by its column and by the unique
    constraint on (ingredient, recipe); the foreign keys are checked
    last.  The whole runs in a transaction: when anything fails, nothing
    is written.  The [amount] of an object is the [Decimal] that
    [to_python] makes of the attribute. *)
Fixpoint prepare_amounts (b : backend) (objs : list IngredientAmount)
  : result (list IngredientAmount) :=
  match objs with
  | [] => Ok []
  | obj :: rest =>
      value <- adapt_decimalfield_value b amount_max_digits
                 amount_decimal_places (amount obj) ;;
      rows <- prepare_amounts b rest ;;
      Ok (mkIngredientAmount (ia_recipe obj) (ia_ingredient obj) value :: rows)
  end.

Definition same_pair (a b : IngredientAmount) : bool :=
  (ia_ingredient a =? ia_ingredient b) && (ia_recipe a =? ia_recipe b).

Fixpoint insert_amounts (b : backend) (rows table : list IngredientAmount)
  : result (list IngredientAmount) :=
  match rows with
  | [] => Ok table
  | row :: rest =>
      stored <- column_value b amount_max_digits amount_decimal_places
                  (amount row) ;;
      if existsb (same_pair row) table then
        Raise (IntegrityError "unique_ingredient_amount")
      else
        insert_amounts b rest
          (table ++ [mkIngredientAmount (ia_recipe row) (ia_ingredient row)
                                        stored])
  end.

Definition references_kept (s : Store) (row : IngredientAmount) : bool :=
  existsb (fun r => id r =? ia_recipe row) (Recipe_objects s)
  && existsb (fun i => ingredient_id i =? ia_ingredient row)
             (Ingredient_objects s).

Definition set_IngredientAmount_objects (rows : list IngredientAmount)
           (s : Store) : Store :=
  mkStore (Tag_objects s) (Ingredient_objects s) (Recipe_objects s) rows
          (Favorite_objects s) (Cart_objects s).

Definition bulk_create (b : backend) (objs : list IngredientAmount)
  : Store -> result (list IngredientAmount) * Store :=
  fun s =>
    let written :=
      rows <- prepare_amounts b objs ;;
      table <- insert_amounts b rows (IngredientAmount_objects s) ;;
      if forallb (references_kept s) rows then Ok table
      else Raise (IntegrityError "foreign key") in
    match written with
    | Ok table => (Ok objs, set_IngredientAmount_objects table s)
    | Raise e => (Raise e, s)
    end.

End Models.

(* ================================================================== *)
(** ** Base64ImageField *)

Module Fields.

(** [s.startswith(prefix)]. *)
Fixpoint startswith (s prefix : string) {struct prefix} : bool :=
  match prefix, s with
  | EmptyString, _ => true
  | String a prefix', String b s' => Ascii.eqb a b && startswith s' prefix'
  | String _ _, EmptyString => false
  end.

(** [c in s] for a character. *)
Fixpoint occurs (c : ascii) (s : string) : bool :=
  match s with
  | EmptyString => false
  | String b s' => Ascii.eqb c b || occurs c s'
  end.

(** [s.split(sep)] for a separator that is not empty: the occurrences of
    [sep] are taken from the left, without overlap.  [skip] counts the
    characters of a separator that are still to be passed over, [cur] is
    the piece being read. *)
Fixpoint split_from (sep : string) (skip : nat) (cur s : string)
  : list string :=
  match s with
  | EmptyString => [cur]
  | String c s' =>
      match skip with
      | S k => split_from sep k cur s'
      | O =>
          if startswith s sep
          then cur :: split_from sep (String.length sep - 1) "" s'
          else split_from sep 0 (cur ++ String c "")%string s'
      end
  end.

Definition split (s sep : string) : list string := split_from sep 0 "" s.

(** What the field is given and what it hands on: a string, or a file
    with its content and name ([ContentFile(content, name=...)]). *)
Inductive upload : Type :=
| Text (s : string)
| FileObject (content name : string).

Inductive raised : Type :=
| ValueError (msg : string)
| binascii_Error
| FromImageField (e : exn).

Inductive image_result : Type :=
| Returned (file : upload)
| Raised (e : raised).

(** [Base64ImageField.to_internal_value(self, data)].  [b64decode] is
    [base64.b64decode] ([None] when it raises), [super_] is
    [ImageField.to_internal_value]. *)
Definition to_internal_value (b64decode : string -> option string)
           (super_ : upload -> result upload) (data : upload)
  : image_result :=
  let finish d :=
    match super_ d with
    | Ok f => Returned f
    | Raise e => Raised (FromImageField e)
    end in
  match data with
  | Text s =>
      if startswith s "data:image" then
        match split s ";base64," with
        | [format; imgstr] =>
            let ext := last (split format "/") "" in
            match b64decode imgstr with
            | Some content =>
                finish (FileObject content ("temp." ++ ext)%string)
            | None => Raised binascii_Error
            end
        | [] | [_] =>
            Raised (ValueError
                      "not enough values to unpack (expected 2, got 1)")
        | _ =>
            Raised (ValueError "too many values to unpack (expected 2)")
        end
      else finish data
  | FileObject _ _ => finish data
  end.

End Fields.

(* ================================================================== *)
(** ** api/serializers.py *)

Module Serializers.
Import Models.

(** *** Model serializers on output *)

(** [ModelSerializer(instance).data]: every name of [Meta.fields] has
    to be a field or attribute of the model; the framework raises
    [ImproperlyConfigured] for a name that is not. *)
Fixpoint ModelSerializer_data (fields : list string) (r : Recipe)
  : result (list (string * pyobj)) :=
  match fields with
  | [] => Ok []
  | f :: rest =>
      match Recipe_getattr r f with
      | None =>
          Raise (ImproperlyConfigured
                   ("Field name `" ++ f
                    ++ "` is not valid for model `Recipe`.")%string)
      | Some v =>
          rest' <- ModelSerializer_data rest r ;;
          Ok ((f, v) :: rest')
      end
  end.

(** [ShortRecipeSerializer.Meta.fields]. *)
Definition ShortRecipeSerializer_fields : list string :=
  ["id"; "name"; "image"; "cooking_time"].

Definition ShortRecipeSerializer_data (r : Recipe) : result pyobj :=
  d <- ModelSerializer_data ShortRecipeSerializer_fields r ;;
  Ok (PyDict d).

(** *** Fields on input *)

(** [serializers.IntegerField.to_internal_value] on a JSON number given
    by its decimal literal (as [str] prints it, below 10^16): a
    fractional part of zeros is stripped, [int()] refuses any other. *)
Definition IntegerField_to_internal_value (data : PyDecimal) : result Z :=
  if 0 <=? expo data then Ok (coef data * 10 ^ expo data)
  else if coef data mod 10 ^ (- expo data) =? 0
       then Ok (coef data / 10 ^ (- expo data))
  else Raise (ValidationError (Msg "A valid integer is required.")).

(** [PrimaryKeyRelatedField(queryset=...)]: the instance with that
    primary key, or a validation error. *)
Definition PrimaryKeyRelatedField (model : string) (pks : list Z) (pk : Z)
  : result pyobj :=
  if existsb (Z.eqb pk) pks then Ok (PyInstance model pk)
  else Raise (ValidationError (Msg "Invalid pk - object does not exist.")).

(** An item of the [ingredients] list of a request. *)
Record IngredientInput : Type := mkIngredientInput
  { in_id : Z; in_amount : PyDecimal }.

(** [AddIngredientSerializer]: [id] is a primary key of [Ingredient],
    [amount = serializers.IntegerField()].  The errors of the two
    fields are collected under their names. *)
Definition AddIngredientSerializer_run_validation (s : Store)
           (item : IngredientInput) : result pyobj :=
  let id_ := PrimaryKeyRelatedField "Ingredient"
               (map ingredient_id (Ingredient_objects s)) (in_id item) in
  let amount_ := IntegerField_to_internal_value (in_amount item) in
  match id_, amount_ with
  | Ok i, Ok a => Ok (PyDict [("id", i); ("amount", PyInt a)])
  | Raise (ValidationError d), Ok _ =>
      Raise (ValidationError (Fields [("id", d)]))
  | Ok _, Raise (ValidationError d) =>
      Raise (ValidationError (Fields [("amount", d)]))
  | Raise (ValidationError d), Raise (ValidationError d') =>
      Raise (ValidationError (Fields [("id", d); ("amount", d')]))
  | Raise e, _ => Raise e
  | _, Raise e => Raise e
  end.

(** [ListSerializer.to_internal_value] ([many=True], [allow_empty]
    left at its default [True]): every item is validated, the items'
    errors are reported together. *)
Fixpoint ListSerializer_items (s : Store) (items : list IngredientInput)
  : result (list pyobj * list detail * bool) :=
  match items with
  | [] => Ok ([], [], false)
  | item :: rest =>
      match AddIngredientSerializer_run_validation s item with
      | Ok v =>
          r <- ListSerializer_items s rest ;;
          let '(ret, errors, failed) := r in
          Ok (v :: ret, Fields [] :: errors, failed)
      | Raise (ValidationError d) =>
          r <- ListSerializer_items s rest ;;
          let '(ret, errors, failed) := r in
          Ok (ret, d :: errors, true)
      | Raise e => Raise e
      end
  end.

Definition ListSerializer_run_validation (s : Store)
           (items : list IngredientInput) : result pyobj :=
  r <- ListSerializer_items s items ;;
  let '(ret, errors, failed) := r in
  if failed then Raise (ValidationError (Items errors))
  else Ok (PyList ret).

(** [PrimaryKeyRelatedField(queryset=Tag.objects.all(), many=True)]. *)
Fixpoint ManyRelatedField_items (s : Store) (pks : list Z)
  : result (list pyobj) :=
  match pks with
  | [] => Ok []
  | pk :: rest =>
      t <- PrimaryKeyRelatedField "Tag" (map tag_id (Tag_objects s)) pk ;;
      ts <- ManyRelatedField_items s rest ;;
      Ok (t :: ts)
  end.

Definition ManyRelatedField_run_validation (s : Store) (pks : list Z)
  : result pyobj :=
  ts <- ManyRelatedField_items s pks ;;
  Ok (PyList ts).

(** The field the model serializer builds for [Recipe.time]: an integer
    with [min_value] taken from the model's [MinValueValidator(1)]. *)
Definition time_run_validation (t : Z) : result pyobj :=
  if t <? time_MinValueValidator then
    Raise (ValidationError
             (Msg "Ensure this value is greater than or equal to 1."))
  else Ok (PyInt t).

(** *** RecipeSerializer *)

Definition err (field message : string) : exn :=
  ValidationError (Fields [(field, Msg message)]).

(** The loop of [validate] over [ingredients], with the list
    [ingredients_list] of the ids seen so far. *)
Fixpoint validate_ingredients (ingredients ingredients_list : list pyobj)
  : result unit :=
  match ingredients with
  | [] => Ok tt
  | ingredient :: rest =>
      ingredient_id <- py_get ingredient "id" ;;
      if py_in ingredient_id ingredients_list then
        Raise (err "ingredients" "Ингредиенты не должны повторяться.")
      else
        amount <- py_get ingredient "amount" ;;
        below <- py_lt amount float_0_01 "float" ;;
        if (below : bool) then
          Raise (err "amount" "Минимальное значение — 0.01.")
        else validate_ingredients rest (ingredients_list ++ [ingredient_id])
  end.

(** [RecipeSerializer.validate(self, data)]. *)
Definition validate (data : pyobj) : result pyobj :=
  ingredients0 <- py_get data "ingredients" ;;
  n <- py_len ingredients0 ;;
  if n =? 0 then Raise (err "ingredients" "Минимум 1 ингредиент.")
  else
    ingredients <- py_get data "ingredients" ;;
    items <- py_iter ingredients ;;
    _ <- validate_ingredients items [] ;;
    cooking_time <- py_get data "cooking_time" ;;
    below <- py_lt cooking_time (inject_Z 1) "int" ;;
    if (below : bool) then
      Raise (err "cooking_time" "Минимальное значение — 1.")
    else Ok data.

(** [RecipeSerializer.validate_cart(self, model, user, pk)]. *)
Definition validate_cart (model : MembershipModel) (u pk : Z) (s : Store)
  : result unit :=
  if existsb (matches u pk) (objects model s) then
    Raise (ValidationError (Msg "Рецепт уже добавлен."))
  else Ok tt.

Fixpoint validate_tags_loop (tags tags_list : list pyobj) : result unit :=
  match tags with
  | [] => Ok tt
  | tag :: rest =>
      if py_in tag tags_list then
        Raise (err "tags" "Теги не должны повторяться.")
      else validate_tags_loop rest (tags_list ++ [tag])
  end.

(** [RecipeSerializer.validate_tags(self, data)]; it ends without a
    [return], so its value is [None]. *)
Definition validate_tags (data : pyobj) : result pyobj :=
  tags <- py_get data "tags" ;;
  if py_not tags then Raise (err "tags" "Минимум 1 тег.")
  else
    items <- py_iter tags ;;
    _ <- validate_tags_loop items [] ;;
    Ok PyNone.

(** *** The validation of a request *)

(** The body of a create or update request: a field is [None] when the
    body does not have it; [amount] is the number as written, the image
    is what the client sent.  The character fields are taken to accept
    the strings they are given (a refusal would be a validation error,
    recorded under the name of the field like any other). *)
Record RecipeRequest : Type := mkRecipeRequest
  { req_name : option string;
    req_image : option Fields.upload;
    req_text : option string;
    req_ingredients : option (list IngredientInput);
    req_tags : option (list Z);
    req_time : option Z }.

(** The serializer at work: [partial] is set for a PATCH; [b64decode]
    is [base64.b64decode] ([None] when it raises) and
    [ImageField_to_internal_value] the image field of the framework, on
    which [Base64ImageField] is built. *)
Record Serializer : Type := mkSerializer
  { partial : bool;
    b64decode : string -> option string;
    ImageField_to_internal_value : Fields.upload -> result Fields.upload }.

(** What a field makes of the request: [None] when the field is skipped
    (its input is missing from a partial update), the error [required]
    when its input is missing otherwise, its own validation on the
    input when there is one. *)
Definition get_value {A : Type} (self : Serializer) (required : string)
           (data : option A) (run : A -> result pyobj)
  : option (result pyobj) :=
  match data with
  | Some d => Some (run d)
  | None =>
      if partial self then None
      else Some (Raise (ValidationError (Msg required)))
  end.

(** [Base64ImageField] as a field of the serializer: what its
    [to_internal_value] returns or raises. *)
Definition image_run_validation (self : Serializer) (data : Fields.upload)
  : result pyobj :=
  match Fields.to_internal_value (b64decode self)
                                 (ImageField_to_internal_value self) data with
  | Fields.Returned (Fields.FileObject content name_) =>
      Ok (PyFile content name_)
  | Fields.Returned (Fields.Text t) => Ok (PyStr t)
  | Fields.Raised (Fields.ValueError msg) => Raise (ValueError msg)
  | Fields.Raised Fields.binascii_Error => Raise binascii_Error
  | Fields.Raised (Fields.FromImageField e) => Raise e
  end.

(** One round of the loop of [Serializer.to_internal_value]: nothing
    for a skipped field; otherwise the field's own validation, then the
    serializer's [validate_<field_name>] method when it has one, called
    on the field's value.  A [ValidationError] is recorded under the
    field's name; any other exception leaves the loop. *)
Definition field_step (field_name : string) (value : option (result pyobj))
           (validate_method : option (pyobj -> result pyobj))
           (acc : list (string * pyobj) * list (string * detail))
  : result (list (string * pyobj) * list (string * detail)) :=
  let '(ret, errors) := acc in
  match value with
  | None => Ok (ret, errors)
  | Some value =>
      let validated :=
        v <- value ;;
        match validate_method with
        | Some m => m v
        | None => Ok v
        end in
      match validated with
      | Ok v => Ok (ret ++ [(field_name, v)], errors)
      | Raise (ValidationError d) => Ok (ret, errors ++ [(field_name, d)])
      | Raise e => Raise e
      end
  end.

Definition required : string := "This field is required.".
Definition no_file : string := "No file was submitted.".

(** [RecipeSerializer.to_internal_value]: the writable fields in the
    order of [Meta.fields] ([id], [author] and [pub_date] are
    read-only).  The serializer defines [validate_tags], which the
    loop takes as the hook of the field [tags]. *)
Definition to_internal_value (self : Serializer) (s : Store)
           (req : RecipeRequest) : result pyobj :=
  acc <- field_step "name"
           (get_value self required (req_name req) (fun n => Ok (PyStr n)))
           None ([], []) ;;
  acc <- field_step "image"
           (get_value self no_file (req_image req) (image_run_validation self))
           None acc ;;
  acc <- field_step "text"
           (get_value self required (req_text req) (fun t => Ok (PyStr t)))
           None acc ;;
  acc <- field_step "ingredients"
           (get_value self required (req_ingredients req)
                      (ListSerializer_run_validation s))
           None acc ;;
  acc <- field_step "tags"
           (get_value self required (req_tags req)
                      (ManyRelatedField_run_validation s))
           (Some validate_tags) acc ;;
  acc <- field_step "time"
           (get_value self required (req_time req) time_run_validation)
           None acc ;;
  let '(ret, errors) := acc in
  match errors with
  | [] => Ok (PyDict ret)
  | _ => Raise (ValidationError (Fields errors))
  end.

(** [serializer.is_valid(raise_exception=True)]: the fields, then
    [validate] on the validated data. *)
Definition run_validation (self : Serializer) (s : Store)
           (req : RecipeRequest) : result pyobj :=
  value <- to_internal_value self s req ;;
  validate value.

(** The image field does not end in an exception that the loop lets
    through. *)
Definition image_handled (self : Serializer) (req : RecipeRequest) : Prop :=
  match req_image req with
  | None => True
  | Some data =>
      (exists v, image_run_validation self data = Ok v)
      \/ (exists d, image_run_validation self data
                    = Raise (ValidationError d))
  end.

(** The item of [ingredients] that the field yields for an ingredient
    and an integer amount. *)
Definition line (pk amount_ : Z) : pyobj :=
  PyDict [("id", PyInstance "Ingredient" pk); ("amount", PyInt amount_)].

End Serializers.

(* ================================================================== *)
(** ** api/views.py *)

Module Views.
Import Models Serializers.

Definition HTTP_201_CREATED : Z := 201.
Definition HTTP_204_NO_CONTENT : Z := 204.

Record Response : Type := mkResponse { data : option pyobj; status : Z }.

(** A view runs on the tables and leaves them changed, also when it
    ends in an exception (what was written before stays written). *)
Definition view (A : Type) : Type := Store -> result A * Store.

(** [get_object_or_404(Recipe, id=pk)]. *)
Definition get_object_or_404 (s : Store) (pk : Z) : result Recipe :=
  match find (fun r => id r =? pk) (Recipe_objects s) with
  | Some r => Ok r
  | None => Raise Http404
  end.

(** [RecipeViewSet.add_to(self, model, user, pk)]. *)
Definition add_to (model : MembershipModel) (u pk : Z) : view Response :=
  fun s =>
    match get_object_or_404 s pk with
    | Raise e => (Raise e, s)
    | Ok recipe =>
        match objects_create model u recipe s with
        | (Raise e, s') => (Raise e, s')
        | (Ok _, s') =>
            match ShortRecipeSerializer_data recipe with
            | Raise e => (Raise e, s')
            | Ok d => (Ok (mkResponse (Some d) HTTP_201_CREATED), s')
            end
        end
    end.

(** [RecipeViewSet.delete_from(self, model, user, pk)]. *)
Definition delete_from (model : MembershipModel) (u pk : Z) : view Response :=
  fun s =>
    let s' := filter_delete model u pk s in
    (Ok (mkResponse None HTTP_204_NO_CONTENT), s').

Inductive method : Type := POST | DELETE.

(** [RecipeViewSet.favorite] and [RecipeViewSet.cart]. *)
Definition favorite (m : method) (u pk : Z) : view Response :=
  match m with
  | POST => add_to Favorite u pk
  | DELETE => delete_from Favorite u pk
  end.

Definition cart (m : method) (u pk : Z) : view Response :=
  match m with
  | POST => add_to Cart u pk
  | DELETE => delete_from Cart u pk
  end.

(** The framework's exception handler: [Http404] and the API
    exceptions become responses with their status; anything else is
    not handled and surfaces as it was raised. *)
Definition exception_handler (e : exn) : option Z :=
  match e with
  | Http404 => Some 404
  | ValidationError _ => Some 400
  | _ => None
  end.

Inductive outcome : Type :=
| Responded (status : Z)
| Unhandled (e : exn).

Definition dispatch (r : result Response) : outcome :=
  match r with
  | Ok resp => Responded (status resp)
  | Raise e =>
      match exception_handler e with
      | Some st => Responded st
      | None => Unhandled e
      end
  end.

(** *** download_cart *)

(** A row of [values_list('ingredient__name', 'ingredient__unit',
    'amount')]. *)
Definition item : Type := string * string * PyDecimal.

(** The query has no [order_by] and [IngredientAmount] has no
    [Meta.ordering]: the rows come in the order the database chooses.
    The choice is [rows_in_order]; all that is known of it is that it
    returns the rows it is given, each as many times. *)
Record row_order : Type := mkRowOrder
  { rows_in_order :> list item -> list item;
    rows_kept : forall rows, Permutation (rows_in_order rows) rows }.

(** [IngredientAmount.objects.filter(recipe__carts__user=request.user)]:
    one row for each amount line of each recipe in the user's cart (the
    join of the amounts with the cart rows and with the ingredients), in
    the order of the database. *)
Definition ingredients_query (order : row_order) (s : Store) (u : Z)
  : list item :=
  order
    (flat_map
       (fun ia =>
          flat_map
            (fun c =>
               if (user c =? u) && (recipe c =? ia_recipe ia) then
                 match find (fun i => ingredient_id i =? ia_ingredient ia)
                            (Ingredient_objects s) with
                 | Some i => [(ingredient_name i, ingredient_unit i, amount ia)]
                 | None => []
                 end
               else [])
            (Cart_objects s))
       (IngredientAmount_objects s)).

(** The inner dict [{'unit': ..., 'amount': ...}]. *)
Record Entry : Type := mkEntry { entry_unit : string; entry_amount : PyDecimal }.

(** One round of the loop [for item in ingredients]. *)
Definition add_item (final_list : list (string * Entry)) (it : item)
  : list (string * Entry) :=
  let '(name, unit_, amount_) := it in
  match dict_get final_list name with
  | None => dict_set final_list name (mkEntry unit_ amount_)
  | Some e =>
      dict_set final_list name
               (mkEntry (entry_unit e) (Decimal_add (entry_amount e) amount_))
  end.

Definition aggregate (ingredients : list item) : list (string * Entry) :=
  fold_left add_item ingredients [].

(** What is drawn on the canvas, in order. *)
Inductive canvas_op : Type :=
| setFont (font : string) (size : Z)
| drawString (x y : Z) (text : string)
| showPage
| save.

(** The f-string [f'{i}. {name} - {data["amount"]} {data["unit"]}']. *)
Definition format_line (i : Z) (name : string) (d : Entry) : string :=
  (str_int i ++ ". " ++ name ++ " - " ++ Decimal_str (entry_amount d)
   ++ " " ++ entry_unit d)%string.

(** The loop over [enumerate(final_list.items(), 1)], with the running
    index [i] and the running [height]. *)
Fixpoint draw_items (i : Z) (height : Z) (items : list (string * Entry))
  : list canvas_op :=
  match items with
  | [] => []
  | (name, d) :: rest =>
      drawString 75 height (format_line i name d)
      :: draw_items (i + 1) (height - 25) rest
  end.

Definition title : string := "Список покупок".

Definition render (final_list : list (string * Entry)) : list canvas_op :=
  [setFont "Handicraft" 24; drawString 200 800 title; setFont "Handicraft" 16]
  ++ draw_items 1 750 final_list
  ++ [showPage; save].

(** The character that delimits the file name in the header. *)
Definition dquote : string := String (ascii_of_nat 34) "".

Record HttpResponse : Type := mkHttpResponse
  { content_type : string; Content_Disposition : string;
    page : list canvas_op }.

Definition download_cart (order : row_order) (s : Store) (u : Z)
  : HttpResponse :=
  let final_list := aggregate (ingredients_query order s u) in
  mkHttpResponse "application/pdf"
                 ("attachment; filename=" ++ dquote ++ "shopping_list.pdf"
                  ++ dquote)%string
                 (render final_list).

(** *** The aggregation in the words of the specification *)

Definition item_name (it : item) : string := fst (fst it).
Definition item_unit (it : item) : string := snd (fst it).
Definition item_amount (it : item) : PyDecimal := snd it.

(** The names in the order in which they are first met. *)
Fixpoint first_seen (names : list string) : list string :=
  match names with
  | [] => []
  | n :: rest => n :: filter (fun m => negb (String.eqb m n)) (first_seen rest)
  end.

(** The lines of one name, whatever their unit. *)
Definition lines_of (n : string) (ingredients : list item) : list item :=
  filter (fun it => String.eqb n (item_name it)) ingredients.

(** The unit of the first line, the amounts added up from the first. *)
Definition merged (lines : list item) : option Entry :=
  match lines with
  | [] => None
  | first :: rest =>
      Some (mkEntry (item_unit first)
                    (fold_left Decimal_add (map item_amount rest)
                               (item_amount first)))
  end.

(** [shows_page ops]: how many pages the canvas emits. *)
Definition shows_page (ops : list canvas_op) : nat :=
  List.length (filter (fun op => match op with showPage => true | _ => false end) ops).

(** The ordinates at which strings are drawn. *)
Definition drawn_heights (ops : list canvas_op) : list Z :=
  flat_map (fun op => match op with drawString _ y _ => [y] | _ => [] end) ops.

(** [draws_title ops]: how many times the text of the title is drawn,
    wherever on the page. *)
Definition draws_title (ops : list canvas_op) : nat :=
  List.length
    (filter (fun op => match op with
                       | drawString _ _ text_ => String.eqb text_ title
                       | _ => false
                       end) ops).

(** What the canvas is asked to do after the first [showPage]. *)
Fixpoint after_showPage (ops : list canvas_op) : list canvas_op :=
  match ops with
  | [] => []
  | showPage :: rest => rest
  | _ :: rest => after_showPage rest
  end.

(** The line of the entry of rank [k], counted from 0, in the words of
    the specification: numbered from 1, under the lines before it. *)
Definition numbered_line (k : nat) (entry : string * Entry) : canvas_op :=
  drawString 75 (750 - 25 * Z.of_nat k)
             (str_int (Z.of_nat k + 1) ++ ". " ++ fst entry ++ " - "
              ++ Decimal_str (entry_amount (snd entry)) ++ " "
              ++ entry_unit (snd entry))%string.

Fixpoint numbered_lines (k : nat) (entries : list (string * Entry))
  : list canvas_op :=
  match entries with
  | [] => []
  | entry :: rest => numbered_line k entry :: numbered_lines (S k) rest
  end.

(** The pagination in the words of the specification: nothing is drawn
    below the printable area of a page (the origin is the bottom left
    corner), a new page being started before that happens. *)
Definition within_printable_area (ops : list canvas_op) : Prop :=
  forall y, In y (drawn_heights ops) -> 0 <= y.

(** A cart of thirty-two ingredients with distinct names. *)
Definition thirty_two_lines : list item :=
  map (fun i => (("item" ++ str_int (Z.of_nat i))%string, "g",
                 mkDecimal 100 (-2)))
      (seq 1 32).

End Views.

(* ================================================================== *)
(** ** users/views.py *)

Module UsersViews.
Import Views.

(** A row of [Follow], with the two columns the views use. *)
Record Follow : Type := mkFollow { user : Z; author_id : Z }.

Record UsersStore : Type := mkUsersStore
  { User_objects : list Z; Follow_objects : list Follow }.

(** [get_object_or_404(User, id=user_id)]. *)
Definition get_object_or_404 (s : UsersStore) (user_id : Z) : result Z :=
  if existsb (Z.eqb user_id) (User_objects s) then Ok user_id
  else Raise Http404.

(** [Follow.objects.filter(user=request.user, author_id=user_id)]. *)
Definition subscription (request_user user_id : Z) (f : Follow) : bool :=
  (user f =? request_user) && (author_id f =? user_id).

(** [FollowViewSet.delete]. *)
Definition delete (request_user user_id : Z) (s : UsersStore)
  : result Response * UsersStore :=
  match get_object_or_404 s user_id with
  | Raise e => (Raise e, s)
  | Ok _ =>
      (Ok (mkResponse None HTTP_204_NO_CONTENT),
       mkUsersStore (User_objects s)
                    (filter (fun f => negb (subscription request_user user_id f))
                            (Follow_objects s)))
  end.

End UsersViews.

(* ================================================================== *)
(** ** The validators of [Tag.color] *)

Module Validators.

(** The part of the regular expressions of [re] that the pattern of
    [Tag.color] uses. *)
Inductive regex : Type :=
| Empty
| Chr (c : ascii)
| Class (p : ascii -> bool)
| Seq (a b : regex)
| Alt (a b : regex)
| Bol
| Eol.

(** [r{n}]. *)
Fixpoint times (n : nat) (r : regex) : regex :=
  match n with
  | O => Empty
  | S n' => Seq r (times n' r)
  end.

(** [r{1,2}]. *)
Definition once_or_twice (r : regex) : regex := Seq r (Alt r Empty).

(** Matching from a position on, with what is to be matched afterwards
    as continuation [k]; [at_start] tells whether the position is the
    start of the string.  Without flags, [^] matches at the start only,
    and [$] at the end and before a newline that ends the string. *)
Fixpoint match_here (r : regex) (at_start : bool) (s : string)
         (k : bool -> string -> bool) : bool :=
  match r with
  | Empty => k at_start s
  | Chr c =>
      match s with
      | String b s' => Ascii.eqb c b && k false s'
      | EmptyString => false
      end
  | Class p =>
      match s with
      | String b s' => p b && k false s'
      | EmptyString => false
      end
  | Seq a b => match_here a at_start s (fun st s' => match_here b st s' k)
  | Alt a b => match_here a at_start s k || match_here b at_start s k
  | Bol => at_start && k at_start s
  | Eol =>
      (match s with
       | EmptyString => true
       | String b EmptyString => Ascii.eqb b (ascii_of_nat 10)
       | _ => false
       end) && k at_start s
  end.

(** [regex.search(s)]: a match from some position. *)
Fixpoint search_from (r : regex) (at_start : bool) (s : string) : bool :=
  match_here r at_start s (fun _ _ => true)
  || match s with
     | String _ s' => search_from r false s'
     | EmptyString => false
     end.

Definition search (r : regex) (s : string) : bool := search_from r true s.

Definition between (lo hi c : ascii) : bool :=
  (nat_of_ascii lo <=? nat_of_ascii c)%nat
  && (nat_of_ascii c <=? nat_of_ascii hi)%nat.

(** The class [[A-Fa-f0-9]]. *)
Definition hex (c : ascii) : bool :=
  between "A" "F" c || between "a" "f" c || between "0" "9" c.

(** The pattern of [Tag.color], [^#([A-Fa-f0-9]{3}){1,2}$]. *)
Definition color_regex : regex :=
  Seq Bol (Seq (Chr "#") (Seq (once_or_twice (times 3 (Class hex))) Eol)).

(** [Tag.color]: [max_length=7] and the [RegexValidator] of the pattern. *)
Definition color_max_length : nat := 7.

Definition color_validators (value : string) : bool :=
  (String.length value <=? color_max_length)%nat && search color_regex value.

(** The string of a list of characters. *)
Fixpoint string_of (l : list ascii) : string :=
  match l with
  | [] => EmptyString
  | c :: l' => String c (string_of l')
  end.

Definition newline : string := String (ascii_of_nat 10) "".

End Validators.

(* ================================================================== *)
(** ** Sample data *)

Module Samples.
Import Models Serializers Views.

(** One tag, two ingredients, one recipe, nothing in any cart. *)
Definition store : Store :=
  mkStore [mkTag 1 "breakfast" "#E26C2D" "breakfast"]
          [mkIngredient 1 "flour" "g"; mkIngredient 2 "salt" "g"]
          [mkRecipe 7 1 "bread" "recipes/bread.png" "Knead and bake." 60 0]
          [mkIngredientAmount 7 1 (mkDecimal 250 (-2))]
          [] [].

(** Two recipes with flour, both in the cart of user 3. *)
Definition store_with_cart : Store :=
  mkStore [mkTag 1 "breakfast" "#E26C2D" "breakfast"]
          [mkIngredient 1 "flour" "g"; mkIngredient 2 "salt" "g"]
          [mkRecipe 7 1 "bread" "recipes/bread.png" "Knead and bake." 60 0;
           mkRecipe 8 1 "pancakes" "recipes/pancakes.png" "Whisk and fry." 20 1]
          [mkIngredientAmount 7 1 (mkDecimal 250 (-2));
           mkIngredientAmount 7 2 (mkDecimal 100 (-2));
           mkIngredientAmount 8 1 (mkDecimal 175 (-2))]
          []
          [mkMembership 3 7; mkMembership 3 8; mkMembership 4 8].

Definition flour_lines : list item :=
  [("flour", "g", mkDecimal 250 (-2));
   ("salt", "g", mkDecimal 100 (-2));
   ("flour", "g", mkDecimal 175 (-2))].

(** Two orders a database may choose: the rows as the amounts table has
    them, and the other way round. *)
Definition table_order : row_order :=
  mkRowOrder (fun rows => rows) (fun rows => Permutation_refl rows).

Definition reverse_order : row_order :=
  mkRowOrder (fun rows => rev rows)
             (fun rows => Permutation_sym (Permutation_rev rows)).

(** The tables of [store_with_cart] with the flour of the second recipe
    in kilograms (another ingredient of the same name). *)
Definition store_two_units : Store :=
  mkStore [mkTag 1 "breakfast" "#E26C2D" "breakfast"]
          [mkIngredient 1 "flour" "g"; mkIngredient 2 "salt" "g";
           mkIngredient 3 "flour" "kg"]
          [mkRecipe 7 1 "bread" "recipes/bread.png" "Knead and bake." 60 0;
           mkRecipe 8 1 "pancakes" "recipes/pancakes.png" "Whisk and fry." 20 1]
          [mkIngredientAmount 7 1 (mkDecimal 250 (-2));
           mkIngredientAmount 7 2 (mkDecimal 100 (-2));
           mkIngredientAmount 8 3 (mkDecimal 175 (-2))]
          []
          [mkMembership 3 7; mkMembership 3 8; mkMembership 4 8].

Definition two_entries : list (string * Entry) :=
  [("flour", mkEntry "g" (mkDecimal 425 (-2)));
   ("salt", mkEntry "g" (mkDecimal 100 (-2)))].

(** A serializer for a create request, with a decoder and an image
    field that accept what they are given. *)
Definition serializer : Serializer :=
  mkSerializer false (fun payload => Some payload) (fun file => Ok file).

(** The same for a partial update. *)
Definition patch_serializer : Serializer :=
  mkSerializer true (fun payload => Some payload) (fun file => Ok file).

Definition request (ingredients : list IngredientInput) (tags : list Z)
           (time_ : Z) : RecipeRequest :=
  mkRecipeRequest (Some "bread")
                  (Some (Fields.Text "data:image/png;base64,AAAA"))
                  (Some "Knead and bake.")
                  (Some ingredients) (Some tags) (Some time_).

(** A partial update that sends the ingredients alone. *)
Definition patch_ingredients (ingredients : list IngredientInput)
  : RecipeRequest :=
  mkRecipeRequest None None None (Some ingredients) None None.

(** A create request whose image has no payload to decode. *)
Definition request_bad_image : RecipeRequest :=
  mkRecipeRequest (Some "bread") (Some (Fields.Text "data:image/png"))
                  (Some "Knead and bake.") (Some []) (Some [1]) (Some 30).

(** The validated data of a request with one ingredient, as
    [to_internal_value] keys it: the cooking time is under [time]. *)
Definition validated_data (time_ : Z) : list (string * pyobj) :=
  [("name", PyStr "bread"); ("image", PyStr "bread.png");
   ("text", PyStr "Knead and bake.");
   ("ingredients", PyList [line 1 250]);
   ("tags", PyList [PyInstance "Tag" 1]);
   ("time", PyInt time_)].

End Samples.

(* ================================================================== *)
(** ** The rest of the recipe view set and of the serializers *)

Module ViewSet.
Import Models Serializers Views.

(** [rest_framework.permissions.SAFE_METHODS]. *)
Definition SAFE_METHODS : list string := ["GET"; "HEAD"; "OPTIONS"].

Inductive serializer_class : Type :=
| RecipeListSerializer
| RecipeSerializer.

(** [RecipeViewSet.get_serializer_class]; [self.action] is the name of
    the action being served, [None] when the request is not routed to
    one. *)
Definition get_serializer_class (action : option string) : serializer_class :=
  match action with
  | Some a =>
      if existsb (String.eqb a) SAFE_METHODS then RecipeListSerializer
      else RecipeSerializer
  | None => RecipeSerializer
  end.

(** The actions a [ModelViewSet] serves and the three that
    [RecipeViewSet] adds. *)
Definition RecipeViewSet_actions : list string :=
  ["list"; "create"; "retrieve"; "update"; "partial_update"; "destroy";
   "favorite"; "cart"; "download_cart"].

(** [RecipeListSerializer.get_is_favorited]; the user of the request is
    [None] when anonymous ([is_authenticated] false, and [and] does not
    look at [favorites] then), [Some u] otherwise. *)
Definition get_is_favorited (user_ : option Z) (obj : Recipe) (s : Store)
  : bool :=
  match user_ with
  | None => false
  | Some u =>
      existsb (fun f => (user f =? u) && (recipe f =? id obj))
              (Favorite_objects s)
  end.

(** What [FavoriteSerializer.validate] returns: [False] or the data. *)
Inductive validate_result : Type :=
| ReturnedFalse
| ReturnedData (data : list (string * Z)).

(** [FavoriteSerializer.validate]; [request] is [None] when the context
    has none and [Some user] otherwise, the user being [None] when
    anonymous; [data] maps the field names to the validated instances,
    given by their keys. *)
Definition FavoriteSerializer_validate (request : option (option Z))
           (data : list (string * Z)) (s : Store) : result validate_result :=
  match request with
  | None => Ok ReturnedFalse
  | Some None => Ok ReturnedFalse
  | Some (Some u) =>
      let recipe_ := dict_get data "recipe" in
      if existsb (fun f => (user f =? u)
                           && match recipe_ with
                              | Some pk => recipe f =? pk
                              | None => false
                              end)
                 (Favorite_objects s)
      then Raise (err "status" "Рецепт уже есть в избранном.")
      else Ok (ReturnedData data)
  end.

(** The membership model that an operation on [model] leaves alone. *)
Definition other (model : MembershipModel) : MembershipModel :=
  match model with
  | Favorite => Cart
  | Cart => Favorite
  end.


(** No element of the list is equal to one that comes before it. *)
Definition no_repeat (l : list pyobj) : Prop :=
  forall pre x post, l = pre ++ x :: post -> py_in x pre = false.

(** The running total of the loop of [download_cart] for one name:
    [None] before the first line of that name. *)
Definition add_amount (total : option PyDecimal) (amount_ : PyDecimal)
  : option PyDecimal :=
  match total with
  | None => Some amount_
  | Some t => Some (Decimal_add t amount_)
  end.

(** The amounts of the entries of the aggregated list. *)
Definition entry_amounts (final_list : list (string * Entry))
  : list PyDecimal :=
  map (fun kv => entry_amount (snd kv)) final_list.

(** The sum of the coefficients of a list of decimals. *)
Definition coef_sum (l : list PyDecimal) : Z :=
  fold_right (fun d acc => coef d + acc) 0 l.

(** An amount as the specification has it stored: two fractional
    digits and at most six digits in all. *)
Definition two_places_six_digits (d : PyDecimal) : Prop :=
  expo d = -2 /\ Z.abs (coef d) <= 999999.

(** [stored] is [value] in hundredths: the same number when [value] has
    at most two fractional digits, and otherwise a nearest number of
    hundredths. *)
Definition in_hundredths (value stored : PyDecimal) : Prop :=
  expo stored = -2
  /\ (-2 <= expo value -> coef stored = coef value * 10 ^ (expo value + 2))
  /\ (expo value < -2 ->
      2 * Z.abs (coef stored * 10 ^ (-2 - expo value) - coef value)
      <= 10 ^ (-2 - expo value)).

(** The row that is written for an object. *)
Definition written_for (obj row : IngredientAmount) : Prop :=
  ia_recipe row = ia_recipe obj
  /\ ia_ingredient row = ia_ingredient obj
  /\ in_hundredths (amount obj) (amount row).

(** The line that an amount row contributes to the shopping list. *)
Definition line_of (s : Store) (ia : IngredientAmount) : list item :=
  match find (fun i => ingredient_id i =? ia_ingredient ia)
             (Ingredient_objects s) with
  | Some i => [(ingredient_name i, ingredient_unit i, amount ia)]
  | None => []
  end.

End ViewSet.

(* ================================================================== *)
(** * Properties *)

Import Models Serializers Views ViewSet.

(** ** Results *)

Lemma bind_Ok (A B : Type) (r : result A) (k : A -> result B) (b : B) :
  bind r k = Ok b -> exists a, r = Ok a /\ k a = Ok b.
Proof. destruct r as [a|e]; simpl; [eauto | discriminate]. Qed.

(** ** Rendering of numbers *)

Example Decimal_str_4_25 : Decimal_str (mkDecimal 425 (-2)) = "4.25".
Proof. reflexivity. Qed.

Example Decimal_str_0_05 : Decimal_str (mkDecimal 5 (-2)) = "0.05".
Proof. reflexivity. Qed.

Example Decimal_str_0_00 : Decimal_str (mkDecimal 0 (-2)) = "0.00".
Proof. reflexivity. Qed.

Example Decimal_str_negative : Decimal_str (mkDecimal (-1250) (-2)) = "-12.50".
Proof. reflexivity. Qed.

Example Decimal_str_scientific : Decimal_str (mkDecimal 12 3) = "1.2E+4".
Proof. reflexivity. Qed.

Example Decimal_add_exact :
  Decimal_add (mkDecimal 250 (-2)) (mkDecimal 175 (-2)) = mkDecimal 425 (-2).
Proof. reflexivity. Qed.

Example Decimal_add_aligns :
  Decimal_add (mkDecimal 25 (-1)) (mkDecimal 175 (-2)) = mkDecimal 425 (-2).
Proof. reflexivity. Qed.

(** ** Insertion-ordered dictionaries *)

Section DictFacts.
Context {V : Type}.
Implicit Types (d : list (string * V)) (k : string) (v : V).

Lemma dict_get_set d k v k' :
  dict_get (dict_set d k v) k' =
  if String.eqb k' k then Some v else dict_get d k'.
Proof.
  induction d as [|[k0 v0] d IH]; simpl.
  - destruct (String.eqb k' k); reflexivity.
  - destruct (String.eqb k k0) eqn:E; simpl.
    + apply String.eqb_eq in E; subst k0.
      destruct (String.eqb k' k); reflexivity.
    + destruct (String.eqb k' k0) eqn:E'.
      * apply String.eqb_eq in E'; subst k0.
        rewrite String.eqb_sym, E. reflexivity.
      * exact IH.
Qed.

Lemma dict_contains_keys d k :
  dict_contains d k = existsb (String.eqb k) (map fst d).
Proof.
  unfold dict_contains.
  induction d as [|[k0 v0] d IH]; simpl; [reflexivity|].
  destruct (String.eqb k k0); simpl; [reflexivity | exact IH].
Qed.

Lemma dict_set_keys d k v :
  map fst (dict_set d k v) =
  if dict_contains d k then map fst d else map fst d ++ [k].
Proof.
  unfold dict_contains.
  induction d as [|[k0 v0] d IH]; simpl; [reflexivity|].
  destruct (String.eqb k k0) eqn:E; simpl.
  - apply String.eqb_eq in E; subst k0. reflexivity.
  - rewrite IH. destruct (dict_get d k); reflexivity.
Qed.

(** With distinct keys, selecting a key gives the item [dict_get] finds. *)
Lemma filter_key_get d k :
  NoDup (map fst d) ->
  filter (fun kv => String.eqb (fst kv) k) d =
  match dict_get d k with
  | Some v => [(k, v)]
  | None => []
  end.
Proof.
  induction d as [|[k0 v0] d IH]; simpl; intros ND; [reflexivity|].
  inversion ND as [|? ? Hnotin ND']; subst.
  rewrite (String.eqb_sym k k0).
  destruct (String.eqb k0 k) eqn:E.
  - apply String.eqb_eq in E; subst k0. f_equal.
    rewrite (IH ND').
    destruct (dict_get d k) eqn:G; [|reflexivity].
    exfalso. apply Hnotin.
    clear - G. induction d as [|[k1 v1] d IH]; simpl in *; [discriminate|].
    destruct (String.eqb k k1) eqn:E1.
    + left. apply String.eqb_eq in E1. congruence.
    + right. auto.
  - apply IH; assumption.
Qed.

End DictFacts.

(** ** The aggregation of [download_cart] *)

Lemma existsb_filter_other (n a : string) (l : list string) :
  String.eqb n a = false ->
  existsb (String.eqb n) (filter (fun m => negb (String.eqb m a)) l) =
  existsb (String.eqb n) l.
Proof.
  intros Hna. induction l as [|x l IH]; simpl; [reflexivity|].
  destruct (String.eqb x a) eqn:Exa; simpl.
  - apply String.eqb_eq in Exa; subst x. rewrite Hna. exact IH.
  - rewrite IH. reflexivity.
Qed.

Lemma first_seen_mem (n : string) (names : list string) :
  existsb (String.eqb n) (first_seen names) = existsb (String.eqb n) names.
Proof.
  induction names as [|a names IH]; simpl; [reflexivity|].
  destruct (String.eqb n a) eqn:E; simpl; [reflexivity|].
  rewrite existsb_filter_other by assumption. exact IH.
Qed.

Lemma first_seen_snoc (names : list string) (n : string) :
  first_seen (names ++ [n]) =
  if existsb (String.eqb n) names then first_seen names
  else first_seen names ++ [n].
Proof.
  induction names as [|a names IH]; simpl; [reflexivity|].
  rewrite IH.
  destruct (String.eqb n a) eqn:E; simpl.
  - apply String.eqb_eq in E; subst a.
    destruct (existsb (String.eqb n) names); [reflexivity|].
    rewrite filter_app; simpl. rewrite String.eqb_refl; simpl.
    rewrite app_nil_r. reflexivity.
  - destruct (existsb (String.eqb n) names); [reflexivity|].
    rewrite filter_app; simpl. rewrite E; simpl. reflexivity.
Qed.

Lemma first_seen_NoDup (names : list string) : NoDup (first_seen names).
Proof.
  induction names as [|a names IH]; simpl; constructor.
  - intros Hin. apply filter_In in Hin. destruct Hin as [_ Hneq].
    rewrite String.eqb_refl in Hneq. discriminate.
  - apply NoDup_filter. exact IH.
Qed.

Lemma aggregate_snoc (ingredients : list item) (it : item) :
  aggregate (ingredients ++ [it]) = add_item (aggregate ingredients) it.
Proof. unfold aggregate. rewrite fold_left_app. reflexivity. Qed.

Lemma add_item_keys (final_list : list (string * Entry)) (it : item) :
  map fst (add_item final_list it) =
  if dict_contains final_list (item_name it) then map fst final_list
  else map fst final_list ++ [item_name it].
Proof.
  destruct it as [[n u] a]. unfold add_item, item_name; simpl.
  destruct (dict_get final_list n) eqn:G; rewrite dict_set_keys;
    unfold dict_contains; rewrite G; reflexivity.
Qed.

(** The keys of the result: the names, each once, in the order of their
    first occurrence. *)
Lemma aggregate_keys (ingredients : list item) :
  map fst (aggregate ingredients) = first_seen (map item_name ingredients).
Proof.
  induction ingredients as [|it ingredients IH] using rev_ind;
    [reflexivity|].
  rewrite aggregate_snoc, add_item_keys, map_app; simpl.
  rewrite first_seen_snoc, dict_contains_keys, IH, first_seen_mem.
  reflexivity.
Qed.

Lemma lines_of_snoc (n : string) (ingredients : list item) (it : item) :
  lines_of n (ingredients ++ [it]) =
  lines_of n ingredients ++ (if String.eqb n (item_name it) then [it] else []).
Proof.
  unfold lines_of. rewrite filter_app; simpl.
  destruct (String.eqb n (item_name it)); reflexivity.
Qed.

(** The value under a name: the unit of the name's first line and the
    amounts of all its lines added up. *)
Lemma aggregate_get (ingredients : list item) (n : string) :
  dict_get (aggregate ingredients) n = merged (lines_of n ingredients).
Proof.
  revert n.
  induction ingredients as [|it ingredients IH] using rev_ind; intros n;
    [reflexivity|].
  rewrite aggregate_snoc, lines_of_snoc.
  destruct it as [[name unit_] amount_]. unfold add_item, item_name; simpl.
  pose proof (IH name) as Hname.
  destruct (dict_get (aggregate ingredients) name) as [e|] eqn:G;
    rewrite dict_get_set; destruct (String.eqb n name) eqn:E.
  - apply String.eqb_eq in E; subst n.
    destruct (lines_of name ingredients) as [|first rest]; simpl in *;
      [discriminate|].
    injection Hname as ->; simpl.
    rewrite map_app, fold_left_app. reflexivity.
  - rewrite app_nil_r. apply IH.
  - apply String.eqb_eq in E; subst n.
    destruct (lines_of name ingredients) as [|first rest]; simpl in *;
      [reflexivity | discriminate].
  - rewrite app_nil_r. apply IH.
Qed.

(** C5.  The aggregation groups the lines by ingredient name alone: the
    keys of the result are the names in the order of their first
    occurrence, no name twice, and the entry of a name carries the unit
    of the first line with that name, whatever the units of the later
    ones, with the amounts of all of them added up. *)
Theorem aggregate_groups_by_name (ingredients : list item) :
  map fst (aggregate ingredients) = first_seen (map item_name ingredients)
  /\ NoDup (map fst (aggregate ingredients))
  /\ forall n, dict_get (aggregate ingredients) n
               = merged (lines_of n ingredients).
Proof.
  split; [apply aggregate_keys|].
  split; [rewrite aggregate_keys; apply first_seen_NoDup|].
  intros n. apply aggregate_get.
Qed.

(** Two units under one name collide; the list is not sorted. *)
Example aggregate_units_collide :
  aggregate [("salt", "g", mkDecimal 100 (-2));
             ("flour", "kg", mkDecimal 250 (-2));
             ("flour", "g", mkDecimal 175 (-2))]
  = [("salt", mkEntry "g" (mkDecimal 100 (-2)));
     ("flour", mkEntry "kg" (mkDecimal 425 (-2)))].
Proof. reflexivity. Qed.

(** C1.  When the lines named flour are two, with the amounts 2.50 and
    1.75 (in either order), the result has exactly one flour entry, and
    its amount is the decimal 4.25: coefficient 425, exponent -2, printed
    as 4.25. *)
Theorem aggregate_flour (ingredients : list item) :
  map item_amount (lines_of "flour" ingredients)
    = [mkDecimal 250 (-2); mkDecimal 175 (-2)]
  \/ map item_amount (lines_of "flour" ingredients)
    = [mkDecimal 175 (-2); mkDecimal 250 (-2)] ->
  exists unit_,
    filter (fun kv => String.eqb (fst kv) "flour") (aggregate ingredients)
    = [("flour", mkEntry unit_ (mkDecimal 425 (-2)))]
    /\ Decimal_str (mkDecimal 425 (-2)) = "4.25"
    /\ Qeq (Decimal_value (mkDecimal 425 (-2))) (Qmake 17 4).
Proof.
  intros H.
  rewrite filter_key_get
    by (rewrite aggregate_keys; apply first_seen_NoDup).
  rewrite aggregate_get.
  destruct (lines_of "flour" ingredients) as [|l1 [|l2 [|l3 rest]]];
    simpl in H; try (destruct H; discriminate).
  exists (item_unit l1). split; [|split; reflexivity].
  unfold merged; simpl.
  destruct H as [H|H]; injection H as -> ->; reflexivity.
Qed.

Example download_cart_two_recipes :
  ingredients_query Samples.table_order Samples.store_with_cart 3
  = Samples.flour_lines
  /\ page (download_cart Samples.table_order Samples.store_with_cart 3)
     = [setFont "Handicraft" 24; drawString 200 800 title;
        setFont "Handicraft" 16;
        drawString 75 750 "1. flour - 4.25 g";
        drawString 75 725 "2. salt - 1.00 g";
        showPage; save].
Proof. split; reflexivity. Qed.

(** The order of the rows is the database's: it decides the order of
    the lines and, when a name has two units, the unit that is shown. *)
Example download_cart_row_order :
  page (download_cart Samples.table_order Samples.store_two_units 3)
  = [setFont "Handicraft" 24; drawString 200 800 title;
     setFont "Handicraft" 16;
     drawString 75 750 "1. flour - 4.25 g";
     drawString 75 725 "2. salt - 1.00 g";
     showPage; save]
  /\ page (download_cart Samples.reverse_order Samples.store_two_units 3)
     = [setFont "Handicraft" 24; drawString 200 800 title;
        setFont "Handicraft" 16;
        drawString 75 750 "1. flour - 4.25 kg";
        drawString 75 725 "2. salt - 1.00 g";
        showPage; save].
Proof. split; reflexivity. Qed.

Lemma aggregate_flour_witness :
  map item_amount (lines_of "flour" Samples.flour_lines)
    = [mkDecimal 250 (-2); mkDecimal 175 (-2)]
  /\ exists unit_,
       filter (fun kv => String.eqb (fst kv) "flour")
              (aggregate Samples.flour_lines)
       = [("flour", mkEntry unit_ (mkDecimal 425 (-2)))]
       /\ Decimal_str (mkDecimal 425 (-2)) = "4.25"
       /\ Qeq (Decimal_value (mkDecimal 425 (-2))) (Qmake 17 4).
Proof.
  split; [reflexivity|].
  apply (aggregate_flour Samples.flour_lines).
  left. reflexivity.
Defined.

(** ** The rendering of [download_cart] *)

Lemma shows_page_app (ops ops' : list canvas_op) :
  shows_page (ops ++ ops') = (shows_page ops + shows_page ops')%nat.
Proof. unfold shows_page. rewrite filter_app, length_app. reflexivity. Qed.

Lemma draw_items_no_page (items : list (string * Entry)) :
  forall i height, shows_page (draw_items i height items) = 0%nat.
Proof.
  induction items as [|[name d] items IH]; intros i height; simpl;
    [reflexivity|].
  unfold shows_page in *; simpl. apply IH.
Qed.

Lemma draw_items_nth (items : list (string * Entry)) :
  forall i height k name d,
    nth_error items k = Some (name, d) ->
    nth_error (draw_items i height items) k
    = Some (drawString 75 (height - 25 * Z.of_nat k)
                       (format_line (i + Z.of_nat k) name d)).
Proof.
  induction items as [|[name0 d0] items IH]; intros i height k name d H.
  - destruct k; discriminate.
  - destruct k as [|k]; cbn [nth_error draw_items] in *.
    + injection H as -> ->. do 2 f_equal; [|f_equal]; simpl; lia.
    + rewrite (IH (i + 1) (height - 25) k name d H), Nat2Z.inj_succ.
      do 2 f_equal; [|f_equal]; lia.
Qed.

Lemma draw_items_length (items : list (string * Entry)) :
  forall i height, List.length (draw_items i height items) = List.length items.
Proof.
  induction items as [|[name d] items IH]; intros i height; simpl;
    [reflexivity | f_equal; apply IH].
Qed.

Example render_two_lines :
  render (aggregate [("flour", "g", mkDecimal 250 (-2));
                     ("salt", "g", mkDecimal 100 (-2));
                     ("flour", "kg", mkDecimal 175 (-2))])
  = [setFont "Handicraft" 24; drawString 200 800 title;
     setFont "Handicraft" 16;
     drawString 75 750 "1. flour - 4.25 g";
     drawString 75 725 "2. salt - 1.00 g";
     showPage; save].
Proof. reflexivity. Qed.

(** An empty cart: the title and no line. *)
Example render_empty_cart :
  render (aggregate [])
  = [setFont "Handicraft" 24; drawString 200 800 title;
     setFont "Handicraft" 16; showPage; save].
Proof. reflexivity. Qed.

(** The loop draws the entry of rank [k] as the line numbered [k + 1],
    25 points under the one before. *)
Lemma draw_items_numbered (items : list (string * Entry)) :
  forall k, draw_items (Z.of_nat k + 1) (750 - 25 * Z.of_nat k) items
            = numbered_lines k items.
Proof.
  induction items as [|[name d] items IH]; intros k;
    cbn [draw_items numbered_lines]; [reflexivity|].
  f_equal. rewrite <- IH. f_equal; lia.
Qed.

(** A number is not written with the first letter of the title. *)
Lemma numbered_text_not_title (n : Z) (rest : string) :
  String.eqb (str_int n ++ rest) title = false.
Proof.
  unfold str_int, str_nat.
  destruct (n <? 0); [reflexivity|].
  destruct (N.to_uint (Z.to_N n)); reflexivity.
Qed.

Lemma numbered_lines_no_title (items : list (string * Entry)) :
  forall k, draws_title (numbered_lines k items) = 0%nat.
Proof.
  induction items as [|entry items IH]; intros k; [reflexivity|].
  unfold draws_title in *. cbn [numbered_lines numbered_line filter].
  rewrite numbered_text_not_title. apply IH.
Qed.

Lemma numbered_lines_no_page (items : list (string * Entry)) :
  forall k tail, after_showPage (numbered_lines k items ++ tail)
                 = after_showPage tail.
Proof.
  induction items as [|entry items IH]; intros k tail; [reflexivity|].
  cbn [numbered_lines numbered_line app after_showPage]. apply IH.
Qed.

Lemma draws_title_app (ops ops' : list canvas_op) :
  draws_title (ops ++ ops') = (draws_title ops + draws_title ops')%nat.
Proof. unfold draws_title. rewrite filter_app, length_app. reflexivity. Qed.

(** C4, as the code has it.  Everything is drawn on one page, however
    many entries there are (none included): the canvas is given the
    large font, the title, the small font, then the entry of rank [k]
    (counted from 0) as the string "{k+1}. {name} - {amount} {unit}" at
    abscissa 75 and ordinate [750 - 25 k], then [showPage] and [save],
    and nothing else.  The text of the title is drawn once; there is one
    [showPage], and after it nothing is drawn. *)
Theorem render_single_page (final_list : list (string * Entry)) :
  render final_list
  = [setFont "Handicraft" 24; drawString 200 800 title;
     setFont "Handicraft" 16]
    ++ numbered_lines 0 final_list ++ [showPage; save]
  /\ draws_title (render final_list) = 1%nat
  /\ shows_page (render final_list) = 1%nat
  /\ after_showPage (render final_list) = [save]
  /\ List.length (render final_list) = (5 + List.length final_list)%nat
  /\ nth_error (render final_list) 1 = Some (drawString 200 800 title)
  /\ nth_error (render final_list) (3 + List.length final_list)
     = Some showPage
  /\ forall k name d,
       nth_error final_list k = Some (name, d) ->
       nth_error (render final_list) (3 + k)
       = Some (drawString 75 (750 - 25 * Z.of_nat k)
                          (format_line (Z.of_nat k + 1) name d))
       /\ format_line (Z.of_nat k + 1) name d
          = (str_int (Z.of_nat k + 1) ++ ". " ++ name ++ " - "
             ++ Decimal_str (entry_amount d) ++ " " ++ entry_unit d)%string.
Proof.
  assert (Hclosed : render final_list
                    = [setFont "Handicraft" 24; drawString 200 800 title;
                       setFont "Handicraft" 16]
                      ++ numbered_lines 0 final_list ++ [showPage; save]).
  { unfold render. rewrite <- (draw_items_numbered final_list 0).
    reflexivity. }
  split; [exact Hclosed|].
  split.
  { rewrite Hclosed, !draws_title_app, numbered_lines_no_title.
    reflexivity. }
  split.
  { unfold render. rewrite !shows_page_app, draw_items_no_page.
    reflexivity. }
  split.
  { rewrite Hclosed. cbn [app after_showPage].
    rewrite numbered_lines_no_page. reflexivity. }
  split.
  { unfold render. rewrite !length_app, draw_items_length. simpl. lia. }
  split; [reflexivity|].
  split.
  { unfold render.
    change (3 + List.length final_list)%nat
      with (S (S (S (List.length final_list)))); simpl.
    rewrite nth_error_app2 by (rewrite draw_items_length; lia).
    rewrite draw_items_length, Nat.sub_diag. reflexivity. }
  intros k name d H. split; [|reflexivity].
  unfold render. change (3 + k)%nat with (S (S (S k))); simpl.
  rewrite nth_error_app1
    by (rewrite draw_items_length; apply nth_error_Some; congruence).
  rewrite (draw_items_nth final_list 1 750 k name d H).
  do 3 f_equal. lia.
Qed.

Lemma render_single_page_witness :
  nth_error Samples.two_entries 1
  = Some ("salt", mkEntry "g" (mkDecimal 100 (-2)))
  /\ nth_error (render Samples.two_entries) (3 + 1)
     = Some (drawString 75 725 "2. salt - 1.00 g")
  /\ draws_title (render Samples.two_entries) = 1%nat
  /\ shows_page (render Samples.two_entries) = 1%nat
  /\ after_showPage (render Samples.two_entries) = [save].
Proof.
  pose proof (render_single_page Samples.two_entries)
    as [_ [Htitle [Hpage [Hafter [_ [_ [_ Hline]]]]]]].
  split; [reflexivity|].
  split; [exact (proj1 (Hline 1%nat "salt" (mkEntry "g" (mkDecimal 100 (-2)))
                              eq_refl))|].
  split; [exact Htitle|]. split; [exact Hpage | exact Hafter].
Defined.

(** The closed form on thirty-two entries: the title once, a single
    page, the last line under the page. *)
Example render_thirty_two_lines :
  draws_title (render (aggregate thirty_two_lines)) = 1%nat
  /\ shows_page (render (aggregate thirty_two_lines)) = 1%nat
  /\ List.length (render (aggregate thirty_two_lines)) = 37%nat.
Proof. repeat split; reflexivity. Qed.

(** C4, as the specification words it, fails: with thirty-two entries
    the last one is drawn at ordinate -25, below the page, and the canvas
    still emits a single page. *)
Lemma render_never_breaks_page :
  ~ within_printable_area (render (aggregate thirty_two_lines))
  /\ shows_page (render (aggregate thirty_two_lines)) = 1%nat
  /\ nth_error (render (aggregate thirty_two_lines)) 34
     = Some (drawString 75 (-25) "32. item32 - 1.00 g").
Proof.
  split; [|split; reflexivity].
  intros H. specialize (H (-25)).
  assert (Hin : In (-25) (drawn_heights (render (aggregate thirty_two_lines)))).
  { vm_compute. tauto. }
  specialize (H Hin). lia.
Qed.

(** ** Favorite and cart membership *)

Lemma matches_spec (u pk : Z) (m : Membership) :
  matches u pk m = true <-> m = mkMembership u pk.
Proof.
  unfold matches. destruct m as [u' pk']; simpl.
  rewrite andb_true_iff, !Z.eqb_eq.
  split; [intros [-> ->]; reflexivity | intros [= -> ->]; auto].
Qed.

Lemma existsb_matches (u pk : Z) (rows : list Membership) :
  existsb (matches u pk) rows = true <-> In (mkMembership u pk) rows.
Proof.
  rewrite existsb_exists. split.
  - intros [m [Hin Hm]]. apply matches_spec in Hm. subst m. exact Hin.
  - intros Hin. exists (mkMembership u pk). split; [exact Hin|].
    apply matches_spec. reflexivity.
Qed.

Lemma objects_set_objects (model : MembershipModel) (rows : list Membership)
      (s : Store) :
  objects model (set_objects model rows s) = rows.
Proof. destruct model; reflexivity. Qed.

Lemma set_objects_same (model : MembershipModel) (s : Store) :
  set_objects model (objects model s) s = s.
Proof. destruct model, s; reflexivity. Qed.

Lemma Recipe_objects_set_objects (model : MembershipModel)
      (rows : list Membership) (s : Store) :
  Recipe_objects (set_objects model rows s) = Recipe_objects s.
Proof. destruct model; reflexivity. Qed.

Lemma get_object_or_404_found (s : Store) (pk : Z) (r : Recipe) :
  get_object_or_404 s pk = Ok r -> id r = pk /\ In r (Recipe_objects s).
Proof.
  unfold get_object_or_404.
  destruct (find (fun r => id r =? pk) (Recipe_objects s)) as [r'|] eqn:F;
    [|discriminate].
  intros [= ->]. apply find_some in F. destruct F as [Hin Heq].
  apply Z.eqb_eq in Heq. auto.
Qed.

Lemma filter_all (A : Type) (f : A -> bool) (l : list A) :
  (forall x, In x l -> f x = true) -> filter f l = l.
Proof.
  induction l as [|a l IH]; simpl; intros H; [reflexivity|].
  rewrite (H a) by auto. f_equal. apply IH. auto.
Qed.

(** [ShortRecipeSerializer] names a field that [Recipe] does not have. *)
Lemma ShortRecipeSerializer_data_raises (r : Recipe) :
  ShortRecipeSerializer_data r
  = Raise (ImproperlyConfigured
             "Field name `cooking_time` is not valid for model `Recipe`.").
Proof. reflexivity. Qed.

(** The check for a pair already there that [add_to] leaves out:
    [validate_cart] gives a validation error, which the exception
    handler turns into a response. *)
Lemma validate_cart_duplicate (model : MembershipModel) (u pk : Z) (s : Store) :
  In (mkMembership u pk) (objects model s) ->
  validate_cart model u pk s = Raise (ValidationError (Msg "Рецепт уже добавлен."))
  /\ exception_handler (ValidationError (Msg "Рецепт уже добавлен.")) = Some 400.
Proof.
  intros Hin. unfold validate_cart.
  apply existsb_matches in Hin. rewrite Hin. split; reflexivity.
Qed.

(** C7.  [delete_from] answers 204 with an empty body whatever the
    table holds; afterwards the table holds the rows it held except the
    pair (user, recipe); when the pair was not there nothing changes. *)
Theorem delete_from_no_content (model : MembershipModel) (u pk : Z) (s : Store) :
  fst (delete_from model u pk s) = Ok (mkResponse None 204)
  /\ dispatch (fst (delete_from model u pk s)) = Responded 204
  /\ (forall m, In m (objects model (snd (delete_from model u pk s)))
                <-> In m (objects model s) /\ m <> mkMembership u pk)
  /\ (~ In (mkMembership u pk) (objects model s) ->
      snd (delete_from model u pk s) = s).
Proof.
  unfold delete_from, filter_delete; simpl.
  split; [reflexivity|]. split; [reflexivity|]. split.
  - intros m. rewrite objects_set_objects, filter_In, negb_true_iff.
    rewrite <- not_true_iff_false, matches_spec. tauto.
  - intros Hnotin. rewrite filter_all; [apply set_objects_same|].
    intros m Hin. apply negb_true_iff, not_true_iff_false.
    rewrite matches_spec. intros ->. contradiction.
Qed.

(** The two endpoints send DELETE to [delete_from] and POST to [add_to]. *)
Example cart_delete_absent_pair :
  cart DELETE 3 7 Samples.store
  = (Ok (mkResponse None 204), Samples.store).
Proof. reflexivity. Qed.

Example cart_delete_present_pair :
  Cart_objects (snd (cart DELETE 3 8 Samples.store_with_cart))
  = [mkMembership 3 7; mkMembership 4 8].
Proof. reflexivity. Qed.

Example favorite_post_missing_recipe :
  favorite POST 3 9 Samples.store = (Raise Http404, Samples.store).
Proof. reflexivity. Qed.

(** C9, on the code.  For a recipe id that no recipe has, [add_to] ends
    in [Http404], answered with 404, and writes nothing, while
    [delete_from] answers 204: the removal never looks the recipe up. *)
Theorem membership_of_missing_recipe (model : MembershipModel) (u pk : Z)
        (s : Store) :
  get_object_or_404 s pk = Raise Http404 ->
  add_to model u pk s = (Raise Http404, s)
  /\ dispatch (fst (add_to model u pk s)) = Responded 404
  /\ fst (delete_from model u pk s) = Ok (mkResponse None 204)
  /\ dispatch (fst (delete_from model u pk s)) = Responded 204.
Proof.
  intros H. unfold add_to. rewrite H. repeat split.
Qed.

Lemma membership_of_missing_recipe_witness :
  get_object_or_404 Samples.store 8 = Raise Http404
  /\ dispatch (fst (add_to Cart 3 8 Samples.store)) = Responded 404
  /\ dispatch (fst (delete_from Cart 3 8 Samples.store)) = Responded 204.
Proof.
  pose proof (membership_of_missing_recipe Cart 3 8 Samples.store eq_refl)
    as H.
  split; [reflexivity|].
  split; [exact (proj1 (proj2 H)) | exact (proj2 (proj2 (proj2 H)))].
Defined.

(** C2, on the code.  For an existing recipe not yet in the table, the
    first [add_to] writes the row and then ends in
    [ImproperlyConfigured] (the summary serializer names [cooking_time],
    the model's field is [time]); the second ends in the [IntegrityError]
    of the unique constraint, which no handler translates, and leaves the
    table as it was. *)
Theorem add_to_twice (model : MembershipModel) (u pk : Z) (s : Store)
        (recipe : Recipe) :
  get_object_or_404 s pk = Ok recipe ->
  ~ In (mkMembership u pk) (objects model s) ->
  fst (add_to model u pk s)
  = Raise (ImproperlyConfigured
             "Field name `cooking_time` is not valid for model `Recipe`.")
  /\ objects model (snd (add_to model u pk s))
     = objects model s ++ [mkMembership u pk]
  /\ add_to model u pk (snd (add_to model u pk s))
     = (Raise (IntegrityError (unique_constraint model)),
        snd (add_to model u pk s))
  /\ dispatch (Raise (IntegrityError (unique_constraint model)))
     = Unhandled (IntegrityError (unique_constraint model)).
Proof.
  intros Hget Hnotin.
  destruct (get_object_or_404_found s pk recipe Hget) as [Hid _].
  assert (Hno : existsb (matches u (id recipe)) (objects model s) = false).
  { apply not_true_iff_false. rewrite existsb_matches, Hid. exact Hnotin. }
  assert (Hfirst : add_to model u pk s
                   = (Raise (ImproperlyConfigured
                        "Field name `cooking_time` is not valid for model `Recipe`."),
                      set_objects model
                        (objects model s ++ [mkMembership u (id recipe)]) s)).
  { unfold add_to, objects_create. rewrite Hget, Hno.
    rewrite ShortRecipeSerializer_data_raises. reflexivity. }
  rewrite Hfirst; simpl.
  split; [reflexivity|].
  split; [rewrite objects_set_objects, Hid; reflexivity|].
  split; [|reflexivity].
  unfold add_to, objects_create, get_object_or_404 in *.
  rewrite Recipe_objects_set_objects.
  destruct (find (fun r => id r =? pk) (Recipe_objects s)); [|discriminate].
  injection Hget as ->.
  rewrite objects_set_objects, existsb_app; simpl.
  unfold matches at 2; simpl. rewrite !Z.eqb_refl; simpl.
  rewrite orb_true_r. reflexivity.
Qed.

Lemma add_to_twice_witness :
  get_object_or_404 Samples.store 7
  = Ok (mkRecipe 7 1 "bread" "recipes/bread.png" "Knead and bake." 60 0)
  /\ fst (add_to Cart 3 7 Samples.store)
     = Raise (ImproperlyConfigured
                "Field name `cooking_time` is not valid for model `Recipe`.")
  /\ add_to Cart 3 7 (snd (add_to Cart 3 7 Samples.store))
     = (Raise (IntegrityError "unique_cart"),
        snd (add_to Cart 3 7 Samples.store)).
Proof.
  pose proof (add_to_twice Cart 3 7 Samples.store _ eq_refl
                           (fun H : In _ [] => H)) as H.
  split; [reflexivity|].
  split; [exact (proj1 H) | exact (proj1 (proj2 (proj2 H)))].
Defined.

(** ** The range of [IngredientAmount.amount] *)

Lemma num_digits_fuel_upper (fuel : nat) :
  forall n, 0 <= n < 2 ^ Z.of_nat fuel ->
            n < 10 ^ Z.of_nat (num_digits_fuel fuel n).
Proof.
  induction fuel as [|fuel IH]; intros n Hn.
  - simpl in *. lia.
  - cbn [num_digits_fuel].
    destruct (n <? 10) eqn:E.
    + apply Z.ltb_lt in E. simpl. lia.
    + apply Z.ltb_ge in E.
      rewrite Nat2Z.inj_succ, Z.pow_succ_r in Hn by lia.
      assert (Hdiv : 0 <= n / 10 < 2 ^ Z.of_nat fuel).
      { split; [apply Z.div_pos; lia|].
        apply Z.div_lt_upper_bound; lia. }
      specialize (IH (n / 10) Hdiv).
      rewrite Nat2Z.inj_succ, Z.pow_succ_r by lia.
      pose proof (Z.div_mod n 10 ltac:(lia)) as Hdm.
      pose proof (Z.mod_pos_bound n 10 ltac:(lia)) as Hmod.
      lia.
Qed.

Lemma num_digits_upper (n : Z) : Z.abs n < 10 ^ Z.of_nat (num_digits n).
Proof.
  unfold num_digits. apply num_digits_fuel_upper.
  split; [lia|].
  rewrite Z2Nat.id by apply Z.log2_up_nonneg.
  destruct (Z.eq_dec (Z.abs n) 0) as [E|E].
  - rewrite E. simpl. lia.
  - pose proof (Z.log2_up_spec (Z.abs n + 1) ltac:(lia)). lia.
Qed.

Lemma num_digits_fuel_lower (fuel : nat) :
  forall n k, 0 <= n < 10 ^ Z.of_nat (S k) ->
              (num_digits_fuel fuel n <= S k)%nat.
Proof.
  induction fuel as [|fuel IH]; intros n k Hn; cbn [num_digits_fuel];
    [lia|].
  destruct (n <? 10) eqn:E; [lia|].
  apply Z.ltb_ge in E.
  destruct k as [|k]; [simpl in Hn; lia|].
  apply le_n_S. apply IH.
  rewrite (Nat2Z.inj_succ (S k)), Z.pow_succ_r in Hn by lia.
  split; [apply Z.div_pos; lia|].
  apply Z.div_lt_upper_bound; lia.
Qed.

Lemma num_digits_pos (n : Z) : (1 <= num_digits n)%nat.
Proof.
  unfold num_digits.
  destruct (Z.to_nat (Z.log2_up (Z.abs n + 1))); cbn [num_digits_fuel];
    [lia|].
  destruct (Z.abs n <? 10); lia.
Qed.

Lemma pow10_pos (e : Z) : 0 <= e -> 0 < 10 ^ e.
Proof. intros. apply Z.pow_pos_nonneg; lia. Qed.

(** A coefficient of [len] digits shifted by [e + 2] places, with at
    most four digits before the point. *)
Lemma scaled_below_million (c len e : Z) :
  Z.abs c < 10 ^ len -> 0 <= len -> 0 <= e + 2 -> len + e <= 4 ->
  Z.abs (c * 10 ^ (e + 2)) <= 999999.
Proof.
  intros Hc Hlen He Hwhole.
  pose proof (pow10_pos (e + 2) He) as Hp.
  rewrite Z.abs_mul, (Z.abs_eq (10 ^ (e + 2))) by lia.
  assert (Hlt : Z.abs c * 10 ^ (e + 2) < 10 ^ len * 10 ^ (e + 2))
    by (apply Z.mul_lt_mono_pos_r; assumption).
  rewrite <- Z.pow_add_r in Hlt by lia.
  assert (Hle : 10 ^ (len + (e + 2)) <= 10 ^ 6)
    by (apply Z.pow_le_mono_r; lia).
  change (10 ^ 6) with 1000000 in Hle. lia.
Qed.

(** The three tests of the validator, once its branches are chosen. *)
Ltac accepted H :=
  repeat match type of H with
         | context [if ?b then _ else _] =>
             let E := fresh "E" in
             destruct b eqn:E; [discriminate|]; apply Z.ltb_ge in E
         end.

(** What the validator of the field accepts (the validator runs in
    [full_clean], that is for a form; [save] and [bulk_create] do not
    run it): an exponent of at least -2 and, counted in hundredths, a
    number between -999999 and 999999, so at most 9999.99. *)
Lemma DecimalValidator_range (value : PyDecimal) :
  DecimalValidator amount_max_digits amount_decimal_places value = Ok tt ->
  -2 <= expo value
  /\ Z.abs (coef value * 10 ^ (expo value + 2)) <= 999999
  /\ Qle (Decimal_value value) (Qmake 999999 100).
Proof.
  unfold DecimalValidator, amount_max_digits, amount_decimal_places.
  pose proof (num_digits_upper (coef value)) as Hlen.
  pose proof (num_digits_pos (coef value)) as Hpos.
  set (len := Z.of_nat (num_digits (coef value))) in *.
  assert (Hlen0 : 1 <= len) by (unfold len; lia).
  intros H.
  assert (Hb : -2 <= expo value
               /\ Z.abs (coef value * 10 ^ (expo value + 2)) <= 999999).
  { destruct (0 <=? expo value) eqn:E0.
    - apply Z.leb_le in E0.
      destruct (coef value =? 0) eqn:Ec.
      + apply Z.eqb_eq in Ec. rewrite Ec. simpl. lia.
      + accepted H. split; [lia|].
        apply (scaled_below_million _ len); lia.
    - apply Z.leb_gt in E0.
      destruct (len <? Z.abs (expo value)) eqn:El.
      + apply Z.ltb_lt in El. accepted H. split; [lia|].
        apply (scaled_below_million _ len); lia.
      + apply Z.ltb_ge in El. accepted H. split; [lia|].
        apply (scaled_below_million _ len); lia. }
  destruct Hb as [He Hb]. split; [exact He|]. split; [exact Hb|].
  unfold Decimal_value, Qle.
  destruct (0 <=? expo value) eqn:E0; simpl.
  - apply Z.leb_le in E0.
    replace (expo value + 2) with (2 + expo value) in Hb by lia.
    rewrite Z.pow_add_r in Hb by lia. change (10 ^ 2) with 100 in Hb.
    lia.
  - apply Z.leb_gt in E0.
    assert (Hcase : expo value = -1 \/ expo value = -2) by lia.
    destruct Hcase as [E|E]; rewrite E in *; simpl in *; lia.
Qed.


(** The bound is reached, and one hundredth more is refused. *)
Example amount_9999_99_accepted :
  DecimalValidator amount_max_digits amount_decimal_places
                   (mkDecimal 999999 (-2)) = Ok tt.
Proof. reflexivity. Qed.

Example amount_10000_refused :
  DecimalValidator amount_max_digits amount_decimal_places
                   (mkDecimal 1000000 (-2))
  = Raise (ValidationError (Msg "max_digits")).
Proof. reflexivity. Qed.

Example amount_three_places_refused :
  DecimalValidator amount_max_digits amount_decimal_places
                   (mkDecimal 9 (-3))
  = Raise (ValidationError (Msg "max_decimal_places")).
Proof. reflexivity. Qed.

(** *** What is written *)

Lemma round_half_even_near (n d : Z) :
  0 < d -> 2 * Z.abs (round_half_even n d * d - n) <= d.
Proof.
  intros Hd. unfold round_half_even.
  pose proof (Z.div_mod n d ltac:(lia)) as Hdm.
  pose proof (Z.mod_pos_bound n d Hd) as Hm.
  set (q := n / d) in *. set (r := n mod d) in *.
  destruct (2 * r <? d) eqn:E1;
    [apply Z.ltb_lt in E1; nia | apply Z.ltb_ge in E1].
  destruct (d <? 2 * r) eqn:E2;
    [apply Z.ltb_lt in E2; nia | apply Z.ltb_ge in E2].
  destruct (Z.even q); nia.
Qed.

Lemma round_half_away_near (n d : Z) :
  0 < d -> 2 * Z.abs (round_half_away n d * d - n) <= d.
Proof.
  intros Hd. unfold round_half_away.
  pose proof (Z.div_mod (2 * Z.abs n + d) (2 * d) ltac:(lia)) as Hdm.
  pose proof (Z.mod_pos_bound (2 * Z.abs n + d) (2 * d) ltac:(lia)) as Hm.
  set (k := (2 * Z.abs n + d) / (2 * d)) in *.
  set (r := (2 * Z.abs n + d) mod (2 * d)) in *.
  destruct (Z.lt_trichotomy n 0) as [Hn|[Hn|Hn]].
  - rewrite (Z.sgn_neg n Hn). rewrite (Z.abs_neq n) in Hdm by lia. nia.
  - subst n. simpl in *. lia.
  - rewrite (Z.sgn_pos n Hn). rewrite (Z.abs_eq n) in Hdm by lia. nia.
Qed.

(** The base operations hand over a number of hundredths of at most six
    digits, or raise. *)
Lemma Decimal_quantize_amount (value stored : PyDecimal) :
  Decimal_quantize amount_decimal_places (Z.to_nat amount_max_digits) value
  = Ok stored ->
  two_places_six_digits stored /\ in_hundredths value stored.
Proof.
  unfold Decimal_quantize, amount_max_digits, amount_decimal_places.
  match goal with
  | |- context [(num_digits ?c <=? _)%nat] => set (q := c)
  end.
  destruct (num_digits q <=? Z.to_nat 6)%nat eqn:E; [|discriminate].
  intros [= <-]. split.
  - split; [reflexivity|]. cbn [coef].
    apply Nat.leb_le in E.
    pose proof (num_digits_upper q) as Hq.
    assert (Hle : 10 ^ Z.of_nat (num_digits q) <= 10 ^ 6)
      by (apply Z.pow_le_mono_r; lia).
    change (10 ^ 6) with 1000000 in Hle. lia.
  - split; [reflexivity|]. cbn [coef expo]. subst q.
    change (- (2)) with (-2).
    split; intros He.
    + destruct (-2 <=? expo value) eqn:E'; [|apply Z.leb_gt in E'; lia].
      replace (expo value - -2) with (expo value + 2) by lia. reflexivity.
    + destruct (-2 <=? expo value) eqn:E'; [apply Z.leb_le in E'; lia|].
      apply round_half_even_near. apply pow10_pos. lia.
Qed.

(** The column of PostgreSQL keeps a number of hundredths of at most six
    digits, or the insert fails. *)
Lemma numeric_amount (value stored : PyDecimal) :
  numeric amount_max_digits amount_decimal_places value = Ok stored ->
  two_places_six_digits stored /\ in_hundredths value stored.
Proof.
  unfold numeric, amount_max_digits, amount_decimal_places.
  match goal with
  | |- context [Z.abs ?c <? _] => set (q := c)
  end.
  destruct (Z.abs q <? 10 ^ 6) eqn:E; [|discriminate].
  apply Z.ltb_lt in E. change (10 ^ 6) with 1000000 in E.
  intros [= <-]. split.
  - split; [reflexivity|]. cbn [coef]. lia.
  - split; [reflexivity|]. cbn [coef expo]. subst q.
    change (- (2)) with (-2).
    split; intros He.
    + destruct (-2 <=? expo value) eqn:E'; [|apply Z.leb_gt in E'; lia].
      replace (expo value - -2) with (expo value + 2) by lia. reflexivity.
    + destruct (-2 <=? expo value) eqn:E'; [apply Z.leb_le in E'; lia|].
      apply round_half_away_near. apply pow10_pos. lia.
Qed.

(** A number of hundredths stays what it is in the column. *)
Lemma numeric_hundredths (value : PyDecimal) :
  two_places_six_digits value ->
  numeric amount_max_digits amount_decimal_places value = Ok value.
Proof.
  intros [He Hc]. destruct value as [c e]; simpl in *. subst e.
  unfold numeric, amount_max_digits, amount_decimal_places.
  cbn [coef expo]. change (- (2) <=? -2) with true. cbv iota.
  change (10 ^ (-2 - - (2))) with 1. change (- (2)) with (-2).
  rewrite Z.mul_1_r.
  destruct (Z.abs c <? 10 ^ 6) eqn:E; [reflexivity|].
  apply Z.ltb_ge in E. change (10 ^ 6) with 1000000 in E. lia.
Qed.

(** From the object to the row, on either backend. *)
Lemma written_amount (b : backend) (value handed stored : PyDecimal) :
  adapt_decimalfield_value b amount_max_digits amount_decimal_places value
  = Ok handed ->
  column_value b amount_max_digits amount_decimal_places handed = Ok stored ->
  two_places_six_digits stored /\ in_hundredths value stored.
Proof.
  destruct b; cbn [adapt_decimalfield_value column_value]; intros Ha Hc.
  - injection Hc as <-. apply Decimal_quantize_amount. exact Ha.
  - injection Ha as <-. apply numeric_amount. exact Hc.
Qed.

Lemma prepare_amounts_rows (b : backend) (objs : list IngredientAmount) :
  forall rows,
    prepare_amounts b objs = Ok rows ->
    Forall2 (fun obj row =>
               ia_recipe row = ia_recipe obj
               /\ ia_ingredient row = ia_ingredient obj
               /\ adapt_decimalfield_value b amount_max_digits
                    amount_decimal_places (amount obj)
                  = Ok (amount row)) objs rows.
Proof.
  induction objs as [|obj objs IH]; intros rows H; cbn [prepare_amounts] in H.
  - injection H as <-. constructor.
  - apply bind_Ok in H. destruct H as [value [Hvalue H]].
    apply bind_Ok in H. destruct H as [rest [Hrest H]].
    injection H as <-. constructor; [|apply IH; exact Hrest].
    repeat split. exact Hvalue.
Qed.

Lemma insert_amounts_rows (b : backend) (rows : list IngredientAmount) :
  forall table table',
    insert_amounts b rows table = Ok table' ->
    exists new,
      table' = table ++ new
      /\ Forall2 (fun row n =>
                    ia_recipe n = ia_recipe row
                    /\ ia_ingredient n = ia_ingredient row
                    /\ column_value b amount_max_digits
                         amount_decimal_places (amount row)
                       = Ok (amount n)) rows new.
Proof.
  induction rows as [|row rows IH]; intros table table' H;
    cbn [insert_amounts] in H.
  - injection H as <-. exists []. split; [symmetry; apply app_nil_r|].
    constructor.
  - apply bind_Ok in H. destruct H as [stored [Hstored H]].
    destruct (existsb (same_pair row) table); [discriminate|].
    destruct (IH _ _ H) as [new [-> Hnew]].
    exists (mkIngredientAmount (ia_recipe row) (ia_ingredient row) stored
              :: new).
    split; [rewrite <- app_assoc; reflexivity|].
    constructor; [|exact Hnew]. repeat split. exact Hstored.
Qed.

Lemma written_rows (b : backend) (objs rows new : list IngredientAmount) :
  Forall2 (fun obj row =>
             ia_recipe row = ia_recipe obj
             /\ ia_ingredient row = ia_ingredient obj
             /\ adapt_decimalfield_value b amount_max_digits
                  amount_decimal_places (amount obj)
                = Ok (amount row)) objs rows ->
  Forall2 (fun row n =>
             ia_recipe n = ia_recipe row
             /\ ia_ingredient n = ia_ingredient row
             /\ column_value b amount_max_digits
                  amount_decimal_places (amount row)
                = Ok (amount n)) rows new ->
  Forall2 written_for objs new
  /\ Forall (fun n => two_places_six_digits (amount n)) new.
Proof.
  intros H. revert new.
  induction H as [|obj row objs rows [Hr [Hi Ha]] _ IH]; intros new Hnew.
  - inversion Hnew; subst. split; constructor.
  - inversion Hnew as [|? n ? new' [Hr' [Hi' Hc]] Hnew']; subst.
    destruct (IH _ Hnew') as [IH1 IH2].
    destruct (written_amount b _ _ _ Ha Hc) as [Hrange Hnear].
    split; constructor; try assumption.
    repeat split; try congruence; apply Hnear.
Qed.

Lemma two_places_six_digits_value (d : PyDecimal) :
  two_places_six_digits d -> Qle (Decimal_value d) (Qmake 999999 100).
Proof.
  intros [He Hc]. destruct d as [c e]; simpl in *. subst e.
  unfold Decimal_value, Qle; simpl. lia.
Qed.

(** What [bulk_create] does to the amounts table. *)
Lemma bulk_create_rows (b : backend) (objs : list IngredientAmount)
      (s : Store) :
  (exists e, bulk_create b objs s = (Raise e, s))
  \/ (exists new,
         bulk_create b objs s
         = (Ok objs,
            set_IngredientAmount_objects (IngredientAmount_objects s ++ new) s)
         /\ Forall2 written_for objs new
         /\ Forall (fun n => two_places_six_digits (amount n)) new).
Proof.
  unfold bulk_create.
  destruct (prepare_amounts b objs) as [rows|e] eqn:Hp;
    [|left; exists e; reflexivity].
  cbn [bind].
  destruct (insert_amounts b rows (IngredientAmount_objects s))
    as [table|e] eqn:Hi; [|left; exists e; reflexivity].
  cbn [bind].
  destruct (forallb (references_kept s) rows);
    [|left; eexists; reflexivity].
  right.
  destruct (insert_amounts_rows b rows _ _ Hi) as [new [-> Hnew]].
  exists new. split; [reflexivity|].
  apply (written_rows b objs rows new);
    [apply prepare_amounts_rows; exact Hp | exact Hnew].
Qed.

(** C10.  Every stored amount has two fractional digits and at most six
    digits in all, so it is at most 9999.99, whatever amounts the
    objects carry and on either backend: when the amounts of the table
    are such, they are such after [bulk_create].  The call either fails
    and writes nothing, or adds one row for each object, with the amount
    of the object in hundredths (the amount itself when it has at most
    two fractional digits). *)
Theorem stored_amount_at_most_9999_99 (b : backend)
        (objs : list IngredientAmount) (s : Store) :
  Forall (fun row => two_places_six_digits (amount row))
         (IngredientAmount_objects s) ->
  Forall (fun row => two_places_six_digits (amount row)
                     /\ Qle (Decimal_value (amount row)) (Qmake 999999 100))
         (IngredientAmount_objects (snd (bulk_create b objs s)))
  /\ ((exists e, bulk_create b objs s = (Raise e, s))
      \/ (exists new,
             bulk_create b objs s
             = (Ok objs,
                set_IngredientAmount_objects
                  (IngredientAmount_objects s ++ new) s)
             /\ Forall2 written_for objs new)).
Proof.
  intros Hs.
  assert (Hkept : Forall (fun row => two_places_six_digits (amount row)
                                     /\ Qle (Decimal_value (amount row))
                                            (Qmake 999999 100))
                         (IngredientAmount_objects s)).
  { apply Forall_impl with (2 := Hs). intros row H.
    split; [exact H | apply two_places_six_digits_value; exact H]. }
  destruct (bulk_create_rows b objs s) as [[e H]|[new [H [Hw Hr]]]];
    rewrite H; cbn [snd].
  - split; [exact Hkept | left; exists e; reflexivity].
  - split; [|right; exists new; split; [reflexivity | exact Hw]].
    cbn [set_IngredientAmount_objects IngredientAmount_objects].
    apply Forall_app. split; [exact Hkept|].
    apply Forall_impl with (2 := Hr). intros row H'.
    split; [exact H' | apply two_places_six_digits_value; exact H'].
Qed.

Lemma stored_amount_at_most_9999_99_witness :
  Forall (fun row => two_places_six_digits (amount row))
         (IngredientAmount_objects Samples.store)
  /\ Forall (fun row => two_places_six_digits (amount row)
                        /\ Qle (Decimal_value (amount row)) (Qmake 999999 100))
            (IngredientAmount_objects
               (snd (bulk_create postgresql
                       [mkIngredientAmount 7 2 (mkDecimal 12345 (-3))]
                       Samples.store))).
Proof.
  assert (H : Forall (fun row => two_places_six_digits (amount row))
                     (IngredientAmount_objects Samples.store)).
  { repeat constructor. simpl. lia. }
  split; [exact H|].
  exact (proj1 (stored_amount_at_most_9999_99 postgresql
                  [mkIngredientAmount 7 2 (mkDecimal 12345 (-3))]
                  Samples.store H)).
Defined.

(** An amount of the serializer (an [int]) and an amount with three
    fractional digits, on both backends; a tie is rounded to the even
    neighbour by one and away from zero by the other. *)
Example bulk_create_amounts :
  IngredientAmount_objects
    (snd (bulk_create BaseDatabaseOperations
            [mkIngredientAmount 7 2 (to_python_int 3)] Samples.store))
  = [mkIngredientAmount 7 1 (mkDecimal 250 (-2));
     mkIngredientAmount 7 2 (mkDecimal 300 (-2))]
  /\ IngredientAmount_objects
       (snd (bulk_create BaseDatabaseOperations
               [mkIngredientAmount 7 2 (mkDecimal 12345 (-3))] Samples.store))
     = [mkIngredientAmount 7 1 (mkDecimal 250 (-2));
        mkIngredientAmount 7 2 (mkDecimal 1234 (-2))]
  /\ IngredientAmount_objects
       (snd (bulk_create postgresql
               [mkIngredientAmount 7 2 (mkDecimal 12345 (-3))] Samples.store))
     = [mkIngredientAmount 7 1 (mkDecimal 250 (-2));
        mkIngredientAmount 7 2 (mkDecimal 1235 (-2))].
Proof. repeat split; reflexivity. Qed.

(** The bound is reached; ten thousand is written by neither backend,
    and the table stays as it was. *)
Example bulk_create_bound :
  fst (bulk_create BaseDatabaseOperations
         [mkIngredientAmount 7 2 (mkDecimal 999999 (-2))] Samples.store)
  = Ok [mkIngredientAmount 7 2 (mkDecimal 999999 (-2))]
  /\ bulk_create BaseDatabaseOperations
       [mkIngredientAmount 7 2 (to_python_int 10000)] Samples.store
     = (Raise InvalidOperation, Samples.store)
  /\ bulk_create postgresql
       [mkIngredientAmount 7 2 (to_python_int 10000)] Samples.store
     = (Raise (DataError "numeric field overflow"), Samples.store)
  /\ bulk_create postgresql
       [mkIngredientAmount 7 2 (mkDecimal 9999995 (-3))] Samples.store
     = (Raise (DataError "numeric field overflow"), Samples.store).
Proof. repeat split; reflexivity. Qed.

(** A second row for the same ingredient and recipe is refused. *)
Example bulk_create_unique :
  bulk_create postgresql [mkIngredientAmount 7 1 (to_python_int 1)]
              Samples.store
  = (Raise (IntegrityError "unique_ingredient_amount"), Samples.store).
Proof. reflexivity. Qed.

(** ** Recipe validation *)

(** *** The functions on the data they are written for *)

(** On an integer, [amount < 0.01] is [amount <= 0]. *)
Lemma py_lt_float_0_01 (a : Z) :
  py_lt (PyInt a) float_0_01 "float" = Ok (a <=? 0).
Proof.
  unfold py_lt, Qlt_bool, float_0_01; simpl. f_equal.
  destruct (a <=? 0) eqn:E.
  - apply Z.leb_le in E. apply Z.ltb_lt. lia.
  - apply Z.leb_gt in E. apply Z.ltb_ge. lia.
Qed.

Lemma py_lt_int_1 (t : Z) :
  py_lt (PyInt t) (inject_Z 1) "int" = Ok (t <? 1).
Proof.
  unfold py_lt, Qlt_bool; simpl. f_equal.
  destruct (t <? 1) eqn:E.
  - apply Z.ltb_lt in E. apply Z.ltb_lt. lia.
  - apply Z.ltb_ge in E. apply Z.ltb_ge. lia.
Qed.

(** [validate] on a dict: an empty [ingredients] list is refused under
    the key [ingredients]. *)
Lemma validate_empty_ingredients (items : list (string * pyobj)) :
  dict_get items "ingredients" = Some (PyList []) ->
  validate (PyDict items)
  = Raise (err "ingredients" "Минимум 1 ингредиент.").
Proof. intros H. unfold validate; simpl. rewrite H. reflexivity. Qed.

(** An integer amount below 1 is refused under the key [amount], the
    amount 1 goes through. *)
Lemma validate_ingredients_amount (pk a : Z) :
  validate_ingredients [line pk a] []
  = if a <=? 0 then Raise (err "amount" "Минимальное значение — 0.01.")
    else Ok tt.
Proof.
  unfold line. cbn [validate_ingredients py_get dict_get String.eqb
                    Ascii.eqb Bool.eqb py_in existsb bind].
  rewrite py_lt_float_0_01. cbn [bind].
  destruct (a <=? 0); reflexivity.
Qed.

(** The same ingredient twice is refused under the key [ingredients]. *)
Lemma validate_ingredients_duplicate (pk a b : Z) :
  0 < a ->
  validate_ingredients [line pk a; line pk b] []
  = Raise (err "ingredients" "Ингредиенты не должны повторяться.").
Proof.
  intros Ha. unfold line.
  cbn [validate_ingredients py_get dict_get String.eqb
       Ascii.eqb Bool.eqb py_in existsb bind app].
  rewrite py_lt_float_0_01. cbn [bind].
  destruct (a <=? 0) eqn:E; [apply Z.leb_le in E; lia|].
  cbn [py_in existsb py_eqb]. rewrite String.eqb_refl, Z.eqb_refl.
  reflexivity.
Qed.

(** [validate_tags] on a dict: an empty or missing [tags] is refused
    under the key [tags], and so is a tag that occurs twice. *)
Lemma validate_tags_empty :
  validate_tags (PyDict [("tags", PyList [])])
  = Raise (err "tags" "Минимум 1 тег.").
Proof. reflexivity. Qed.

Lemma validate_tags_duplicate (pk : Z) :
  validate_tags (PyDict [("tags", PyList [PyInstance "Tag" pk;
                                          PyInstance "Tag" pk])])
  = Raise (err "tags" "Теги не должны повторяться.").
Proof.
  unfold validate_tags; simpl. rewrite Z.eqb_refl. reflexivity.
Qed.

(** With a key [cooking_time] in the data, [validate] compares it with 1. *)
Lemma validate_cooking_time_present (pk a t : Z) :
  0 < a ->
  validate (PyDict [("ingredients", PyList [line pk a]);
                    ("cooking_time", PyInt t)])
  = if t <? 1 then Raise (err "cooking_time" "Минимальное значение — 1.")
    else Ok (PyDict [("ingredients", PyList [line pk a]);
                     ("cooking_time", PyInt t)]).
Proof.
  intros Ha. unfold validate.
  cbn [py_get dict_get String.eqb Ascii.eqb Bool.eqb bind py_len
       List.length Z.of_nat Z.eqb py_iter Pos.of_succ_nat].
  rewrite validate_ingredients_amount.
  destruct (a <=? 0) eqn:E; [apply Z.leb_le in E; lia|].
  cbn [bind]. rewrite py_lt_int_1. cbn [bind].
  destruct (t <? 1); reflexivity.
Qed.

(** *** The fields *)

Example IntegerField_0_01 :
  IntegerField_to_internal_value (mkDecimal 1 (-2))
  = Raise (ValidationError (Msg "A valid integer is required.")).
Proof. reflexivity. Qed.

Example IntegerField_0_009 :
  IntegerField_to_internal_value (mkDecimal 9 (-3))
  = Raise (ValidationError (Msg "A valid integer is required.")).
Proof. reflexivity. Qed.

Example IntegerField_2_0 :
  IntegerField_to_internal_value (mkDecimal 20 (-1)) = Ok 2.
Proof. reflexivity. Qed.

Example IntegerField_1 :
  IntegerField_to_internal_value (mkDecimal 1 0) = Ok 1.
Proof. reflexivity. Qed.

Lemma AddIngredientSerializer_result (s : Store) (item : IngredientInput) :
  (exists v, AddIngredientSerializer_run_validation s item = Ok v)
  \/ (exists d, AddIngredientSerializer_run_validation s item
                = Raise (ValidationError d)).
Proof.
  unfold AddIngredientSerializer_run_validation, PrimaryKeyRelatedField,
    IntegerField_to_internal_value.
  destruct (existsb _ _); destruct (0 <=? _);
    try destruct (_ =? 0); eauto.
Qed.

Lemma ListSerializer_items_total (s : Store) (items : list IngredientInput) :
  exists ret errors failed,
    ListSerializer_items s items = Ok (ret, errors, failed).
Proof.
  induction items as [|item items IH]; simpl; [eauto|].
  destruct IH as [ret [errors [failed IH]]].
  destruct (AddIngredientSerializer_result s item) as [[v H]|[d H]];
    rewrite H, IH; simpl; eauto.
Qed.

Lemma ListSerializer_items_failed (s : Store) (items : list IngredientInput)
      (item : IngredientInput) (d : detail) :
  In item items ->
  AddIngredientSerializer_run_validation s item = Raise (ValidationError d) ->
  exists ret errors, ListSerializer_items s items = Ok (ret, errors, true).
Proof.
  intros Hin Hitem.
  induction items as [|item0 items IH]; [contradiction|].
  simpl. destruct Hin as [->|Hin].
  - rewrite Hitem.
    destruct (ListSerializer_items_total s items) as [ret [errors [failed H]]].
    rewrite H; simpl. eauto.
  - destruct (IH Hin) as [ret [errors H]].
    destruct (AddIngredientSerializer_result s item0) as [[v H0]|[d0 H0]];
      rewrite H0, H; simpl; eauto.
Qed.

Lemma ListSerializer_result (s : Store) (items : list IngredientInput) :
  (exists v, ListSerializer_run_validation s items = Ok v)
  \/ (exists d, ListSerializer_run_validation s items
                = Raise (ValidationError d)).
Proof.
  unfold ListSerializer_run_validation.
  destruct (ListSerializer_items_total s items) as [ret [errors [failed H]]].
  rewrite H; simpl. destruct failed; eauto.
Qed.

Lemma ManyRelatedField_result (s : Store) (pks : list Z) :
  (exists ts, ManyRelatedField_run_validation s pks = Ok (PyList ts))
  \/ (exists d, ManyRelatedField_run_validation s pks
                = Raise (ValidationError d)).
Proof.
  unfold ManyRelatedField_run_validation.
  induction pks as [|pk pks IH]; simpl; [eauto|].
  unfold PrimaryKeyRelatedField.
  destruct (existsb _ _); simpl; [|eauto].
  destruct (ManyRelatedField_items s pks); simpl in *; [eauto|].
  destruct IH as [[ts H]|[d H]]; [discriminate | eauto].
Qed.

(** Tags that all exist give the list of their instances. *)
Lemma ManyRelatedField_existing (s : Store) (pks : list Z) :
  forallb (fun pk => existsb (Z.eqb pk) (map tag_id (Tag_objects s))) pks
  = true ->
  ManyRelatedField_run_validation s pks
  = Ok (PyList (map (PyInstance "Tag") pks)).
Proof.
  unfold ManyRelatedField_run_validation.
  induction pks as [|pk pks IH]; simpl; intros H; [reflexivity|].
  apply andb_true_iff in H. destruct H as [Hpk Hpks].
  unfold PrimaryKeyRelatedField. rewrite Hpk; simpl.
  specialize (IH Hpks).
  destruct (ManyRelatedField_items s pks); simpl in *; [|discriminate].
  injection IH as ->. reflexivity.
Qed.

(** The framework hands [validate_tags] the value of the field, a list:
    the method asks it for [get]. *)
Lemma validate_tags_on_field_value (ts : list pyobj) :
  validate_tags (PyList ts)
  = Raise (AttributeError "'list' object has no attribute 'get'").
Proof. reflexivity. Qed.

(** *** The validation of a request *)

(** A field that is skipped, accepts its input or refuses it with a
    validation error lets the loop go on, and what was recorded stays
    recorded. *)
Lemma field_step_goes_on (field_name : string) (value : option (result pyobj))
      (ret : list (string * pyobj)) (errors : list (string * detail)) :
  value = None \/ (exists v, value = Some (Ok v))
  \/ (exists d, value = Some (Raise (ValidationError d))) ->
  exists ret' errors',
    field_step field_name value None (ret, errors) = Ok (ret', errors')
    /\ forall x, In x errors -> In x errors'.
Proof.
  intros [->|[[v ->]|[d ->]]]; simpl; do 2 eexists;
    (split; [reflexivity|]); intros x Hx; try exact Hx.
  apply in_or_app. left. exact Hx.
Qed.

Lemma get_value_goes_on (A : Type) (self : Serializer) (message : string)
      (data : option A) (run : A -> result pyobj) :
  (forall d, data = Some d ->
             (exists v, run d = Ok v)
             \/ (exists e, run d = Raise (ValidationError e))) ->
  get_value self message data run = None
  \/ (exists v, get_value self message data run = Some (Ok v))
  \/ (exists d, get_value self message data run
                = Some (Raise (ValidationError d))).
Proof.
  intros H. unfold get_value. destruct data as [d|].
  - destruct (H d eq_refl) as [[v ->]|[e ->]]; eauto.
  - destruct (partial self); eauto.
Qed.

Lemma time_run_validation_result (t : Z) :
  (exists v, time_run_validation t = Ok v)
  \/ (exists e, time_run_validation t = Raise (ValidationError e)).
Proof. unfold time_run_validation. destruct (t <? _); eauto. Qed.

(** The fields before [tags], when the image is handled. *)
Lemma fields_before_tags (self : Serializer) (s : Store) (req : RecipeRequest) :
  image_handled self req ->
  exists ret errors,
    (acc <- field_step "name"
              (get_value self required (req_name req) (fun n => Ok (PyStr n)))
              None ([], []) ;;
     acc <- field_step "image"
              (get_value self no_file (req_image req)
                         (image_run_validation self))
              None acc ;;
     acc <- field_step "text"
              (get_value self required (req_text req) (fun t => Ok (PyStr t)))
              None acc ;;
     field_step "ingredients"
       (get_value self required (req_ingredients req)
                  (ListSerializer_run_validation s))
       None acc)
    = Ok (ret, errors).
Proof.
  intros Himage.
  destruct (field_step_goes_on "name"
              (get_value self required (req_name req) (fun n => Ok (PyStr n)))
              [] []) as [r1 [e1 [-> _]]].
  { apply get_value_goes_on. intros d _. eauto. }
  cbn [bind].
  destruct (field_step_goes_on "image"
              (get_value self no_file (req_image req)
                         (image_run_validation self)) r1 e1)
    as [r2 [e2 [-> _]]].
  { apply get_value_goes_on. intros d Hd.
    unfold image_handled in Himage. rewrite Hd in Himage. exact Himage. }
  cbn [bind].
  destruct (field_step_goes_on "text"
              (get_value self required (req_text req) (fun t => Ok (PyStr t)))
              r2 e2) as [r3 [e3 [-> _]]].
  { apply get_value_goes_on. intros d _. eauto. }
  cbn [bind].
  destruct (field_step_goes_on "ingredients"
              (get_value self required (req_ingredients req)
                         (ListSerializer_run_validation s)) r3 e3)
    as [r4 [e4 [-> _]]].
  { apply get_value_goes_on. intros d _. apply ListSerializer_result. }
  eauto.
Qed.

Lemma to_internal_value_unfold (self : Serializer) (s : Store)
      (req : RecipeRequest) :
  to_internal_value self s req
  = (acc <- (acc <- field_step "name"
                      (get_value self required (req_name req)
                                 (fun n => Ok (PyStr n)))
                      None ([], []) ;;
             acc <- field_step "image"
                      (get_value self no_file (req_image req)
                                 (image_run_validation self))
                      None acc ;;
             acc <- field_step "text"
                      (get_value self required (req_text req)
                                 (fun t => Ok (PyStr t)))
                      None acc ;;
             field_step "ingredients"
               (get_value self required (req_ingredients req)
                          (ListSerializer_run_validation s))
               None acc) ;;
     acc <- field_step "tags"
              (get_value self required (req_tags req)
                         (ManyRelatedField_run_validation s))
              (Some validate_tags) acc ;;
     acc <- field_step "time"
              (get_value self required (req_time req) time_run_validation)
              None acc ;;
     let '(ret, errors) := acc in
     match errors with
     | [] => Ok (PyDict ret)
     | _ => Raise (ValidationError (Fields errors))
     end).
Proof.
  unfold to_internal_value.
  destruct (field_step "name" _ None ([], [])) as [a1|]; [|reflexivity].
  cbn [bind].
  destruct (field_step "image" _ None a1) as [a2|]; [|reflexivity].
  cbn [bind].
  destruct (field_step "text" _ None a2) as [a3|]; reflexivity.
Qed.

Lemma to_internal_value_tags_hook (self : Serializer) (s : Store)
      (req : RecipeRequest) (tags : list Z) (ts : list pyobj) :
  image_handled self req ->
  req_tags req = Some tags ->
  ManyRelatedField_run_validation s tags = Ok (PyList ts) ->
  to_internal_value self s req
  = Raise (AttributeError "'list' object has no attribute 'get'").
Proof.
  intros Himage Hreq Htags. rewrite to_internal_value_unfold.
  destruct (fields_before_tags self s req Himage) as [ret [errors ->]].
  cbn [bind]. rewrite Hreq. cbn [get_value field_step].
  rewrite Htags. reflexivity.
Qed.

Lemma to_internal_value_tags_refused (self : Serializer) (s : Store)
      (req : RecipeRequest) (tags : list Z) (d : detail) :
  image_handled self req ->
  req_tags req = Some tags ->
  ManyRelatedField_run_validation s tags = Raise (ValidationError d) ->
  exists errors,
    to_internal_value self s req = Raise (ValidationError (Fields errors))
    /\ In ("tags", d) errors.
Proof.
  intros Himage Hreq Htags. rewrite to_internal_value_unfold.
  destruct (fields_before_tags self s req Himage) as [ret [errors ->]].
  cbn [bind]. rewrite Hreq. cbn [get_value field_step].
  rewrite Htags. cbn [bind].
  destruct (field_step_goes_on "time"
              (get_value self required (req_time req) time_run_validation)
              ret (errors ++ [("tags", d)]))
    as [ret' [errors' [-> Hkept]]].
  { apply get_value_goes_on. intros t _. apply time_run_validation_result. }
  cbn [bind].
  assert (Hin : In ("tags", d) errors').
  { apply Hkept. apply in_or_app. right. left. reflexivity. }
  destruct errors' as [|e0 errors']; [contradiction|].
  eexists. split; [reflexivity | exact Hin].
Qed.

Lemma dict_get_snoc_other (ret : list (string * pyobj)) (field_name k : string)
      (v : pyobj) :
  String.eqb k field_name = false ->
  dict_get (ret ++ [(field_name, v)]) k = dict_get ret k.
Proof.
  intros H. induction ret as [|[k0 v0] ret IH]; simpl.
  - rewrite H. reflexivity.
  - destruct (String.eqb k k0); [reflexivity | exact IH].
Qed.

(** The validated data are keyed by the names of the fields. *)
Lemma field_step_keys (field_name k : string) (value : option (result pyobj))
      (validate_method : option (pyobj -> result pyobj))
      (ret ret' : list (string * pyobj)) (errors errors' : list (string * detail)) :
  String.eqb k field_name = false ->
  field_step field_name value validate_method (ret, errors) = Ok (ret', errors') ->
  dict_get ret k = None -> dict_get ret' k = None.
Proof.
  intros Hk H Hret. unfold field_step in H.
  destruct value as [value|]; [|injection H as <- _; exact Hret].
  destruct (v <- value ;; match validate_method with
                          | Some m => m v
                          | None => Ok v
                          end) as [v|e].
  - injection H as <- _. rewrite dict_get_snoc_other by exact Hk. exact Hret.
  - destruct e; try discriminate. injection H as <- _. exact Hret.
Qed.

Lemma to_internal_value_keys (self : Serializer) (s : Store)
      (req : RecipeRequest) (data : pyobj) :
  to_internal_value self s req = Ok data ->
  exists ret, data = PyDict ret /\ dict_get ret "cooking_time" = None.
Proof.
  unfold to_internal_value. intros H.
  apply bind_Ok in H. destruct H as [[r1 e1] [H1 H]].
  apply bind_Ok in H. destruct H as [[r2 e2] [H2 H]].
  apply bind_Ok in H. destruct H as [[r3 e3] [H3 H]].
  apply bind_Ok in H. destruct H as [[r4 e4] [H4 H]].
  apply bind_Ok in H. destruct H as [[r5 e5] [H5 H]].
  apply bind_Ok in H. destruct H as [[r6 e6] [H6 H]].
  destruct e6; [|discriminate]. injection H as <-.
  exists r6. split; [reflexivity|].
  apply (field_step_keys "time" "cooking_time" _ _ _ _ _ _ eq_refl H6).
  apply (field_step_keys "tags" "cooking_time" _ _ _ _ _ _ eq_refl H5).
  apply (field_step_keys "ingredients" "cooking_time" _ _ _ _ _ _ eq_refl H4).
  apply (field_step_keys "text" "cooking_time" _ _ _ _ _ _ eq_refl H3).
  apply (field_step_keys "image" "cooking_time" _ _ _ _ _ _ eq_refl H2).
  apply (field_step_keys "name" "cooking_time" _ _ _ _ _ _ eq_refl H1).
  reflexivity.
Qed.

(** Without a key [cooking_time], [validate] does not return. *)
Lemma validate_without_cooking_time (items : list (string * pyobj))
      (v : pyobj) :
  dict_get items "cooking_time" = None -> validate (PyDict items) <> Ok v.
Proof.
  intros Hct H. unfold validate in H.
  apply bind_Ok in H. destruct H as [ing0 [_ H]].
  apply bind_Ok in H. destruct H as [n [_ H]].
  destruct (n =? 0); [discriminate|].
  apply bind_Ok in H. destruct H as [ing1 [_ H]].
  apply bind_Ok in H. destruct H as [ingredients [_ H]].
  apply bind_Ok in H. destruct H as [[] [_ H]].
  apply bind_Ok in H. destruct H as [ct [Hget H]].
  cbn [py_get] in Hget. rewrite Hct in Hget. injection Hget as <-.
  discriminate.
Qed.

(** No request gets through: the data that the fields produce have no
    key [cooking_time]. *)
Lemma run_validation_never_ok (self : Serializer) (s : Store)
      (req : RecipeRequest) (v : pyobj) :
  run_validation self s req <> Ok v.
Proof.
  unfold run_validation. intros H.
  apply bind_Ok in H. destruct H as [data [Hdata H]].
  destruct (to_internal_value_keys self s req data Hdata) as [ret [-> Hct]].
  exact (validate_without_cooking_time ret v Hct H).
Qed.

Lemma run_validation_tags_hook (self : Serializer) (s : Store)
      (req : RecipeRequest) (tags : list Z) :
  image_handled self req ->
  req_tags req = Some tags ->
  forallb (fun pk => existsb (Z.eqb pk) (map tag_id (Tag_objects s))) tags
  = true ->
  run_validation self s req
  = Raise (AttributeError "'list' object has no attribute 'get'").
Proof.
  intros Himage Hreq H. unfold run_validation.
  rewrite (to_internal_value_tags_hook self s req tags _ Himage Hreq
             (ManyRelatedField_existing s tags H)).
  reflexivity.
Qed.

(** C6, on the code.  A create or update request with an empty
    ingredient list, an empty tag list, a repeated ingredient or a
    repeated tag, whose tags exist and whose image the image field
    handles (by accepting it or by a validation error), gets no error
    keyed to [ingredients] or [tags]: the validation ends in the
    [AttributeError] of [validate_tags], which no handler translates. *)
Theorem empty_or_repeated_lists_crash (self : Serializer) (s : Store)
        (req : RecipeRequest) (ingredients : list IngredientInput)
        (tags : list Z) :
  req_ingredients req = Some ingredients ->
  req_tags req = Some tags ->
  forallb (fun pk => existsb (Z.eqb pk) (map tag_id (Tag_objects s))) tags
  = true ->
  image_handled self req ->
  ingredients = [] \/ tags = []
  \/ ~ NoDup (map in_id ingredients) \/ ~ NoDup tags ->
  run_validation self s req
  = Raise (AttributeError "'list' object has no attribute 'get'")
  /\ exception_handler (AttributeError "'list' object has no attribute 'get'")
     = None.
Proof.
  intros _ Hreq Htags Himage _. split; [|reflexivity].
  apply (run_validation_tags_hook self s req tags); assumption.
Qed.

Lemma empty_or_repeated_lists_crash_witness :
  image_handled Samples.serializer (Samples.request [] [] 30)
  /\ run_validation Samples.serializer Samples.store (Samples.request [] [] 30)
     = Raise (AttributeError "'list' object has no attribute 'get'")
  /\ exception_handler (AttributeError "'list' object has no attribute 'get'")
     = None.
Proof.
  assert (H : image_handled Samples.serializer (Samples.request [] [] 30)).
  { left. eexists. reflexivity. }
  split; [exact H|].
  apply (empty_or_repeated_lists_crash Samples.serializer Samples.store
           (Samples.request [] [] 30) [] []).
  - reflexivity.
  - reflexivity.
  - reflexivity.
  - exact H.
  - left. reflexivity.
Defined.

Example empty_ingredients_request :
  run_validation Samples.serializer Samples.store (Samples.request [] [1] 30)
  = Raise (AttributeError "'list' object has no attribute 'get'").
Proof. reflexivity. Qed.

Example repeated_tags_request :
  run_validation Samples.serializer Samples.store
    (Samples.request [mkIngredientInput 1 (mkDecimal 2 0)] [1; 1] 30)
  = Raise (AttributeError "'list' object has no attribute 'get'").
Proof. reflexivity. Qed.

Example well_formed_request :
  run_validation Samples.serializer Samples.store
    (Samples.request [mkIngredientInput 1 (mkDecimal 2 0)] [1] 30)
  = Raise (AttributeError "'list' object has no attribute 'get'").
Proof. reflexivity. Qed.

(** An image that starts as a data URI and has nothing to decode: the
    image field comes before [tags] and its [ValueError] leaves the
    loop. *)
Example image_without_payload_request :
  run_validation Samples.serializer Samples.store Samples.request_bad_image
  = Raise (ValueError "not enough values to unpack (expected 2, got 1)").
Proof. reflexivity. Qed.

(** When the tags are refused, the fields' errors are reported under the
    fields' names; the cooking time is the field [time]. *)
Example unknown_tag_and_time_zero :
  run_validation Samples.serializer Samples.store (Samples.request [] [2] 0)
  = Raise (ValidationError
             (Fields [("tags", Msg "Invalid pk - object does not exist.");
                      ("time",
                       Msg "Ensure this value is greater than or equal to 1.")])).
Proof. reflexivity. Qed.

(** A create request without tags: the field is required. *)
Example create_without_tags :
  run_validation Samples.serializer Samples.store
    (mkRecipeRequest (Some "bread") None (Some "Knead and bake.")
                     (Some []) None (Some 30))
  = Raise (ValidationError
             (Fields [("image", Msg "No file was submitted.");
                      ("tags", Msg "This field is required.")])).
Proof. reflexivity. Qed.

(** A partial update that leaves the tags out skips the field and its
    hook and reaches [validate]: an empty ingredient list gets the error
    keyed [ingredients], an accepted one goes on to the cooking time. *)
Example patch_empty_ingredients :
  run_validation Samples.patch_serializer Samples.store
    (Samples.patch_ingredients [])
  = Raise (err "ingredients" "Минимум 1 ингредиент.").
Proof. reflexivity. Qed.

Example patch_one_ingredient :
  run_validation Samples.patch_serializer Samples.store
    (Samples.patch_ingredients [mkIngredientInput 1 (mkDecimal 2 0)])
  = Raise (TypeError
             "'<' not supported between instances of 'NoneType' and 'int'").
Proof. reflexivity. Qed.

(** C3, on the code.  An ingredient line whose amount is written 0.01 is
    refused by the integer field of [AddIngredientSerializer], and with
    it the [ingredients] field; no request that carries such a line is
    accepted. *)
Theorem amount_0_01_not_accepted (self : Serializer) (s : Store)
        (req : RecipeRequest) (ingredients : list IngredientInput)
        (item : IngredientInput) :
  req_ingredients req = Some ingredients ->
  In item ingredients ->
  in_amount item = mkDecimal 1 (-2) ->
  IntegerField_to_internal_value (in_amount item)
  = Raise (ValidationError (Msg "A valid integer is required."))
  /\ (exists errors,
        ListSerializer_run_validation s ingredients
        = Raise (ValidationError (Items errors)))
  /\ forall v, run_validation self s req <> Ok v.
Proof.
  intros _ Hin Hamount.
  split; [rewrite Hamount; reflexivity|].
  split; [|intros v; apply run_validation_never_ok].
  assert (Hitem : exists d, AddIngredientSerializer_run_validation s item
                            = Raise (ValidationError d)).
  { unfold AddIngredientSerializer_run_validation, PrimaryKeyRelatedField.
    rewrite Hamount. destruct (existsb _ _); simpl; eauto. }
  destruct Hitem as [d Hitem].
  destruct (ListSerializer_items_failed s _ item d Hin Hitem)
    as [ret [errors H]].
  unfold ListSerializer_run_validation. rewrite H; simpl. eauto.
Qed.

Lemma amount_0_01_not_accepted_witness :
  IntegerField_to_internal_value (mkDecimal 1 (-2))
  = Raise (ValidationError (Msg "A valid integer is required."))
  /\ exists errors,
       ListSerializer_run_validation Samples.store
         [mkIngredientInput 1 (mkDecimal 1 (-2))]
       = Raise (ValidationError (Items errors)).
Proof.
  pose proof (amount_0_01_not_accepted Samples.serializer Samples.store
                (Samples.request [mkIngredientInput 1 (mkDecimal 1 (-2))] [1] 30)
                [mkIngredientInput 1 (mkDecimal 1 (-2))]
                (mkIngredientInput 1 (mkDecimal 1 (-2)))
                eq_refl (or_introl eq_refl) eq_refl) as H.
  split; [exact (proj1 H) | exact (proj1 (proj2 H))].
Defined.

(** C8, on the code.  The validated data carry the cooking time under
    the key [time]; on data without a key [cooking_time], once the
    ingredients have passed, [validate] compares [None] with 1 and ends
    in a [TypeError], whatever the time is. *)
Theorem validate_cooking_time_missing (items : list (string * pyobj))
        (ingredients : list pyobj) :
  dict_get items "ingredients" = Some (PyList ingredients) ->
  ingredients <> [] ->
  validate_ingredients ingredients [] = Ok tt ->
  dict_get items "cooking_time" = None ->
  validate (PyDict items)
  = Raise (TypeError
             "'<' not supported between instances of 'NoneType' and 'int'")
  /\ exception_handler
       (TypeError "'<' not supported between instances of 'NoneType' and 'int'")
     = None.
Proof.
  intros Hing Hne Hloop Htime. split; [|reflexivity].
  unfold validate. cbn [py_get]. rewrite Hing, Htime. cbn [bind py_len].
  destruct ingredients as [|i0 rest]; [contradiction|].
  cbn [List.length]. rewrite Nat2Z.inj_succ.
  destruct (Z.succ (Z.of_nat (List.length rest)) =? 0) eqn:E;
    [apply Z.eqb_eq in E; lia|].
  cbn [py_iter bind]. rewrite Hloop. reflexivity.
Qed.

Lemma validate_cooking_time_missing_witness :
  validate (PyDict (Samples.validated_data 30))
  = Raise (TypeError
             "'<' not supported between instances of 'NoneType' and 'int'")
  /\ exception_handler
       (TypeError "'<' not supported between instances of 'NoneType' and 'int'")
     = None.
Proof.
  apply (validate_cooking_time_missing (Samples.validated_data 30)
                                       [line 1 250]).
  - reflexivity.
  - discriminate.
  - reflexivity.
  - reflexivity.
Defined.

(* ================================================================== *)
(** * Further properties *)

(** ** Membership: how the operations compose *)

Lemma filter_idempotent (A : Type) (f : A -> bool) (l : list A) :
  filter f (filter f l) = filter f l.
Proof.
  apply filter_all. intros x Hx. apply filter_In in Hx. tauto.
Qed.

Lemma set_objects_twice (model : MembershipModel) (rows rows' : list Membership)
      (s : Store) :
  set_objects model rows' (set_objects model rows s) = set_objects model rows' s.
Proof. destruct model; reflexivity. Qed.

Lemma filter_snoc_removed (u pk : Z) (rows : list Membership) :
  ~ In (mkMembership u pk) rows ->
  filter (fun m => negb (matches u pk m)) (rows ++ [mkMembership u pk]) = rows.
Proof.
  intros Hnotin. rewrite filter_app; simpl.
  unfold matches at 2; simpl. rewrite !Z.eqb_refl; simpl.
  rewrite app_nil_r. apply filter_all.
  intros m Hin. apply negb_true_iff, not_true_iff_false.
  rewrite matches_spec. intros ->. contradiction.
Qed.

(** The rows of a membership table after [add_to]: one more row when the
    recipe exists and the pair is new, the same rows otherwise. *)
Lemma add_to_objects (model : MembershipModel) (u pk : Z) (s : Store) :
  snd (add_to model u pk s) = s
  \/ (~ In (mkMembership u pk) (objects model s)
      /\ snd (add_to model u pk s)
         = set_objects model (objects model s ++ [mkMembership u pk]) s).
Proof.
  unfold add_to.
  destruct (get_object_or_404 s pk) as [r|e] eqn:G; [|left; reflexivity].
  destruct (get_object_or_404_found s pk r G) as [Hid _].
  unfold objects_create. rewrite Hid.
  destruct (existsb (matches u pk) (objects model s)) eqn:E;
    [left; reflexivity|].
  right. split.
  - rewrite <- existsb_matches, E. discriminate.
  - rewrite ShortRecipeSerializer_data_raises. reflexivity.
Qed.

Lemma delete_from_absent (model : MembershipModel) (u pk : Z) (s : Store) :
  ~ In (mkMembership u pk) (objects model s) ->
  snd (delete_from model u pk s) = s.
Proof.
  intros Hnotin. unfold delete_from, filter_delete; simpl.
  rewrite filter_all; [apply set_objects_same|].
  intros m Hin. apply negb_true_iff, not_true_iff_false.
  rewrite matches_spec. intros ->. contradiction.
Qed.

Lemma delete_from_removes (model : MembershipModel) (u pk : Z) (s : Store) :
  ~ In (mkMembership u pk) (objects model (snd (delete_from model u pk s))).
Proof.
  unfold delete_from, filter_delete; simpl.
  rewrite objects_set_objects, filter_In, negb_true_iff.
  intros [_ H]. apply not_true_iff_false in H. apply H.
  apply matches_spec. reflexivity.
Qed.

Lemma objects_set_objects_other (model : MembershipModel)
      (rows : list Membership) (s : Store) :
  objects (other model) (set_objects model rows s) = objects (other model) s.
Proof. destruct model; reflexivity. Qed.

Lemma membership_other_table (model : MembershipModel) (m : method)
      (u pk : Z) (s : Store) :
  objects (other model)
          (snd (match m with
                | POST => add_to model u pk s
                | DELETE => delete_from model u pk s
                end))
  = objects (other model) s.
Proof.
  destruct m.
  - destruct (add_to_objects model u pk s) as [->|[_ ->]];
      [reflexivity | apply objects_set_objects_other].
  - unfold delete_from, filter_delete; simpl.
    apply objects_set_objects_other.
Qed.

(** X1.  Removing after adding gives back the store one started from,
    when the pair was not in the table before (whether or not the recipe
    exists). *)
Theorem delete_from_after_add_to (model : MembershipModel) (u pk : Z)
        (s : Store) :
  ~ In (mkMembership u pk) (objects model s) ->
  snd (delete_from model u pk (snd (add_to model u pk s))) = s.
Proof.
  intros Hnotin.
  destruct (add_to_objects model u pk s) as [->|[_ ->]].
  - apply delete_from_absent. exact Hnotin.
  - unfold delete_from, filter_delete; simpl.
    rewrite objects_set_objects, set_objects_twice.
    rewrite filter_snoc_removed by assumption.
    apply set_objects_same.
Qed.

Lemma delete_from_after_add_to_witness :
  ~ In (mkMembership 3 7) (objects Cart Samples.store)
  /\ snd (delete_from Cart 3 7 (snd (add_to Cart 3 7 Samples.store)))
     = Samples.store.
Proof.
  split; [exact (fun H : In _ [] => H)|].
  apply (delete_from_after_add_to Cart 3 7 Samples.store).
  exact (fun H : In _ [] => H).
Defined.

(** X2.  Removing twice is removing once. *)
Theorem delete_from_idempotent (model : MembershipModel) (u pk : Z) (s : Store) :
  delete_from model u pk (snd (delete_from model u pk s))
  = delete_from model u pk s.
Proof.
  unfold delete_from, filter_delete; simpl. f_equal.
  rewrite objects_set_objects, set_objects_twice, filter_idempotent.
  reflexivity.
Qed.

(** X3.  The unique constraint is kept: a table without a repeated
    (user, recipe) pair has none after [add_to] and none after
    [delete_from]. *)
Theorem membership_stays_unique (model : MembershipModel) (u pk : Z)
        (s : Store) :
  NoDup (objects model s) ->
  NoDup (objects model (snd (add_to model u pk s)))
  /\ NoDup (objects model (snd (delete_from model u pk s))).
Proof.
  intros ND. split.
  - destruct (add_to_objects model u pk s) as [->|[Hnotin ->]];
      [exact ND|].
    rewrite objects_set_objects.
    apply NoDup_rev in ND. rewrite <- (rev_involutive (_ ++ _)).
    apply NoDup_rev. rewrite rev_app_distr; simpl.
    constructor; [|exact ND]. rewrite <- in_rev. exact Hnotin.
  - unfold delete_from, filter_delete; simpl.
    rewrite objects_set_objects. apply NoDup_filter. exact ND.
Qed.

Lemma membership_stays_unique_witness :
  NoDup (objects Cart Samples.store_with_cart)
  /\ NoDup (objects Cart (snd (add_to Cart 4 7 Samples.store_with_cart))).
Proof.
  assert (ND : NoDup (objects Cart Samples.store_with_cart)).
  { simpl. repeat constructor; simpl; intuition discriminate. }
  split; [exact ND|].
  exact (proj1 (membership_stays_unique Cart 4 7 Samples.store_with_cart ND)).
Defined.

(** X4.  A membership operation touches one table only: tags,
    ingredients, recipes, amounts and the table of the other membership
    model are as before, whatever the operation answers. *)
Theorem membership_frame (model : MembershipModel) (m : method) (u pk : Z)
        (s : Store) :
  let s' := snd (match m with
                 | POST => add_to model u pk s
                 | DELETE => delete_from model u pk s
                 end) in
  Tag_objects s' = Tag_objects s
  /\ Ingredient_objects s' = Ingredient_objects s
  /\ Recipe_objects s' = Recipe_objects s
  /\ IngredientAmount_objects s' = IngredientAmount_objects s
  /\ objects (other model) s' = objects (other model) s.
Proof.
  destruct m; cbv zeta.
  - destruct (add_to_objects model u pk s) as [->|[_ ->]];
      [repeat split|].
    destruct model; repeat split.
  - unfold delete_from, filter_delete; simpl.
    destruct model; repeat split.
Qed.

(** X5.  [validate_cart] passes exactly when [add_to], for a recipe that
    exists, does not run into the unique constraint. *)
Theorem validate_cart_exact (model : MembershipModel) (u pk : Z) (s : Store)
        (r : Recipe) :
  get_object_or_404 s pk = Ok r ->
  (validate_cart model u pk s = Ok tt
   <-> fst (add_to model u pk s)
       <> Raise (IntegrityError (unique_constraint model)))
  /\ (validate_cart model u pk s
      = Raise (ValidationError (Msg "Рецепт уже добавлен."))
      <-> fst (add_to model u pk s)
          = Raise (IntegrityError (unique_constraint model))).
Proof.
  intros G. destruct (get_object_or_404_found s pk r G) as [Hid _].
  unfold validate_cart, add_to, objects_create. rewrite G, Hid.
  destruct (existsb (matches u pk) (objects model s)); simpl.
  - split; split; intros H; try reflexivity; try discriminate.
    exfalso. apply H. reflexivity.
  - split; split; intros H; try reflexivity; discriminate.
Qed.

Lemma validate_cart_exact_witness :
  get_object_or_404 Samples.store_with_cart 7
  = Ok (mkRecipe 7 1 "bread" "recipes/bread.png" "Knead and bake." 60 0)
  /\ (validate_cart Cart 3 7 Samples.store_with_cart
      = Raise (ValidationError (Msg "Рецепт уже добавлен."))
      <-> fst (add_to Cart 3 7 Samples.store_with_cart)
          = Raise (IntegrityError (unique_constraint Cart))).
Proof.
  split; [reflexivity|].
  exact (proj2 (validate_cart_exact Cart 3 7 Samples.store_with_cart _ eq_refl)).
Defined.

Lemma get_is_favorited_spec (u : Z) (obj : Recipe) (s : Store) :
  get_is_favorited (Some u) obj s = true
  <-> In (mkMembership u (id obj)) (Favorite_objects s).
Proof.
  unfold get_is_favorited.
  change (fun f => (user f =? u) && (recipe f =? id obj))
    with (matches u (id obj)).
  apply existsb_matches.
Qed.

(** X6.  [is_favorited] follows the favorite operations: for a recipe
    that exists it is true after [add_to], false after [delete_from],
    and the cart operations do not change it; for the anonymous user it
    is false on every store. *)
Theorem get_is_favorited_follows (u pk : Z) (s : Store) (r : Recipe)
        (m : method) (v pk' : Z) :
  get_object_or_404 s pk = Ok r ->
  get_is_favorited (Some u) r (snd (add_to Favorite u pk s)) = true
  /\ get_is_favorited (Some u) r (snd (delete_from Favorite u pk s)) = false
  /\ get_is_favorited (Some u) r (snd (cart m v pk' s))
     = get_is_favorited (Some u) r s
  /\ get_is_favorited None r s = false.
Proof.
  intros G. destruct (get_object_or_404_found s pk r G) as [Hid _].
  split; [|split; [|split; [|reflexivity]]].
  - apply get_is_favorited_spec. rewrite Hid.
    change (Favorite_objects ?x) with (objects Favorite x).
    unfold add_to, objects_create. rewrite G, Hid.
    destruct (existsb (matches u pk) (objects Favorite s)) eqn:E.
    + apply existsb_matches. exact E.
    + rewrite ShortRecipeSerializer_data_raises. cbn [snd].
      rewrite objects_set_objects. apply in_or_app. right. left.
      reflexivity.
  - apply not_true_iff_false. rewrite get_is_favorited_spec, Hid.
    change (Favorite_objects ?x) with (objects Favorite x).
    apply delete_from_removes.
  - unfold get_is_favorited. f_equal.
    change (Favorite_objects ?x) with (objects (other Cart) x).
    destruct m; [apply (membership_other_table Cart POST)
                | apply (membership_other_table Cart DELETE)].
Qed.

Lemma get_is_favorited_follows_witness :
  get_object_or_404 Samples.store 7
  = Ok (mkRecipe 7 1 "bread" "recipes/bread.png" "Knead and bake." 60 0)
  /\ get_is_favorited (Some 3)
       (mkRecipe 7 1 "bread" "recipes/bread.png" "Knead and bake." 60 0)
       (snd (add_to Favorite 3 7 Samples.store)) = true.
Proof.
  split; [reflexivity|].
  exact (proj1 (get_is_favorited_follows 3 7 Samples.store _ POST 0 0 eq_refl)).
Defined.

(** X7.  [FavoriteSerializer.validate], for an authenticated user and
    data that name a recipe: the error keyed [status] when the pair is
    in the favorites, the data unchanged when it is not; without a
    request or for the anonymous user it returns [False], whatever the
    table holds. *)
Theorem FavoriteSerializer_validate_spec (u pk : Z)
        (data : list (string * Z)) (s : Store) :
  dict_get data "recipe" = Some pk ->
  (In (mkMembership u pk) (Favorite_objects s) ->
   FavoriteSerializer_validate (Some (Some u)) data s
   = Raise (err "status" "Рецепт уже есть в избранном."))
  /\ (~ In (mkMembership u pk) (Favorite_objects s) ->
      FavoriteSerializer_validate (Some (Some u)) data s
      = Ok (ReturnedData data))
  /\ FavoriteSerializer_validate (Some None) data s = Ok ReturnedFalse
  /\ FavoriteSerializer_validate None data s = Ok ReturnedFalse.
Proof.
  intros Hget. unfold FavoriteSerializer_validate. rewrite Hget.
  change (fun f => (user f =? u) && (recipe f =? pk)) with (matches u pk).
  split; [|split; [|split; reflexivity]]; intros H.
  - apply existsb_matches in H. rewrite H. reflexivity.
  - destruct (existsb (matches u pk) (Favorite_objects s)) eqn:E;
      [|reflexivity].
    apply existsb_matches in E. contradiction.
Qed.

Lemma FavoriteSerializer_validate_spec_witness :
  dict_get [("user", 3); ("recipe", 7)] "recipe" = Some 7
  /\ FavoriteSerializer_validate (Some (Some 3)) [("user", 3); ("recipe", 7)]
       Samples.store
     = Ok (ReturnedData [("user", 3); ("recipe", 7)]).
Proof.
  split; [reflexivity|].
  apply (FavoriteSerializer_validate_spec 3 7 [("user", 3); ("recipe", 7)]
           Samples.store eq_refl).
  exact (fun H : In _ [] => H).
Defined.

(** ** The serializer class of the view set *)

(** X8.  [get_serializer_class] compares the name of the action with the
    names of the safe HTTP methods: for every action of the view set,
    the reading ones included, it answers [RecipeSerializer]; it answers
    [RecipeListSerializer] only for an action called GET, HEAD or
    OPTIONS. *)
Theorem get_serializer_class_actions :
  Forall (fun a => get_serializer_class (Some a) = RecipeSerializer)
         RecipeViewSet_actions
  /\ get_serializer_class None = RecipeSerializer
  /\ forall a, get_serializer_class (Some a) = RecipeListSerializer
               <-> a = "GET" \/ a = "HEAD" \/ a = "OPTIONS".
Proof.
  split; [repeat constructor|]. split; [reflexivity|].
  intros a. unfold get_serializer_class, SAFE_METHODS; simpl.
  destruct (String.eqb a "GET") eqn:E1;
    [apply String.eqb_eq in E1; simpl; tauto|].
  destruct (String.eqb a "HEAD") eqn:E2;
    [apply String.eqb_eq in E2; simpl; tauto|].
  destruct (String.eqb a "OPTIONS") eqn:E3;
    [apply String.eqb_eq in E3; simpl; tauto|].
  apply String.eqb_neq in E1, E2, E3. simpl.
  split; [discriminate | tauto].
Qed.

(** ** The shopping list: what the sums guarantee *)

(** *** Sums of amounts that share an exponent *)

Lemma Decimal_add_same_exponent (a b : PyDecimal) :
  expo a = expo b ->
  Decimal_add a b = mkDecimal (coef a + coef b) (expo a).
Proof.
  intros H. unfold Decimal_add. rewrite <- H, Z.min_id, Z.sub_diag.
  simpl. f_equal. lia.
Qed.

Lemma fold_Decimal_add_same_exponent (l : list PyDecimal) :
  forall a, Forall (fun d => expo d = expo a) l ->
            fold_left Decimal_add l a
            = mkDecimal (coef a + coef_sum l) (expo a).
Proof.
  induction l as [|b l IH]; intros a H; simpl.
  - destruct a; simpl. f_equal. lia.
  - inversion H as [|? ? Hb Hl]; subst.
    rewrite (Decimal_add_same_exponent a b) by congruence.
    rewrite IH; simpl; [f_equal; lia|].
    exact Hl.
Qed.

Lemma Forall_lines_of (P : item -> Prop) (n : string) (l : list item) :
  Forall P l -> Forall P (lines_of n l).
Proof.
  intros H. unfold lines_of. rewrite Forall_forall in *.
  intros x Hx. apply filter_In in Hx. apply H. tauto.
Qed.

(** X12.  When every line carries its amount with the same exponent (two
    fractional digits, as the column gives them), the amount of a name
    in the result has that exponent too and its coefficient is the sum
    of the coefficients of the lines of that name: hundredths are added
    as integers. *)
Theorem aggregate_sums_hundredths (ingredients : list item) (e : Z)
        (n : string) (entry : Entry) :
  Forall (fun it => expo (item_amount it) = e) ingredients ->
  dict_get (aggregate ingredients) n = Some entry ->
  entry_amount entry
  = mkDecimal (coef_sum (map item_amount (lines_of n ingredients))) e.
Proof.
  intros He Hget. rewrite aggregate_get in Hget.
  apply (Forall_lines_of _ n) in He.
  destruct (lines_of n ingredients) as [|first rest]; [discriminate|].
  injection Hget as <-; simpl.
  inversion He as [|? ? Hfirst Hrest]; subst.
  rewrite fold_Decimal_add_same_exponent.
  - reflexivity.
  - rewrite Forall_map. exact Hrest.
Qed.

Lemma aggregate_sums_hundredths_witness :
  Forall (fun it => expo (item_amount it) = -2) Samples.flour_lines
  /\ dict_get (aggregate Samples.flour_lines) "flour"
     = Some (mkEntry "g" (mkDecimal 425 (-2)))
  /\ mkDecimal 425 (-2)
     = mkDecimal (coef_sum (map item_amount
                                (lines_of "flour" Samples.flour_lines))) (-2).
Proof.
  assert (H : Forall (fun it => expo (item_amount it) = -2)
                     Samples.flour_lines)
    by (repeat constructor).
  split; [exact H|]. split; [reflexivity|].
  exact (aggregate_sums_hundredths Samples.flour_lines (-2) "flour"
           (mkEntry "g" (mkDecimal 425 (-2))) H eq_refl).
Defined.

Lemma entry_amounts_set_new (d : list (string * Entry)) (k : string)
      (v : Entry) :
  dict_get d k = None ->
  coef_sum (entry_amounts (dict_set d k v))
  = coef_sum (entry_amounts d) + coef (entry_amount v).
Proof.
  unfold entry_amounts.
  induction d as [|[k0 v0] d IH]; simpl; intros H; [lia|].
  destruct (String.eqb k k0); [discriminate|]. simpl.
  rewrite (IH H). lia.
Qed.

Lemma entry_amounts_set_old (d : list (string * Entry)) (k : string)
      (old v : Entry) :
  dict_get d k = Some old ->
  coef_sum (entry_amounts (dict_set d k v))
  = coef_sum (entry_amounts d) - coef (entry_amount old)
    + coef (entry_amount v).
Proof.
  unfold entry_amounts.
  induction d as [|[k0 v0] d IH]; simpl; intros H; [discriminate|].
  destruct (String.eqb k k0); simpl.
  - injection H as ->. lia.
  - rewrite (IH H). lia.
Qed.

Lemma dict_get_Forall (P : Entry -> Prop) (d : list (string * Entry))
      (k : string) (v : Entry) :
  Forall (fun kv => P (snd kv)) d -> dict_get d k = Some v -> P v.
Proof.
  induction d as [|[k0 v0] d IH]; simpl; intros H G; [discriminate|].
  inversion H as [|? ? H0 Hd]; subst.
  destruct (String.eqb k k0); [injection G as <-; exact H0 | auto].
Qed.

Lemma dict_set_Forall (P : Entry -> Prop) (d : list (string * Entry))
      (k : string) (v : Entry) :
  Forall (fun kv => P (snd kv)) d -> P v ->
  Forall (fun kv => P (snd kv)) (dict_set d k v).
Proof.
  induction d as [|[k0 v0] d IH]; simpl; intros H Hv.
  - constructor; [exact Hv | constructor].
  - inversion H as [|? ? H0 Hd]; subst.
    destruct (String.eqb k k0); constructor; auto.
Qed.

Lemma add_item_same_exponent (final_list : list (string * Entry))
      (it : item) (e : Z) :
  Forall (fun kv => expo (entry_amount (snd kv)) = e) final_list ->
  expo (item_amount it) = e ->
  Forall (fun kv => expo (entry_amount (snd kv)) = e) (add_item final_list it)
  /\ coef_sum (entry_amounts (add_item final_list it))
     = coef_sum (entry_amounts final_list) + coef (item_amount it).
Proof.
  intros Hfl Hit. destruct it as [[n u] a]. unfold add_item, item_amount in *.
  simpl in Hit.
  destruct (dict_get final_list n) as [old|] eqn:G.
  - pose proof (dict_get_Forall (fun x => expo (entry_amount x) = e)
                                _ _ _ Hfl G) as Hold.
    simpl in Hold.
    rewrite (Decimal_add_same_exponent (entry_amount old) a) by congruence.
    split.
    + apply (dict_set_Forall (fun x => expo (entry_amount x) = e));
        [exact Hfl | exact Hold].
    + rewrite (entry_amounts_set_old _ _ old) by exact G. simpl. lia.
  - split.
    + apply (dict_set_Forall (fun x => expo (entry_amount x) = e));
        [exact Hfl | exact Hit].
    + rewrite entry_amounts_set_new by exact G. simpl. lia.
Qed.

Lemma coef_sum_app (l l' : list PyDecimal) :
  coef_sum (l ++ l') = coef_sum l + coef_sum l'.
Proof. induction l as [|a l IH]; simpl; [reflexivity | rewrite IH; lia]. Qed.

(** X13.  Under the same condition nothing is lost and nothing is
    counted twice: the amounts of the result add up to what the amounts
    of the lines add up to, and each of them keeps the exponent. *)
Theorem aggregate_conserves_total (ingredients : list item) (e : Z) :
  Forall (fun it => expo (item_amount it) = e) ingredients ->
  Forall (fun d => expo d = e) (entry_amounts (aggregate ingredients))
  /\ coef_sum (entry_amounts (aggregate ingredients))
     = coef_sum (map item_amount ingredients).
Proof.
  intros H.
  assert (Hinv :
    Forall (fun kv => expo (entry_amount (snd kv)) = e) (aggregate ingredients)
    /\ coef_sum (entry_amounts (aggregate ingredients))
       = coef_sum (map item_amount ingredients)).
  { induction ingredients as [|it ingredients IH] using rev_ind.
    - split; [constructor | reflexivity].
    - apply Forall_app in H. destruct H as [Hl Hit].
      pose proof (Forall_inv Hit) as Hit'. simpl in Hit'.
      destruct (IH Hl) as [IH1 IH2].
      rewrite aggregate_snoc.
      destruct (add_item_same_exponent _ it _ IH1 Hit') as [H1 H2].
      split; [exact H1|].
      rewrite H2, IH2, map_app, coef_sum_app. simpl. lia. }
  destruct Hinv as [H1 H2]. split; [|exact H2].
  unfold entry_amounts. rewrite Forall_map. exact H1.
Qed.

Lemma aggregate_conserves_total_witness :
  Forall (fun it => expo (item_amount it) = -2) Samples.flour_lines
  /\ coef_sum (entry_amounts (aggregate Samples.flour_lines)) = 525.
Proof.
  assert (H : Forall (fun it => expo (item_amount it) = -2)
                     Samples.flour_lines)
    by (repeat constructor).
  split; [exact H|].
  rewrite (proj2 (aggregate_conserves_total Samples.flour_lines (-2) H)).
  reflexivity.
Defined.

(** *** The order of the rows *)

Lemma Decimal_add_comm (a b : PyDecimal) : Decimal_add a b = Decimal_add b a.
Proof.
  unfold Decimal_add. rewrite (Z.min_comm (expo b)). simpl. f_equal. lia.
Qed.

(** Three amounts added one after the other: every coefficient is
    brought to the smallest of the three exponents. *)
Lemma Decimal_add_three (s x y : PyDecimal) :
  Decimal_add (Decimal_add s x) y
  = let m := Z.min (Z.min (expo s) (expo x)) (expo y) in
    mkDecimal (coef s * 10 ^ (expo s - m) + coef x * 10 ^ (expo x - m)
               + coef y * 10 ^ (expo y - m)) m.
Proof.
  unfold Decimal_add; simpl.
  set (e1 := Z.min (expo s) (expo x)).
  set (m := Z.min e1 (expo y)).
  assert (H1 : 0 <= expo s - e1) by (unfold e1; lia).
  assert (H2 : 0 <= expo x - e1) by (unfold e1; lia).
  assert (H3 : 0 <= e1 - m) by (unfold m; lia).
  f_equal. f_equal.
  rewrite Z.mul_add_distr_r, <- !Z.mul_assoc, <- !Z.pow_add_r by assumption.
  replace (expo s - e1 + (e1 - m)) with (expo s - m) by lia.
  replace (expo x - e1 + (e1 - m)) with (expo x - m) by lia.
  reflexivity.
Qed.

Lemma Decimal_add_swap (s x y : PyDecimal) :
  Decimal_add (Decimal_add s x) y = Decimal_add (Decimal_add s y) x.
Proof.
  rewrite !Decimal_add_three. cbv zeta.
  replace (Z.min (Z.min (expo s) (expo y)) (expo x))
    with (Z.min (Z.min (expo s) (expo x)) (expo y)) by lia.
  f_equal. lia.
Qed.

Lemma add_amount_swap (t : option PyDecimal) (x y : PyDecimal) :
  add_amount (add_amount t x) y = add_amount (add_amount t y) x.
Proof.
  destruct t as [s|]; simpl; f_equal.
  - apply Decimal_add_swap.
  - apply Decimal_add_comm.
Qed.

Lemma fold_add_amount_Permutation (l l' : list PyDecimal) :
  Permutation l l' ->
  forall t, fold_left add_amount l t = fold_left add_amount l' t.
Proof.
  induction 1 as [|x l l' _ IH|x y l|l l' l'' _ IH1 _ IH2]; intros t; simpl.
  - reflexivity.
  - apply IH.
  - rewrite add_amount_swap. reflexivity.
  - rewrite IH1. apply IH2.
Qed.

Lemma fold_add_amount_Some (l : list PyDecimal) :
  forall a, fold_left add_amount l (Some a)
            = Some (fold_left Decimal_add l a).
Proof. induction l as [|b l IH]; intros a; simpl; [reflexivity | apply IH]. Qed.

Lemma merged_amount (lines : list item) :
  option_map entry_amount (merged lines)
  = fold_left add_amount (map item_amount lines) None.
Proof.
  destruct lines as [|first rest]; simpl; [reflexivity|].
  rewrite fold_add_amount_Some. reflexivity.
Qed.

Lemma Permutation_filter_bool (A : Type) (f : A -> bool) (l l' : list A) :
  Permutation l l' -> Permutation (filter f l) (filter f l').
Proof.
  induction 1 as [|x l l' _ IH|x y l|l l' l'' _ IH1 _ IH2]; simpl.
  - constructor.
  - destruct (f x); [constructor|]; exact IH.
  - destruct (f x), (f y); try reflexivity. apply perm_swap.
  - eapply perm_trans; eassumption.
Qed.

Lemma first_seen_In (n : string) (names : list string) :
  In n (first_seen names) <-> In n names.
Proof.
  pose proof (first_seen_mem n names) as H.
  split; intros Hin.
  - destruct (existsb (String.eqb n) names) eqn:E.
    + apply existsb_exists in E. destruct E as [x [Hx E]].
      apply String.eqb_eq in E. subst x. exact Hx.
    + rewrite <- H in E.
      assert (existsb (String.eqb n) (first_seen names) = true).
      { apply existsb_exists. exists n. split; [exact Hin|].
        apply String.eqb_refl. }
      congruence.
  - destruct (existsb (String.eqb n) (first_seen names)) eqn:E.
    + apply existsb_exists in E. destruct E as [x [Hx E]].
      apply String.eqb_eq in E. subst x. exact Hx.
    + rewrite H in E.
      assert (existsb (String.eqb n) names = true).
      { apply existsb_exists. exists n. split; [exact Hin|].
        apply String.eqb_refl. }
      congruence.
Qed.

Lemma aggregate_amount_Permutation (ingredients ingredients' : list item) :
  Permutation ingredients ingredients' ->
  forall n,
    option_map entry_amount (dict_get (aggregate ingredients) n)
    = option_map entry_amount (dict_get (aggregate ingredients') n).
Proof.
  intros P n. rewrite !aggregate_get, !merged_amount.
  apply fold_add_amount_Permutation.
  apply Permutation_map. unfold lines_of.
  apply Permutation_filter_bool. exact P.
Qed.

(** X14.  The rows come from a query without an ordering.  Whatever the
    order, the result has the same names and, under each name, the same
    amount; only the position of a name and the unit kept for it depend
    on which line came first. *)
Theorem aggregate_order_independent (ingredients ingredients' : list item) :
  Permutation ingredients ingredients' ->
  Permutation (map fst (aggregate ingredients))
              (map fst (aggregate ingredients'))
  /\ forall n,
       option_map entry_amount (dict_get (aggregate ingredients) n)
       = option_map entry_amount (dict_get (aggregate ingredients') n).
Proof.
  intros P. split.
  - rewrite !aggregate_keys.
    apply NoDup_Permutation; try apply first_seen_NoDup.
    intros n. rewrite !first_seen_In.
    split; apply Permutation_in;
      [|apply Permutation_sym]; apply Permutation_map; exact P.
  - apply aggregate_amount_Permutation. exact P.
Qed.

Lemma aggregate_order_independent_witness :
  Permutation Samples.flour_lines (rev Samples.flour_lines)
  /\ option_map entry_amount
       (dict_get (aggregate (rev Samples.flour_lines)) "flour")
     = Some (mkDecimal 425 (-2)).
Proof.
  split; [apply Permutation_rev|].
  rewrite <- (proj2 (aggregate_order_independent
                       Samples.flour_lines (rev Samples.flour_lines)
                       (Permutation_rev Samples.flour_lines)) "flour").
  reflexivity.
Defined.

(** The unit does depend on the order. *)
Example aggregate_unit_depends_on_order :
  aggregate [("flour", "kg", mkDecimal 250 (-2));
             ("flour", "g", mkDecimal 175 (-2))]
  = [("flour", mkEntry "kg" (mkDecimal 425 (-2)))]
  /\ aggregate [("flour", "g", mkDecimal 175 (-2));
                ("flour", "kg", mkDecimal 250 (-2))]
     = [("flour", mkEntry "g" (mkDecimal 425 (-2)))].
Proof. split; reflexivity. Qed.

(** ** The shopping list: what the query guarantees *)

Lemma flat_map_nil (A B : Type) (f : A -> list B) (l : list A) :
  (forall x, In x l -> f x = []) -> flat_map f l = [].
Proof.
  induction l as [|a l IH]; simpl; intros H; [reflexivity|].
  rewrite (H a) by auto. apply IH. auto.
Qed.

Lemma flat_map_ext_in (A B : Type) (f g : A -> list B) (l : list A) :
  (forall x, In x l -> f x = g x) -> flat_map f l = flat_map g l.
Proof.
  induction l as [|a l IH]; simpl; intros H; [reflexivity|].
  rewrite (H a) by auto. f_equal. apply IH. auto.
Qed.


(** The query, row by row of the amounts table, before the database
    orders the rows. *)
Lemma ingredients_query_rows (order : row_order) (s : Store) (u : Z) :
  ingredients_query order s u
  = order (flat_map (fun ia =>
                       flat_map (fun c => if matches u (ia_recipe ia) c
                                          then line_of s ia else [])
                                (Cart_objects s))
                    (IngredientAmount_objects s)).
Proof. reflexivity. Qed.

Lemma rows_in_order_nil (order : row_order) : order [] = [].
Proof.
  apply Permutation_nil. apply Permutation_sym. apply (rows_kept order).
Qed.

(** X9.  A user with no row in the cart table gets the title and no
    line: the document is the same whatever recipes and amounts the
    store holds. *)
Theorem download_cart_empty_cart (order : row_order) (s : Store) (u : Z) :
  (forall c, In c (Cart_objects s) -> user c <> u) ->
  ingredients_query order s u = []
  /\ page (download_cart order s u)
     = [setFont "Handicraft" 24; drawString 200 800 title;
        setFont "Handicraft" 16; showPage; save].
Proof.
  intros H.
  assert (Hq : ingredients_query order s u = []).
  { rewrite ingredients_query_rows.
    rewrite flat_map_nil; [apply rows_in_order_nil|]. intros ia _.
    apply flat_map_nil. intros c Hc. unfold matches.
    destruct (user c =? u) eqn:E; [|reflexivity].
    apply Z.eqb_eq in E. exfalso. exact (H c Hc E). }
  split; [exact Hq|].
  unfold download_cart; simpl. rewrite Hq. reflexivity.
Qed.

Lemma download_cart_empty_cart_witness :
  (forall c, In c (Cart_objects Samples.store_with_cart) -> user c <> 5)
  /\ ingredients_query Samples.reverse_order Samples.store_with_cart 5 = [].
Proof.
  assert (H : forall c, In c (Cart_objects Samples.store_with_cart)
                        -> user c <> 5).
  { simpl. intros c [<-|[<-|[<-|[]]]]; simpl; lia. }
  split; [exact H|].
  exact (proj1 (download_cart_empty_cart Samples.reverse_order
                  Samples.store_with_cart 5 H)).
Defined.

Lemma flat_map_unique_match (B : Type) (u pk : Z) (X : list B)
      (rows : list Membership) :
  NoDup rows ->
  flat_map (fun c => if matches u pk c then X else []) rows
  = if existsb (matches u pk) rows then X else [].
Proof.
  induction rows as [|c rows IH]; simpl; intros ND; [reflexivity|].
  inversion ND as [|? ? Hnotin ND']; subst.
  destruct (matches u pk c) eqn:E; simpl.
  - apply matches_spec in E. subst c.
    rewrite (IH ND').
    destruct (existsb (matches u pk) rows) eqn:E';
      [|apply app_nil_r].
    apply existsb_matches in E'. contradiction.
  - apply IH. exact ND'.
Qed.

(** X10.  When the cart table respects its unique constraint, every
    amount line of a recipe in the user's cart is fetched once and the
    lines of the other recipes are not fetched, in whatever order the
    database gives the rows: nothing is counted twice, and the amount
    shown for a name is the sum of those lines. *)
Theorem ingredients_query_once (order : row_order) (s : Store) (u : Z) :
  NoDup (Cart_objects s) ->
  Permutation
    (ingredients_query order s u)
    (flat_map (fun ia =>
                 if existsb (matches u (ia_recipe ia)) (Cart_objects s)
                 then line_of s ia else [])
              (IngredientAmount_objects s))
  /\ forall n,
       option_map entry_amount
         (dict_get (aggregate (ingredients_query order s u)) n)
       = option_map entry_amount
           (merged
              (lines_of n
                 (flat_map
                    (fun ia =>
                       if existsb (matches u (ia_recipe ia)) (Cart_objects s)
                       then line_of s ia else [])
                    (IngredientAmount_objects s)))).
Proof.
  intros ND.
  assert (P : Permutation
                (ingredients_query order s u)
                (flat_map (fun ia =>
                             if existsb (matches u (ia_recipe ia))
                                        (Cart_objects s)
                             then line_of s ia else [])
                          (IngredientAmount_objects s))).
  { rewrite ingredients_query_rows.
    eapply perm_trans; [apply (rows_kept order)|].
    erewrite flat_map_ext_in; [apply Permutation_refl|].
    intros ia _. apply flat_map_unique_match. exact ND. }
  split; [exact P|].
  intros n. rewrite (aggregate_amount_Permutation _ _ P n), aggregate_get.
  reflexivity.
Qed.

Lemma ingredients_query_once_witness :
  NoDup (Cart_objects Samples.store_with_cart)
  /\ Permutation
       (ingredients_query Samples.reverse_order Samples.store_with_cart 3)
       Samples.flour_lines
  /\ option_map entry_amount
       (dict_get (aggregate (ingredients_query Samples.reverse_order
                               Samples.store_with_cart 3)) "flour")
     = Some (mkDecimal 425 (-2)).
Proof.
  assert (ND : NoDup (Cart_objects Samples.store_with_cart)).
  { simpl. repeat constructor; simpl; intuition discriminate. }
  split; [exact ND|].
  destruct (ingredients_query_once Samples.reverse_order
              Samples.store_with_cart 3 ND) as [P H].
  split; [exact P | exact (H "flour")].
Defined.

(** The rows of user 3 as two databases may give them. *)
Example ingredients_query_two_orders :
  ingredients_query Samples.table_order Samples.store_with_cart 3
  = [("flour", "g", mkDecimal 250 (-2));
     ("salt", "g", mkDecimal 100 (-2));
     ("flour", "g", mkDecimal 175 (-2))]
  /\ ingredients_query Samples.reverse_order Samples.store_with_cart 3
     = [("flour", "g", mkDecimal 175 (-2));
        ("salt", "g", mkDecimal 100 (-2));
        ("flour", "g", mkDecimal 250 (-2))].
Proof. split; reflexivity. Qed.






(** ** What the validation functions let through *)








(** A [float] and a [Decimal] pass [validate] as an [int] does. *)
Example validate_float_and_Decimal :
  let data :=
    PyDict [("ingredients",
             PyList [PyDict [("id", PyInstance "Ingredient" 1);
                             ("amount", PyFloat (1 # 2))];
                     PyDict [("id", PyInstance "Ingredient" 2);
                             ("amount", PyDec (mkDecimal 2 (-2)))]]);
            ("cooking_time", PyFloat (3 # 2))] in
  validate data = Ok data.
Proof. reflexivity. Qed.

(** The [Decimal] 0.01 is below the float [0.01], which is a little
    more than one hundredth. *)
Example validate_Decimal_0_01 :
  validate (PyDict [("ingredients",
                     PyList [PyDict [("id", PyInstance "Ingredient" 1);
                                     ("amount", PyDec (mkDecimal 1 (-2)))]]);
                    ("cooking_time", PyInt 30)])
  = Raise (err "amount" "Минимальное значение — 0.01.").
Proof. reflexivity. Qed.

Lemma validate_tags_loop_result (tags : list pyobj) :
  forall seen,
    (validate_tags_loop tags seen = Ok tt
     /\ forall pre x post, tags = pre ++ x :: post ->
                           py_in x (seen ++ pre) = false)
    \/ (validate_tags_loop tags seen
        = Raise (err "tags" "Теги не должны повторяться.")
        /\ exists pre x post, tags = pre ++ x :: post
                              /\ py_in x (seen ++ pre) = true).
Proof.
  induction tags as [|tag rest IH]; intros seen; simpl.
  - left. split; [reflexivity|]. intros pre x post E.
    destruct pre; discriminate.
  - destruct (py_in tag seen) eqn:Hseen.
    + right. split; [reflexivity|].
      exists [], tag, rest. rewrite app_nil_r. auto.
    + destruct (IH (seen ++ [tag])) as [[Hok HP]|[Hdup [pre [x [post [E Hx]]]]]].
      * left. split; [exact Hok|].
        intros pre x post E. destruct pre as [|p pre]; simpl in E;
          injection E as -> ->.
        -- rewrite app_nil_r. exact Hseen.
        -- specialize (HP pre x post eq_refl).
           rewrite <- app_assoc in HP. exact HP.
      * right. split; [exact Hdup|].
        exists (tag :: pre), x, post. split; [simpl; congruence|].
        rewrite <- app_assoc in Hx. exact Hx.
Qed.

(** X16.  [validate_tags] on a dict whose [tags] is a list: the error
    keyed [tags] for an empty list and for a list in which a tag comes
    back, and otherwise [None], not the tags: the method has no
    [return]. *)
Theorem validate_tags_on_dict (items : list (string * pyobj))
        (tags : list pyobj) :
  dict_get items "tags" = Some (PyList tags) ->
  (tags = [] ->
   validate_tags (PyDict items) = Raise (err "tags" "Минимум 1 тег."))
  /\ (tags <> [] -> no_repeat tags ->
      validate_tags (PyDict items) = Ok PyNone)
  /\ (tags <> [] -> ~ no_repeat tags ->
      validate_tags (PyDict items)
      = Raise (err "tags" "Теги не должны повторяться.")).
Proof.
  intros Hget. unfold validate_tags. cbn [py_get]. rewrite Hget.
  cbn [bind py_not py_iter].
  split; [intros ->; reflexivity|].
  destruct (validate_tags_loop_result tags [])
    as [[Hok HP]|[Hdup [pre [x [post [E Hx]]]]]].
  - split; intros Hne Hnr.
    + destruct tags; [contradiction|]. rewrite Hok. reflexivity.
    + exfalso. apply Hnr. intros pre x post E. exact (HP pre x post E).
  - split; intros Hne Hnr.
    + exfalso. specialize (Hnr pre x post E). simpl in Hx. congruence.
    + destruct tags; [contradiction|]. rewrite Hdup. reflexivity.
Qed.

Lemma validate_tags_on_dict_witness :
  dict_get [("tags", PyList [PyInstance "Tag" 1; PyInstance "Tag" 2])] "tags"
  = Some (PyList [PyInstance "Tag" 1; PyInstance "Tag" 2])
  /\ validate_tags
       (PyDict [("tags", PyList [PyInstance "Tag" 1; PyInstance "Tag" 2])])
     = Ok PyNone.
Proof.
  split; [reflexivity|].
  apply (validate_tags_on_dict
           [("tags", PyList [PyInstance "Tag" 1; PyInstance "Tag" 2])]
           [PyInstance "Tag" 1; PyInstance "Tag" 2] eq_refl).
  - discriminate.
  - intros pre x post E.
    destruct pre as [|p [|q [|r pre]]]; simpl in E.
    + reflexivity.
    + injection E as <- <- _. reflexivity.
    + injection E as _ _ E. discriminate.
    + injection E as _ _ E. discriminate.
Defined.

(** ** Base64ImageField *)

Section Base64.
Import Fields.

Example split_data_uri :
  split "data:image/png;base64,iVBORw0KGgo=" ";base64,"
  = ["data:image/png"; "iVBORw0KGgo="].
Proof. reflexivity. Qed.

Example split_slash : split "data:image/png" "/" = ["data:image"; "png"].
Proof. reflexivity. Qed.

Example split_no_overlap : split "aaa" "aa" = [""; "a"].
Proof. reflexivity. Qed.

Example split_trailing : split "a,b," "," = ["a"; "b"; ""].
Proof. reflexivity. Qed.

Lemma startswith_app (sep rest : string) : startswith (sep ++ rest) sep = true.
Proof.
  induction sep as [|a sep IH]; simpl; [reflexivity|].
  rewrite Ascii.eqb_refl. exact IH.
Qed.

Lemma startswith_cons (a : ascii) (sep rest : string) :
  startswith (String a (sep ++ rest)) (String a sep) = true.
Proof. exact (startswith_app (String a sep) rest). Qed.

Lemma startswith_first (c a : ascii) (s sep : string) :
  Ascii.eqb a c = false -> startswith (String c s) (String a sep) = false.
Proof. intros H. simpl. rewrite H. reflexivity. Qed.

Lemma append_assoc (a b c : string) :
  ((a ++ b) ++ c)%string = (a ++ (b ++ c))%string.
Proof. induction a as [|x a IH]; simpl; [reflexivity | rewrite IH; reflexivity]. Qed.

Lemma append_nil_r (a : string) : (a ++ "")%string = a.
Proof. induction a as [|x a IH]; simpl; [reflexivity | rewrite IH; reflexivity]. Qed.

Lemma occurs_app (c : ascii) (a b : string) :
  occurs c (a ++ b) = occurs c a || occurs c b.
Proof.
  induction a as [|x a IH]; simpl; [reflexivity|].
  rewrite IH, orb_assoc. reflexivity.
Qed.

(** A string without the first character of the separator is one piece. *)
Lemma split_from_absent (a : ascii) (sep s : string) :
  forall cur, occurs a s = false ->
              split_from (String a sep) 0 cur s = [(cur ++ s)%string].
Proof.
  induction s as [|c s IH]; intros cur H; cbn [split_from].
  - rewrite append_nil_r. reflexivity.
  - simpl in H. apply orb_false_iff in H. destruct H as [Hc Hs].
    rewrite (startswith_first c a s sep Hc).
    rewrite (IH _ Hs), append_assoc. reflexivity.
Qed.

(** The characters of a separator that was found are passed over. *)
Lemma split_from_skip (sep t rest : string) :
  forall cur, split_from sep (String.length t) cur (t ++ rest)
              = split_from sep 0 cur rest.
Proof.
  induction t as [|c t IH]; intros cur; simpl.
  - destruct rest; reflexivity.
  - apply IH.
Qed.

(** The first separator after a piece without its first character. *)
Lemma split_from_found (a : ascii) (sep pre post : string) :
  forall cur,
    occurs a pre = false ->
    split_from (String a sep) 0 cur (pre ++ String a sep ++ post)
    = (cur ++ pre)%string :: split_from (String a sep) 0 "" post.
Proof.
  induction pre as [|c pre IH]; intros cur H.
  - cbn [append split_from].
    rewrite (startswith_cons a sep post).
    rewrite append_nil_r. f_equal.
    replace (String.length (String a sep) - 1)%nat with (String.length sep)
      by (cbn [String.length]; lia).
    apply split_from_skip.
  - simpl in H. apply orb_false_iff in H. destruct H as [Hc Hpre].
    cbn [append split_from].
    rewrite (startswith_first c a _ sep Hc).
    rewrite (IH _ Hpre), append_assoc. reflexivity.
Qed.

Lemma split_from_nonempty (sep s : string) :
  forall skip cur, split_from sep skip cur s <> [].
Proof.
  induction s as [|c s IH]; intros skip cur; cbn [split_from];
    [discriminate|].
  destruct skip; [|apply IH].
  destruct (startswith (String c s) sep); [discriminate | apply IH].
Qed.

Variable b64decode : string -> option string.
Variable super_ : upload -> result upload.

(** X17.  A data URI "data:image/<ext>;base64,<payload>", with no
    semicolon and no slash in the extension and no semicolon in the
    payload, becomes a file named "temp.<ext>" holding the decoded
    payload, which is handed to the image field; when the payload does
    not decode, the decoder's error leaves the method. *)
Theorem to_internal_value_data_uri (ext payload : string) :
  occurs ";" ext = false ->
  occurs "/" ext = false ->
  occurs ";" payload = false ->
  to_internal_value b64decode super_
    (Text ("data:image/" ++ ext ++ ";base64," ++ payload))
  = match b64decode payload with
    | Some content =>
        match super_ (FileObject content ("temp." ++ ext)) with
        | Ok f => Returned f
        | Raise e => Raised (FromImageField e)
        end
    | None => Raised binascii_Error
    end.
Proof.
  intros Hext Hslash Hpay.
  unfold to_internal_value.
  change (startswith ("data:image/" ++ ext ++ ";base64," ++ payload)
                     "data:image") with true. cbv iota.
  assert (Hsplit : split ("data:image/" ++ ext ++ ";base64," ++ payload)
                         ";base64,"
                   = [("data:image/" ++ ext)%string; payload]).
  { unfold split.
    replace ("data:image/" ++ ext ++ ";base64," ++ payload)%string
      with (("data:image/" ++ ext) ++ String ";" "base64," ++ payload)%string
      by (rewrite append_assoc; reflexivity).
    rewrite split_from_found
      by (rewrite occurs_app, Hext; reflexivity).
    rewrite split_from_absent by exact Hpay. reflexivity. }
  rewrite Hsplit.
  assert (Hext' : last (split ("data:image/" ++ ext) "/") "" = ext).
  { unfold split.
    change ("data:image/" ++ ext)%string
      with ("data:image" ++ String "/" "" ++ ext)%string.
    rewrite split_from_found by reflexivity.
    rewrite split_from_absent by exact Hslash. reflexivity. }
  rewrite Hext'. reflexivity.
Qed.

(** X18.  A string that starts with "data:image" and has no semicolon
    has no ";base64," to be split at: the unpacking of the two parts
    raises [ValueError], which is not a validation error; and so it does
    when ";base64," occurs twice. *)
Theorem to_internal_value_not_two_parts (s pre mid post : string) :
  startswith s "data:image" = true ->
  (occurs ";" s = false ->
   to_internal_value b64decode super_ (Text s)
   = Raised (ValueError "not enough values to unpack (expected 2, got 1)"))
  /\ (s = (pre ++ ";base64," ++ mid ++ ";base64," ++ post)%string ->
      occurs ";" pre = false -> occurs ";" mid = false ->
      to_internal_value b64decode super_ (Text s)
      = Raised (ValueError "too many values to unpack (expected 2)")).
Proof.
  intros Hstart. unfold to_internal_value. rewrite Hstart. split.
  - intros H. unfold split.
    rewrite (split_from_absent ";" "base64," s "" H). reflexivity.
  - intros -> Hpre Hmid. unfold split.
    rewrite (split_from_found ";" "base64," pre _ "" Hpre).
    rewrite (split_from_found ";" "base64," mid _ "" Hmid).
    destruct (split_from ";base64," 0 "" post) eqn:E;
      [exfalso; exact (split_from_nonempty _ _ _ _ E) | reflexivity].
Qed.

End Base64.

Lemma to_internal_value_data_uri_witness :
  Fields.occurs ";" "png" = false
  /\ Fields.to_internal_value (fun payload => Some payload)
       (fun file => Ok file) (Fields.Text "data:image/png;base64,iVBORw0KGgo=")
     = Fields.Returned (Fields.FileObject "iVBORw0KGgo=" "temp.png").
Proof.
  split; [reflexivity|].
  exact (to_internal_value_data_uri (fun payload => Some payload)
           (fun file => Ok file) "png" "iVBORw0KGgo="
           eq_refl eq_refl eq_refl).
Defined.

Lemma to_internal_value_not_two_parts_witness :
  Fields.startswith "data:image/png" "data:image" = true
  /\ Fields.to_internal_value (fun payload => Some payload)
       (fun file => Ok file) (Fields.Text "data:image/png")
     = Fields.Raised
         (Fields.ValueError "not enough values to unpack (expected 2, got 1)").
Proof.
  split; [reflexivity|].
  exact (proj1 (to_internal_value_not_two_parts (fun payload => Some payload)
                  (fun file => Ok file) "data:image/png" "" "" "" eq_refl)
               eq_refl).
Defined.

(** ** Subscriptions *)

(** X19.  [FollowViewSet.delete] looks the author up first: for a user
    id that no user has it ends in [Http404] and writes nothing; for an
    existing one it answers 204, keeps the users and removes the
    subscription of the requesting user to that author and no other
    row. *)
Theorem FollowViewSet_delete_spec (request_user user_id : Z)
        (s : UsersViews.UsersStore) :
  (~ In user_id (UsersViews.User_objects s) ->
   UsersViews.delete request_user user_id s = (Raise Http404, s))
  /\ (In user_id (UsersViews.User_objects s) ->
      fst (UsersViews.delete request_user user_id s)
      = Ok (mkResponse None 204)
      /\ UsersViews.User_objects (snd (UsersViews.delete request_user user_id s))
         = UsersViews.User_objects s
      /\ forall f,
           In f (UsersViews.Follow_objects
                   (snd (UsersViews.delete request_user user_id s)))
           <-> In f (UsersViews.Follow_objects s)
               /\ f <> UsersViews.mkFollow request_user user_id).
Proof.
  unfold UsersViews.delete, UsersViews.get_object_or_404.
  split; intros H.
  - destruct (existsb (Z.eqb user_id) (UsersViews.User_objects s)) eqn:E;
      [|reflexivity].
    apply existsb_exists in E. destruct E as [x [Hx E]].
    apply Z.eqb_eq in E. subst x. contradiction.
  - assert (E : existsb (Z.eqb user_id) (UsersViews.User_objects s) = true).
    { apply existsb_exists. exists user_id. split; [exact H|].
      apply Z.eqb_refl. }
    rewrite E; simpl. split; [reflexivity|]. split; [reflexivity|].
    intros f. rewrite filter_In, negb_true_iff.
    unfold UsersViews.subscription. destruct f as [fu fa]; simpl.
    split.
    + intros [Hin Hneq]. split; [exact Hin|].
      intros [= -> ->]. rewrite !Z.eqb_refl in Hneq. discriminate.
    + intros [Hin Hneq]. split; [exact Hin|].
      apply not_true_iff_false. rewrite andb_true_iff, !Z.eqb_eq.
      intros [-> ->]. apply Hneq. reflexivity.
Qed.

Lemma FollowViewSet_delete_spec_witness :
  ~ In 9 (UsersViews.User_objects
            (UsersViews.mkUsersStore [1; 2] [UsersViews.mkFollow 1 2]))
  /\ UsersViews.delete 1 9
       (UsersViews.mkUsersStore [1; 2] [UsersViews.mkFollow 1 2])
     = (Raise Http404,
        UsersViews.mkUsersStore [1; 2] [UsersViews.mkFollow 1 2]).
Proof.
  assert (H : ~ In 9 (UsersViews.User_objects
                        (UsersViews.mkUsersStore [1; 2]
                                                 [UsersViews.mkFollow 1 2])))
    by (simpl; intuition discriminate).
  split; [exact H|].
  exact (proj1 (FollowViewSet_delete_spec 1 9 _) H).
Defined.

(** ** The colour of a tag *)

Section Color.
Import Validators.

Example color_short : color_validators "#E26" = true.
Proof. reflexivity. Qed.

Example color_long : color_validators "#E26C2D" = true.
Proof. reflexivity. Qed.

Example color_four_digits : color_validators "#E26C" = false.
Proof. reflexivity. Qed.

Example color_not_hex : color_validators "#E26C2G" = false.
Proof. reflexivity. Qed.

Example color_no_hash : color_validators "E26C2D" = false.
Proof. reflexivity. Qed.

Lemma search_from_not_start (r : regex) (s : string) :
  search_from (Seq Bol r) false s = false.
Proof. induction s as [|c s IH]; simpl; [reflexivity | exact IH]. Qed.

Ltac next_char H s c Hc :=
  destruct s as [|c s]; [discriminate|];
  apply andb_true_iff in H; destruct H as [Hc H].

Ltac at_end H s :=
  destruct s as [|?c [|? ?]]; try discriminate;
  [|rewrite andb_true_r in H; apply Ascii.eqb_eq in H; subst].

(** What the pattern finds: a hash sign, three or six hexadecimal
    digits, and then the end of the string or a newline that ends it. *)
Lemma search_color_regex (value : string) :
  search color_regex value = true
  <-> exists h,
        Forall (fun c => hex c = true) h
        /\ (List.length h = 3%nat \/ List.length h = 6%nat)
        /\ (value = String "#" (string_of h)
            \/ value = (String "#" (string_of h) ++ newline)%string).
Proof.
  unfold search, color_regex. split.
  - destruct value as [|c0 s]; [discriminate|].
    cbn [search_from]. rewrite search_from_not_start, orb_false_r.
    cbn [match_here once_or_twice times andb].
    intros H.
    apply andb_true_iff in H. destruct H as [H0 H].
    apply Ascii.eqb_eq in H0. subst c0.
    next_char H s c1 H1. next_char H s c2 H2. next_char H s c3 H3.
    apply orb_true_iff in H. destruct H as [H|H].
    + next_char H s c4 H4. next_char H s c5 H5. next_char H s c6 H6.
      exists [c1; c2; c3; c4; c5; c6].
      split; [repeat constructor; assumption|].
      split; [right; reflexivity|].
      at_end H s; [left | right]; reflexivity.
    + exists [c1; c2; c3].
      split; [repeat constructor; assumption|].
      split; [left; reflexivity|].
      at_end H s; [left | right]; reflexivity.
  - intros [h [Hhex [Hlen Hval]]].
    assert (Hshape :
      (exists c1 c2 c3, h = [c1; c2; c3])
      \/ (exists c1 c2 c3 c4 c5 c6, h = [c1; c2; c3; c4; c5; c6])).
    { destruct Hlen as [Hlen|Hlen];
        [left | right];
        repeat (destruct h as [|? h]; try discriminate);
        repeat eexists. }
    destruct Hshape as [[c1 [c2 [c3 ->]]]|[c1 [c2 [c3 [c4 [c5 [c6 ->]]]]]]];
      repeat match goal with
             | H : Forall _ (_ :: _) |- _ =>
                 let Hc := fresh "Hc" in
                 pose proof (Forall_inv H) as Hc;
                 apply Forall_inv_tail in H; cbv beta in Hc
             end;
      destruct Hval as [->| ->];
      cbn [search_from string_of append newline];
      cbn [match_here once_or_twice times andb];
      repeat match goal with
             | H : hex _ = true |- _ => rewrite H; clear H
             end;
      reflexivity.
Qed.

(** X20.  The values that the validators of [Tag.color] accept are a
    hash sign followed by three or by six hexadecimal digits and, as the
    pattern ends in [$], a hash sign with three hexadecimal digits and a
    newline after them; with six digits the newline is one character too
    many for [max_length=7]. *)
Theorem color_validators_spec (value : string) :
  color_validators value = true
  <-> exists h,
        Forall (fun c => hex c = true) h
        /\ ((List.length h = 3%nat
             /\ (value = String "#" (string_of h)
                 \/ value = (String "#" (string_of h) ++ newline)%string))
            \/ (List.length h = 6%nat
                /\ value = String "#" (string_of h))).
Proof.
  unfold color_validators. rewrite andb_true_iff, search_color_regex.
  split.
  - intros [Hlen [h [Hhex [Hh Hval]]]]. exists h. split; [exact Hhex|].
    destruct Hh as [Hh|Hh]; [left; auto|].
    right. split; [exact Hh|].
    destruct Hval as [Hval|Hval]; [exact Hval|].
    exfalso. subst value.
    repeat (destruct h as [|? h]; try discriminate).
  - intros [h [Hhex [[Hh Hval]|[Hh Hval]]]].
    + split; [|exists h; auto].
      repeat (destruct h as [|? h]; try discriminate).
      destruct Hval as [->| ->]; reflexivity.
    + split; [|exists h; auto].
      repeat (destruct h as [|? h]; try discriminate).
      subst value. reflexivity.
Qed.

Example color_trailing_newline :
  color_validators ("#E26" ++ newline) = true
  /\ color_validators ("#E26C2D" ++ newline) = false
  /\ search color_regex ("#E26C2D" ++ newline) = true.
Proof. repeat split; reflexivity. Qed.

End Color.

(** ** What never succeeds *)

(** X21.  [add_to] never gets to its [return]: it ends in [Http404]
    when the recipe is missing, in the [IntegrityError] of the unique
    constraint when the pair is there, and otherwise, the row written,
    in the [ImproperlyConfigured] of the summary serializer. *)
Theorem add_to_never_responds (model : MembershipModel) (u pk : Z) (s : Store) :
  (get_object_or_404 s pk = Raise Http404
   /\ add_to model u pk s = (Raise Http404, s))
  \/ (In (mkMembership u pk) (objects model s)
      /\ add_to model u pk s
         = (Raise (IntegrityError (unique_constraint model)), s))
  \/ (~ In (mkMembership u pk) (objects model s)
      /\ add_to model u pk s
         = (Raise (ImproperlyConfigured
                     "Field name `cooking_time` is not valid for model `Recipe`."),
            set_objects model (objects model s ++ [mkMembership u pk]) s)).
Proof.
  unfold add_to.
  destruct (get_object_or_404 s pk) as [r|e] eqn:G.
  - destruct (get_object_or_404_found s pk r G) as [Hid _].
    unfold objects_create. rewrite Hid.
    destruct (existsb (matches u pk) (objects model s)) eqn:E.
    + right. left. split; [apply existsb_matches; exact E | reflexivity].
    + right. right. split.
      * rewrite <- existsb_matches, E. discriminate.
      * rewrite ShortRecipeSerializer_data_raises. reflexivity.
  - left. unfold get_object_or_404 in G.
    destruct (find _ _); [discriminate|].
    injection G as <-. split; reflexivity.
Qed.

(** X22.  No create or update request passes the validation of
    [RecipeSerializer], whatever the image field does and whether the
    request is partial or not: the validation ends in an exception.
    When the request carries tags and the image field lets the loop go
    on, the exception is the [AttributeError] of [validate_tags] if the
    field accepts the tags, and a validation error that carries the key
    [tags] if it does not; [validate] is then not reached. *)
Theorem recipe_validation_never_accepts (self : Serializer) (s : Store)
        (req : RecipeRequest) :
  (exists e, run_validation self s req = Raise e)
  /\ forall tags,
       req_tags req = Some tags ->
       image_handled self req ->
       run_validation self s req
       = Raise (AttributeError "'list' object has no attribute 'get'")
       \/ exists errors d,
            run_validation self s req
            = Raise (ValidationError (Fields errors))
            /\ In ("tags", d) errors.
Proof.
  split.
  - destruct (run_validation self s req) as [v|e] eqn:H; [|eauto].
    exfalso. exact (run_validation_never_ok self s req v H).
  - intros tags Hreq Himage. unfold run_validation.
    destruct (ManyRelatedField_result s tags) as [[ts H]|[d H]].
    + left.
      rewrite (to_internal_value_tags_hook self s req tags ts Himage Hreq H).
      reflexivity.
    + right.
      destruct (to_internal_value_tags_refused self s req tags d Himage Hreq H)
        as [errors [-> Hin]].
      exists errors, d. split; [reflexivity | exact Hin].
Qed.

Lemma recipe_validation_never_accepts_witness :
  image_handled Samples.serializer (Samples.request [] [2] 0)
  /\ (run_validation Samples.serializer Samples.store
        (Samples.request [] [2] 0)
      = Raise (AttributeError "'list' object has no attribute 'get'")
      \/ exists errors d,
           run_validation Samples.serializer Samples.store
             (Samples.request [] [2] 0)
           = Raise (ValidationError (Fields errors))
           /\ In ("tags", d) errors).
Proof.
  assert (H : image_handled Samples.serializer (Samples.request [] [2] 0)).
  { left. eexists. reflexivity. }
  split; [exact H|].
  exact (proj2 (recipe_validation_never_accepts Samples.serializer
                  Samples.store (Samples.request [] [2] 0))
               [2] eq_refl H).
Defined.
